(** * ImFlow: label reconciliation, per-sample decoding and pipeline assembly

    A shallow embedding of [imflow/imflow.py].  Python functions become Rocq
    functions of the same name; exceptions become the [Raise] branch of a
    small error monad; numpy arrays become a shape together with row-major
    data; the [tf.data] pipeline, which the source only declares, becomes a
    datatype of pipeline stages.

    Numeric conventions.  numpy stores integer labels in 64-bit signed
    integers: a label is a [Z] in that range ([Np.int64]), and the two places
    where the source does arithmetic on labels, the row sums of line 545 and
    the increment of line 553, wrap around ([Np.wrap64]).  Floating-point
    values are IEEE binary floats in the [spec_float] representation of the
    standard library, binary64 for [astype(float)] and binary32 for
    [astype(np.float32)] and for the size computation of
    [tf.image.resize_with_pad].  The resize operations of TensorFlow are
    described by their geometry (which part of the source lands where in the
    result, and what is zero padding); the interpolated sample values
    themselves are not computed.

    Execution.  The entry points only declare a pipeline: [Dataset.map]
    traces [load_image] as a graph and the engine runs it once per sample.
    [load_image] is modelled by what one such run does on one path, with the
    execution mode as a parameter: called eagerly, [set_shape] raises a
    ValueError on a tensor of another shape; in the pipeline the recorded
    shape is the declared shape of the dataset's elements, and the run that
    produces a tensor of another shape ends in an InvalidArgumentError.
    Errors are attributed to the run that reaches the failing call; what
    tracing itself refuses when the dataset is built is not separated from
    what the runs refuse. *)

From Stdlib Require Import String Ascii.
From Stdlib Require Import ZArith QArith Qround List Bool Lia Permutation.
From Stdlib Require Import Floats.SpecFloat.
Import ListNotations.
Open Scope string_scope.
Open Scope list_scope.
Open Scope Z_scope.

Set Implicit Arguments.
Set Warnings "-register-all".

(** ** Exceptions *)

(** The texts of the exceptions raised by the source, one constructor per
    raise site (line of [imflow.py] in the comment). *)
Inductive message : Type :=
| msg_labels_not_a_sequence     (* 272, 492: `labels` argument should be a list/tuple ... *)
| msg_class_names_not_inferred  (* 282: You can only pass `class_names` if labels=inferred *)
| msg_label_mode                (* 288, 496: `label_mode` argument must be one of ... *)
| msg_color_mode                (* 509: `color_mode` must be one of rgb, rgba, grayscale *)
| msg_labels_shape_samples      (* 525: input `labels` must have shape (samples,) *)
| msg_binary_two_classes        (* 532: there must be exactly 2 classes *)
| msg_labels_shape_matrix       (* 538: `labels` must have shape (samples, num_classes) *)
| msg_use_binary                (* 542: Only a single class/label found, please use binary *)
| msg_use_multi_label           (* 546: More than one class assigned, please use multi_label *)
| msg_no_training_images        (* 575 *)
| msg_no_validation_images      (* 580 *)
| msg_no_images                 (* 629 *)
| msg_zero_size_reduction       (* numpy: zero-size array to reduction operation maximum *)
| msg_multiframe_dicom          (* 93: Multiframe DICOM files are not supported *)
| msg_not_an_image_rank         (* tf.image: 'images' must have either 3 or 4 dimensions *)
| msg_size_not_positive         (* tf.image: target height and width must be positive *)
| msg_empty_image               (* tf.image: all inner dimensions of the image must be > 0 *)
| msg_index_out_of_range        (* tf.shape(img)[0] of a scalar *)
| msg_none_is_not_a_tensor      (* tf.numpy_function: the Python function returned None *)
| msg_incompatible_shape        (* set_shape: the tensor's shape is not compatible with the supplied shape *)
| msg_pad_exceeds_target        (* tf.image.pad_to_bounding_box: height/width must be <= target - offset *)
| msg_utils (what : string).    (* raised inside the utils package or a decoder *)

Inductive exn : Type :=
| ValueError (m : message)
| UnboundLocalError (variable : string)
| KeyError (key : string)
| IndexError
| AttributeError (attribute : string)
| TypeError (keyword : string)        (* a call with an unexpected keyword argument *)
| InvalidArgumentError (m : message)   (* tf.errors.InvalidArgumentError, raised by tf.Assert *)
| OpError (m : message).               (* any other error of a TensorFlow op *)

(** The error taxonomy of the specification, read off the exception. *)
Inductive error_kind : Type :=
| InvalidArgument | EmptyDataset | UnsupportedFormat | DecodeFailure | Crash.

Definition kind_of (e : exn) : error_kind :=
  match e with
  | ValueError msg_no_training_images
  | ValueError msg_no_validation_images
  | ValueError msg_no_images => EmptyDataset
  | ValueError _ => InvalidArgument
  | InvalidArgumentError msg_multiframe_dicom => UnsupportedFormat
  | InvalidArgumentError _ | OpError _ => DecodeFailure
  | KeyError _ | IndexError | AttributeError _ => DecodeFailure
  | UnboundLocalError _ | TypeError _ => Crash
  end.

Inductive result (A : Type) : Type :=
| Ok (a : A)
| Raise (e : exn).
Arguments Ok {A} a.
Arguments Raise {A} e.

Definition bind {A B : Type} (r : result A) (k : A -> result B) : result B :=
  match r with
  | Ok a => k a
  | Raise e => Raise e
  end.

Declare Scope result_scope.
Delimit Scope result_scope with result.
Notation "x <- r ;; k" := (bind r (fun x => k))
  (at level 61, r at next level, right associativity) : result_scope.
Notation "r ;;; k" := (bind r (fun _ => k))
  (at level 61, right associativity) : result_scope.
Open Scope result_scope.

(** [if cond: raise e] *)
Definition raise_if (cond : bool) (e : exn) : result unit :=
  if cond then Raise e else Ok tt.

Definition fails_with {A : Type} (r : result A) (k : error_kind) : Prop :=
  exists e, r = Raise e /\ kind_of e = k.

(** [for x in xs: f(x)], stopping at the first exception. *)
Fixpoint traverse {A B : Type} (f : A -> result B) (xs : list A) : result (list B) :=
  match xs with
  | [] => Ok []
  | x :: xs' => y <- f x ;; ys <- traverse f xs' ;; Ok (y :: ys)
  end.

(** ** numpy arrays *)

Module Np.

Record ndarray (A : Type) : Type := mk_ndarray
  { shape : list nat;     (* extent of each axis *)
    data : list A }.      (* the elements in row-major (C) order *)

Definition size_of (s : list nat) : nat := fold_right Nat.mul 1%nat s.

Definition well_shaped {A : Type} (a : ndarray A) : Prop :=
  length (data a) = size_of (shape a).

Definition ndim {A : Type} (a : ndarray A) : nat := length (shape a).

(** [a.shape[i]]; out of range is an IndexError in Python. *)
Definition shape_at {A : Type} (a : ndarray A) (i : nat) : option nat :=
  nth_error (shape a) i.

(** [np.expand_dims(a, axis=-1)] *)
Definition expand_dims_last {A : Type} (a : ndarray A) : ndarray A :=
  mk_ndarray (shape a ++ [1%nat]) (data a).

(** [np.unique(a)]: the distinct elements (numpy also sorts them; the
    source only takes the length). *)
Definition unique (a : ndarray Z) : list Z := nodup Z.eq_dec (data a).

(** [np.max(a)]: the maximum over all elements; a ValueError on an empty
    array. *)
Definition max (a : ndarray Z) : result Z :=
  match data a with
  | [] => Raise (ValueError msg_zero_size_reduction)
  | x :: xs => Ok (fold_left Z.max xs x)
  end.

(** Cut a list into consecutive pieces of length [n]. *)
Fixpoint chunks_fuel {A : Type} (fuel n : nat) (l : list A) : list (list A) :=
  match fuel with
  | O => []
  | S fuel' =>
      match l with
      | [] => []
      | _ :: _ => firstn n l :: chunks_fuel fuel' n (skipn n l)
      end
  end.

Definition chunks {A : Type} (n : nat) (l : list A) : list (list A) :=
  chunks_fuel (length l) n l.

(** The range of numpy's [int64], the type of an array of Python integers. *)
Definition int64 (z : Z) : Prop := - 2 ^ 63 <= z < 2 ^ 63.

(** The result of an [int64] operation whose exact value is [z]: the
    representative of [z] modulo [2^64] in the range of [int64]. *)
Definition wrap64 (z : Z) : Z := (z + 2 ^ 63) mod 2 ^ 64 - 2 ^ 63.

(** Pointwise sum of [int64] vectors of one length. *)
Fixpoint add_vectors (u v : list Z) : list Z :=
  match u, v with
  | x :: u', y :: v' => wrap64 (x + y) :: add_vectors u' v'
  | _, _ => []
  end.

(** [np.sum(a, axis=1)] for an [int64] array [a] of shape
    [(n, w, r1, ..., rk)]: the result has shape [(n, r1, ..., rk)] and entry
    [(i, t)] is the sum over [j] of [a[i, j, t]], accumulated in [int64].  For
    a matrix ([k = 0]) these are the row sums. *)
Definition sum_axis1 (a : ndarray Z) : ndarray Z :=
  match shape a with
  | n :: w :: rest =>
      let r := size_of rest in
      let block (b : list Z) : list Z :=
        fold_left add_vectors (chunks r b) (repeat 0 r) in
      mk_ndarray (n :: rest) (flat_map block (chunks (w * r) (data a)))
  | _ => a   (* not reached: the source checks ndim >= 2 first *)
  end.

(** Join arrays of one shape along the last axis:
    [np.concatenate(ts, axis=-1)] and [tf.concat(ts, axis=-1)]. *)
Fixpoint zip_app {A : Type} (u v : list (list A)) : list (list A) :=
  match u, v with
  | x :: u', y :: v' => (x ++ y) :: zip_app u' v'
  | _, _ => []
  end.

Definition last_dim (s : list nat) : nat := last s 0%nat.

Definition concat_last {A : Type} (ts : list (ndarray A)) : ndarray A :=
  match ts with
  | [] => mk_ndarray [0%nat] []
  | t :: ts' =>
      let c := last_dim (shape t) in
      let cut (u : ndarray A) := chunks c (data u) in
      mk_ndarray
        (removelast (shape t) ++ [(length ts * c)%nat])
        (concat (fold_left (fun acc u => zip_app acc (cut u)) ts' (cut t)))
  end.

(** [a.astype(float)] and [a.astype(np.float32)] on integers: rounding to
    nearest even in binary64, respectively binary32. *)
Definition float64_of_Z (z : Z) : spec_float := binary_normalize 53 1024 z 0 false.
Definition float32_of_Z (z : Z) : spec_float := binary_normalize 24 128 z 0 false.

Definition astype {A B : Type} (cast : A -> B) (a : ndarray A) : ndarray B :=
  mk_ndarray (shape a) (map cast (data a)).

End Np.

(** ** Labels *)

(** The [labels] argument as Python passes it.  [PySequence a] is a list, a
    tuple or an ndarray of integers (nested for a matrix) whose [np.array] is
    the [int64] array [a]; ragged nestings, which numpy refuses, and integers
    outside the range of [int64], for which numpy picks another element type,
    are not represented. *)
Inductive py_labels : Type :=
| PyNone
| PyInferred                      (* the string 'inferred' *)
| PySequence (a : Np.ndarray Z)
| PyOther.                        (* any other object: a number, a dict, ... *)

(** What [labels.tolist()] holds at line 559 and what is handed to the
    pipeline: nothing, integers, or (after the binary cast) floats. *)
Inductive label_list : Type :=
| NoLabels
| IntLabels (a : Np.ndarray Z)
| FloatLabels (a : Np.ndarray spec_float).

(** [x in (s1, s2, ...)] on strings. *)
Definition mode_in (m : string) (l : list string) : bool :=
  existsb (String.eqb m) l.

(** [labels.shape[1]], read after the rank check of line 537. *)
Definition shape1 (a : Np.ndarray Z) : result Z :=
  match Np.shape_at a 1 with
  | Some w => Ok (Z.of_nat w)
  | None => Raise IndexError
  end.

(** Lines 521-559 of [image_dataset_from_paths_and_labels], for a present
    [label_mode] and present [labels]: check the label format against the
    mode, then derive [num_classes].  The result is the new value of
    [labels] and the value of the local [num_classes], which stays unassigned
    ([None]) when no branch of lines 550-557 fires.

    Python rebinds [labels] only inside the binary branch; the later branches,
    which exclude the binary mode, therefore read the array as it came in. *)
Definition reconcile_labels (label_mode : string) (labels : Np.ndarray Z)
  : result (label_list * option Z) :=
  (* 524 *)
  raise_if (mode_in label_mode ["int"; "categorical"] && (1 <? Np.ndim labels)%nat)
           (ValueError msg_labels_shape_samples) ;;;
  (* 528 *)
  labels' <-
    (if label_mode =? "binary" then
       let labels := if (Np.ndim labels <? 2)%nat
                     then Np.expand_dims_last labels else labels in
       raise_if (negb (length (Np.unique labels) =? 2)%nat)
                (ValueError msg_binary_two_classes) ;;;
       Ok (FloatLabels (Np.astype Np.float64_of_Z labels))
     else Ok (IntLabels labels))%string ;;
  (* 536 *)
  (if mode_in label_mode ["multi_class"; "multi_label"] then
     raise_if (Np.ndim labels <? 2)%nat (ValueError msg_labels_shape_matrix) ;;;
     w <- shape1 labels ;;
     raise_if (w <? 2) (ValueError msg_use_binary) ;;;
     if (label_mode =? "multi_class")%string then
       m <- Np.max (Np.sum_axis1 labels) ;;
       raise_if (1 <? m) (ValueError msg_use_multi_label)
     else Ok tt
   else Ok tt) ;;;
  (* 550 *)
  let num_classes : option Z := None in
  let num_classes := if (label_mode =? "binary")%string then Some 2 else num_classes in
  (* 552 *)
  num_classes <-
    (if mode_in label_mode ["int"; "categorical"] then
       m <- Np.max labels ;; Ok (Some (Np.wrap64 (m + 1)))   (* np.int64 + 1 *)
     else Ok num_classes) ;;
  (* 554 *)
  num_classes <-
    (if (label_mode =? "multi_class")%string then
       w <- shape1 labels ;; Ok (Some w)
     else Ok num_classes) ;;
  (* 556 *)
  num_classes <-
    (if (label_mode =? "multi_label")%string then
       w <- shape1 labels ;; Ok (Some (w + 1))
     else Ok num_classes) ;;
  Ok (labels', num_classes).

(** Reading a local variable that no branch has assigned. *)
Definition read_local {A : Type} (name : string) (v : option A) : result A :=
  match v with
  | Some x => Ok x
  | None => Raise (UnboundLocalError name)
  end.

(** ** The declared pipeline *)

(** The stages of [tf.data] that the source composes.  [map_load_image ds
    ...] is [ds.map(lambda x: load_image(x, *args))]; [labels_to_dataset] is
    the dataset built by the function of that name in [dataset_utils]. *)
Inductive Dataset : Type :=
| from_tensor_slices (image_paths : list string)
| map_load_image (ds : Dataset) (image_size : Z * Z) (num_channels : Z)
                 (interpolation : string) (crop_to_aspect_ratio : bool)
| labels_to_dataset (labels : label_list) (label_mode : string) (num_classes : Z)
| zip (images labels : Dataset)
| prefetch (ds : Dataset)
| shuffle (ds : Dataset) (buffer_size seed : Z)
| batch (ds : Dataset) (batch_size : Z).

(** A dataset object with the [file_paths] attribute set at lines 621, 622
    and 656. *)
Record dataset_handle : Type := mk_handle
  { pipeline : Dataset;
    file_paths : list string }.

(** The value returned by the entry point: one dataset, or the list
    [[train_dataset, val_dataset]]. *)
Inductive datasets : Type :=
| Single (dataset : dataset_handle)
| TrainVal (train_dataset val_dataset : dataset_handle).

Definition ALLOWLIST_FORMATS : list string :=
  [".bmp"; ".gif"; ".jpeg"; ".jpg"; ".png"; ".dcm"].

(** The functions of the [utils] package and of [np.random] that the source
    calls; their code is not part of [imflow.py]. *)
Record Utils : Type := mk_utils
  { (* image_utils.get_interpolation(interpolation) *)
    get_interpolation : string -> result string;
    (* dataset_utils.check_validation_split_arg(validation_split, subset, shuffle, seed) *)
    check_validation_split_arg :
      option Q -> option string -> bool -> option Z -> result unit;
    (* dataset_utils.get_training_or_validation_split(samples, labels, validation_split, subset) *)
    get_training_or_validation_split :
      list string -> label_list -> option Q -> option string ->
      result (list string * label_list);
    (* dataset_utils.index_directory(directory, labels, label_mode, formats,
                                     class_names, shuffle, seed, follow_links) *)
    index_directory :
      string -> py_labels -> option string -> list string ->
      option (list string) -> bool -> Z -> bool -> result (list string * py_labels);
    (* the value drawn by np.random.randint(1e6) *)
    randint : Z }.

(** Lines 31-52.  [path_ds.map] is kept as the declaration of the stage: the
    tracing of [load_image] that TensorFlow does at this point, and what it
    refuses already then, is part of the runs of the stage (see [stream]). *)
Definition paths_and_labels_to_dataset
    (image_paths : list string) (image_size : Z * Z) (num_channels : Z)
    (labels : label_list) (label_mode : option string) (num_classes : Z)
    (interpolation : string) (crop_to_aspect_ratio : bool) : Dataset :=
  let path_ds := from_tensor_slices image_paths in
  let img_ds :=
    map_load_image path_ds image_size num_channels interpolation crop_to_aspect_ratio in
  match label_mode with
  | Some mode =>
      if (mode =? "")%string then img_ds   (* an empty string is falsy *)
      else zip img_ds (labels_to_dataset labels mode num_classes)
  | None => img_ds
  end.

Definition is_empty {A : Type} (l : list A) : bool :=
  match l with [] => true | _ :: _ => false end.

(** ** The entry points *)

Section EntryPoints.

Variable U : Utils.

Definition image_dataset_from_paths_and_labels
    (image_paths : list string) (labels : py_labels) (label_mode : option string)
    (color_mode : string) (batch_size : option Z) (image_size : Z * Z)
    (shuffle_flag : bool) (seed : option Z) (validation_split : option Q)
    (subset : option string) (interpolation : string)
    (crop_to_aspect_ratio : bool) : result datasets :=
  (* 491 *)
  raise_if (match labels with PyNone | PySequence _ => false | _ => true end)
           (ValueError msg_labels_not_a_sequence) ;;;
  (* 495 *)
  raise_if (negb (match label_mode with
                  | None => true
                  | Some m => mode_in m ["int"; "categorical"; "multi_label"; "binary"]
                  end))
           (ValueError msg_label_mode) ;;;
  (* 499 *)
  let labelled : option (string * Np.ndarray Z) :=
    match labels, label_mode with
    | PySequence a, Some m => Some (m, a)
    | _, _ => None
    end in
  (* 502 *)
  num_channels <-
    (if color_mode =? "rgb" then Ok 3
     else if color_mode =? "rgba" then Ok 4
     else if color_mode =? "grayscale" then Ok 1
     else Raise (ValueError msg_color_mode))%string ;;
  (* 513 *)
  interpolation <- get_interpolation U interpolation ;;
  check_validation_split_arg U validation_split subset shuffle_flag seed ;;;
  (* 518 *)
  let seed := match seed with None => randint U | Some s => s end in
  (* 521 *)
  reconciled <-
    match labelled with
    | None => Ok (NoLabels, None, None)
    | Some (m, a) =>
        r <- reconcile_labels m a ;; Ok (fst r, Some m, snd r)
    end ;;
  let '(labels, label_mode, num_classes) := reconciled in
  (* 561 *)
  if match subset with Some s => (s =? "both")%string | None => false end then
    train <- get_training_or_validation_split U image_paths labels validation_split
                                              (Some "training") ;;
    val <- get_training_or_validation_split U image_paths labels validation_split
                                            (Some "validation") ;;
    let '(image_paths_train, labels_train) := train in
    let '(image_paths_val, labels_val) := val in
    raise_if (is_empty image_paths_train) (ValueError msg_no_training_images) ;;;
    raise_if (is_empty image_paths_val) (ValueError msg_no_validation_images) ;;;
    num_classes <- read_local "num_classes" num_classes ;;
    let train_dataset :=
      paths_and_labels_to_dataset image_paths_train image_size num_channels
        labels_train label_mode num_classes interpolation crop_to_aspect_ratio in
    let val_dataset :=
      paths_and_labels_to_dataset image_paths_val image_size num_channels
        labels_val label_mode num_classes interpolation crop_to_aspect_ratio in
    let train_dataset := prefetch train_dataset in
    let val_dataset := prefetch val_dataset in
    (* 606 *)
    let '(train_dataset, val_dataset) :=
      match batch_size with
      | Some b =>
          let train_dataset :=
            if shuffle_flag then shuffle train_dataset (b * 8) seed
            else train_dataset in
          let train_dataset := batch train_dataset b in
          let val_dataset := batch val_dataset b in
          (train_dataset, val_dataset)
      | None =>
          let train_dataset :=
            if shuffle_flag then shuffle train_dataset 1024 seed
            else train_dataset in
          (train_dataset, val_dataset)
      end in
    (* 621 *)
    Ok (TrainVal (mk_handle train_dataset image_paths_train)
                 (mk_handle val_dataset image_paths_val))
  else
    split <- get_training_or_validation_split U image_paths labels validation_split
                                              subset ;;
    let '(image_paths, labels) := split in
    raise_if (is_empty image_paths) (ValueError msg_no_images) ;;;
    num_classes <- read_local "num_classes" num_classes ;;
    let dataset :=
      paths_and_labels_to_dataset image_paths image_size num_channels
        labels label_mode num_classes interpolation crop_to_aspect_ratio in
    let dataset := prefetch dataset in
    (* 645 *)
    let dataset :=
      match batch_size with
      | Some b =>
          let dataset :=
            if shuffle_flag then shuffle dataset (b * 8) seed else dataset in
          batch dataset b
      | None =>
          if shuffle_flag then shuffle dataset 1024 seed else dataset
      end in
    (* 656 *)
    Ok (Single (mk_handle dataset image_paths)).

Definition image_dataset_from_directory
    (directory : string) (labels : py_labels) (label_mode : option string)
    (class_names : option (list string)) (color_mode : string)
    (batch_size : option Z) (image_size : Z * Z) (shuffle_flag : bool)
    (seed : option Z) (validation_split : option Q) (subset : option string)
    (interpolation : string) (follow_links : bool)
    (crop_to_aspect_ratio : bool) : result datasets :=
  (* 270 *)
  match labels with
  | PyInferred | PyNone => Ok tt
  | PyOther => Raise (ValueError msg_labels_not_a_sequence)
  | PySequence _ =>
      raise_if (match class_names with Some (_ :: _) => true | _ => false end)
               (ValueError msg_class_names_not_inferred)
  end ;;;
  (* 287 *)
  raise_if (negb (match label_mode with
                  | None => true
                  | Some m => mode_in m ["int"; "categorical"; "multi_class";
                                         "multi_label"; "binary"]
                  end))
           (ValueError msg_label_mode) ;;;
  (* 293 *)
  let '(labels, label_mode) :=
    match labels, label_mode with
    | PyNone, _ | _, None => (PyNone, None)
    | _, _ => (labels, label_mode)
    end in
  (* 297 *)
  let seed := match seed with None => randint U | Some s => s end in
  indexed <- index_directory U directory labels label_mode ALLOWLIST_FORMATS
                             class_names shuffle_flag seed follow_links ;;
  let '(image_paths, labels) := indexed in
  image_dataset_from_paths_and_labels image_paths labels label_mode color_mode
    batch_size image_size shuffle_flag (Some seed) validation_split subset
    interpolation crop_to_aspect_ratio.

End EntryPoints.

(** ** Decoded files *)

(** An element of a decoded image: an unsigned byte (DICOM and raster
    decoders) or a binary32 float (array files, after [astype(np.float32)]). *)
Inductive sample : Type :=
| UInt8 (v : Z)
| Float32 (f : spec_float).

(** An element of an array stored in a [.npy] or [.npz] file. *)
Inductive np_value : Type :=
| NpInt (z : Z)
| NpFloat (f : spec_float).

(** [astype(np.float32)] on one element. *)
Definition to_float32 (v : np_value) : sample :=
  match v with
  | NpInt z => Float32 (Np.float32_of_Z z)
  | NpFloat (S754_finite s m e) =>
      Float32 (binary_normalize 24 128 (cond_Zopp s (Zpos m)) e s)
  | NpFloat f => Float32 f
  end.

(** What [np.load] returns: the archive of a [.npz] file, by entry name, or
    the single array of a [.npy] file. *)
Inductive np_file : Type :=
| NpzFile (entries : list (string * Np.ndarray np_value))
| NpyArray (a : Np.ndarray np_value).

(** The file system seen through the decoders that [load_image] calls, each
    decoder as the library call applied to the file at a path, and one fact
    about the installed TensorFlow. *)
Record Files : Type := mk_files
  { (* tfio.image.decode_dicom_image(tf.io.read_file(path), scale='auto', dtype=tf.uint8) *)
    decode_dicom_image : string -> result (Np.ndarray sample);
    (* np.load(path) *)
    np_load : string -> result np_file;
    (* tf.image.decode_image(tf.io.read_file(path), channels=c, expand_animations=False) *)
    decode_image : string -> Z -> result (Np.ndarray sample);
    (* whether tf.image.resize_with_crop_or_pad of the installed TensorFlow
       takes the keyword [method] that the source passes to it; its documented
       signature is (image, target_height, target_width) *)
    crop_or_pad_takes_method : bool }.

(** Documented contract of [tf.image.decode_image] with
    [expand_animations=False]: a rank-3 tensor, with [channels] channels when
    a channel count is requested. *)
Definition decode_image_contract (F : Files) : Prop :=
  forall path c a,
    decode_image F path c = Ok a ->
    exists h w k, Np.shape a = [h; w; k] /\ (c <> 0 -> Z.of_nat k = c).

(** ** Path patterns *)

Fixpoint contains (needle hay : string) : bool :=
  if String.prefix needle hay then true
  else match hay with
       | EmptyString => false
       | String _ rest => contains needle rest
       end.

Definition newline : ascii := Ascii.ascii_of_nat 10.

Fixpoint has_newline (s : string) : bool :=
  match s with
  | EmptyString => false
  | String c rest => Ascii.eqb c newline || has_newline rest
  end.

(** [tf.strings.regex_full_match(path, '.*\.ext.*')] for a literal extension
    [ext]: the whole path is some characters, the extension, some characters,
    where [.] matches any character but a newline. *)
Definition regex_full_match_ext (path ext : string) : bool :=
  negb (has_newline path) && contains ext path.

(** ** The array decoders *)

Definition numpy_channels {A : Type} (x : Np.ndarray A) (num_channels : Z)
  : option (Np.ndarray A) :=
  if (Np.ndim x =? 2)%nat then
    let x := Np.expand_dims_last x in
    let x := if num_channels =? 3 then Np.concat_last [x; x; x] else x in
    let x := if num_channels =? 4 then Np.concat_last [x; x; x; x] else x in
    Some x
  else None.   (* the function ends without a return statement *)

Fixpoint lookup {A : Type} (key : string) (entries : list (string * A)) : option A :=
  match entries with
  | [] => None
  | (k, v) :: rest => if (k =? key)%string then Some v else lookup key rest
  end.

Section Decoders.

Variable F : Files.

Definition decode_npz_image (path : string) (num_channels : Z)
  : result (option (Np.ndarray sample)) :=
  f <- np_load F path ;;
  match f with
  | NpzFile entries =>
      match lookup "arr_0" entries with
      | Some a => Ok (numpy_channels (Np.astype to_float32 a) num_channels)
      | None => Raise (KeyError "arr_0")
      end
  | NpyArray _ => Raise IndexError        (* an array indexed by a string *)
  end.

Definition decode_npy_image (path : string) (num_channels : Z)
  : result (option (Np.ndarray sample)) :=
  f <- np_load F path ;;
  match f with
  | NpyArray a => Ok (numpy_channels (Np.astype to_float32 a) num_channels)
  | NpzFile _ => Raise (AttributeError "astype")
  end.

End Decoders.

(** ** binary32 arithmetic *)

(** The operations on [tf.float32] scalars that [tf.image.resize_with_pad]
    uses, with IEEE rounding to nearest even. *)
Module F32.

Definition prec : Z := 24.
Definition emax : Z := 128.

(** [tf.cast(z, tf.float32)] *)
Definition of_Z (z : Z) : spec_float := binary_normalize prec emax z 0 false.

Definition div (x y : spec_float) : spec_float := SFdiv prec emax x y.
Definition sub (x y : spec_float) : spec_float := SFsub prec emax x y.

(** [tf.math.maximum] on two numbers. *)
Definition maximum (x y : spec_float) : spec_float := if SFltb x y then y else x.

(** [tf.cast(tf.math.floor(x), tf.int32)] for a finite [x] within the range
    of [int32]; the values that reach it here are of that kind. *)
Definition floor (x : spec_float) : Z :=
  match x with
  | S754_finite s m e =>
      let v := cond_Zopp s (Zpos m) in
      if 0 <=? e then v * 2 ^ e else v / 2 ^ (- e)
  | _ => 0
  end.

End F32.

(** ** TensorFlow image operations *)

Module TF.

(** A rectangle of pixels: rows [top .. top+rows-1], columns
    [left .. left+cols-1]. *)
Record rect : Type := mk_rect { top : Z; left : Z; rows : Z; cols : Z }.

Definition whole (h w : Z) : rect := mk_rect 0 0 h w.

Definition inside (r : rect) (i j : Z) : bool :=
  (top r <=? i) && (i <? top r + rows r) && (left r <=? j) && (j <? left r + cols r).

(** The result of one resize operation applied to the tensor [source].
    Spatially it is [height] by [width]; the rectangle [content] of it shows
    the rectangle [window] of the source, scaled to fit; every pixel outside
    [content] is zero padding.  [leading] is the batch axis of a rank-4
    source.  [static_shape] is the shape recorded by [set_shape]. *)
Record image : Type := mk_image
  { source : Np.ndarray sample;
    leading : list nat;
    height : Z;
    width : Z;
    content : rect;
    window : rect;
    static_shape : option (list Z) }.

(** The shape of the tensor at run time. *)
Definition image_shape (im : image) : list Z :=
  map Z.of_nat (leading im)
  ++ [height im; width im; Z.of_nat (Np.last_dim (Np.shape (source im)))].

Definition is_padding (im : image) (i j : Z) : bool :=
  negb (inside (content im) i j).

Definition padding_free (im : image) : Prop :=
  content im = whole (height im) (width im).

Definition shows_whole_source (im : image) : Prop :=
  exists b h w c,
    Np.shape (source im) = b ++ [h; w; c] /\
    window im = whole (Z.of_nat h) (Z.of_nat w).

(** The batch axes, height, width and channel count of a rank-3 or rank-4
    tensor; the image operations refuse every other rank and every empty
    image. *)
Definition image_dims {A : Type} (t : Np.ndarray A) : result (list nat * Z * Z * nat) :=
  dims <- match Np.shape t with
          | [h; w; c] => Ok ([], h, w, c)
          | [b; h; w; c] => Ok ([b], h, w, c)
          | _ => Raise (ValueError msg_not_an_image_rank)
          end ;;
  let '(b, h, w, c) := dims in
  raise_if ((h =? 0) || (w =? 0) || (c =? 0))%nat (OpError msg_empty_image) ;;;
  Ok (b, Z.of_nat h, Z.of_nat w, c).

Definition check_target (target_height target_width : Z) : result unit :=
  raise_if ((target_height <=? 0) || (target_width <=? 0)) (OpError msg_size_not_positive).

(** [tf.image.resize(images, size, method)]: the whole source is scaled to
    exactly [size], each axis by its own factor. *)
Definition resize (images : Np.ndarray sample) (size : Z * Z) (method : string)
  : result image :=
  d <- image_dims images ;;
  let '(b, h, w, _) := d in
  check_target (fst size) (snd size) ;;;
  Ok (mk_image images b (fst size) (snd size)
               (whole (fst size) (snd size)) (whole h w) None).

(** [tf.image.resize_with_crop_or_pad(image, target_height, target_width,
    method=interpolation)]: no scaling; along each axis the image is centrally
    cropped when it is larger than the target and evenly padded with zeros
    when it is smaller.  The keyword [method] is not in the documented
    signature; where the function does not take it the call is a TypeError,
    and where it does the geometry does not depend on it. *)
Definition resize_with_crop_or_pad (takes_method : bool) (img : Np.ndarray sample)
    (target_height target_width : Z) (method : string) : result image :=
  raise_if (negb takes_method) (TypeError "method") ;;;
  d <- image_dims img ;;
  let '(b, h, w, _) := d in
  check_target target_height target_width ;;;
  let width_diff := target_width - w in
  let offset_crop_width := Z.max (- width_diff / 2) 0 in
  let offset_pad_width := Z.max (width_diff / 2) 0 in
  let height_diff := target_height - h in
  let offset_crop_height := Z.max (- height_diff / 2) 0 in
  let offset_pad_height := Z.max (height_diff / 2) 0 in
  let kept_height := Z.min target_height h in
  let kept_width := Z.min target_width w in
  Ok (mk_image img b target_height target_width
               (mk_rect offset_pad_height offset_pad_width kept_height kept_width)
               (mk_rect offset_crop_height offset_crop_width kept_height kept_width)
               None).

(** The place of the resized source inside the result of
    [tf.image.resize_with_pad], as TensorFlow computes it in [tf.float32]:
    one ratio for both axes, the larger of width over target width and height
    over target height; the source divided by it and rounded down; half of
    what is left of the target, rounded down, as the offset. *)
Definition pad_box (h w target_height target_width : Z) : rect :=
  let f_height := F32.of_Z h in
  let f_width := F32.of_Z w in
  let f_target_height := F32.of_Z target_height in
  let f_target_width := F32.of_Z target_width in
  let ratio :=
    F32.maximum (F32.div f_width f_target_width) (F32.div f_height f_target_height) in
  let resized_height_float := F32.div f_height ratio in
  let resized_width_float := F32.div f_width ratio in
  let resized_height := F32.floor resized_height_float in
  let resized_width := F32.floor resized_width_float in
  let padding_height :=
    F32.div (F32.sub f_target_height resized_height_float) (F32.of_Z 2) in
  let padding_width :=
    F32.div (F32.sub f_target_width resized_width_float) (F32.of_Z 2) in
  let p_height := Z.max 0 (F32.floor padding_height) in
  let p_width := Z.max 0 (F32.floor padding_width) in
  mk_rect p_height p_width resized_height resized_width.

(** [tf.image.resize_with_pad(image, target_height, target_width, method)]:
    the whole source is resized to the size of [pad_box] and placed at its
    offset with [pad_to_bounding_box]; the rest of the result is zero
    padding. *)
Definition resize_with_pad (img : Np.ndarray sample)
    (target_height target_width : Z) (method : string) : result image :=
  d <- image_dims img ;;
  let '(b, h, w, _) := d in
  check_target target_height target_width ;;;
  let box := pad_box h w target_height target_width in
  (* resize_fn(image, [resized_height, resized_width]) *)
  check_target (rows box) (cols box) ;;;
  (* pad_to_bounding_box(resized, p_height, p_width, target_height, target_width) *)
  raise_if ((target_height <? top box + rows box)
            || (target_width <? left box + cols box))
           (ValueError msg_pad_exceeds_target) ;;;
  Ok (mk_image img b target_height target_width box (whole h w) None).

(** How the body of [load_image] is executed: called directly on a path
    (eagerly), or inside [Dataset.map], which traces it as a graph. *)
Inductive execution : Type := Eager | Graph.

Definition annotate (img : image) (shape : list Z) : image :=
  mk_image (source img) (leading img) (height img) (width img)
           (content img) (window img) (Some shape).

(** The error of a tensor whose shape is not the shape given to [set_shape]:
    a ValueError of [set_shape] itself when the function is called eagerly, an
    InvalidArgumentError of the run in the pipeline. *)
Definition shape_error (mode : execution) : exn :=
  match mode with
  | Eager => ValueError msg_incompatible_shape
  | Graph => InvalidArgumentError msg_incompatible_shape
  end.

(** [img.set_shape(shape)].  With eager execution it is an assertion on the
    tensor's shape.  In a traced graph it makes [shape] the static shape of
    the function's result (the static shapes of the decoder outputs are
    unknown, so this always succeeds at trace time), which the dataset
    declares for its elements: a run that produces a tensor of another shape
    fails, and the iteration with it. *)
Definition set_shape (mode : execution) (img : image) (shape : list Z)
  : result image :=
  if list_eq_dec Z.eq_dec (image_shape img) shape
  then Ok (annotate img shape)
  else Raise (shape_error mode).

(** [tf.squeeze(img, axis=0)], for a tensor whose first extent is 1. *)
Definition squeeze0 {A : Type} (img : Np.ndarray A) : Np.ndarray A :=
  Np.mk_ndarray (tl (Np.shape img)) (Np.data img).

(** [tf.math.multiply(tf.ones(tf.shape(img), dtype=tf.uint8), 255)] *)
Definition ones_times_255 (img : Np.ndarray sample) : Np.ndarray sample :=
  Np.mk_ndarray (Np.shape img) (repeat (UInt8 255) (Np.size_of (Np.shape img))).

(** [tf.shape(img)[0]] *)
Definition shape0 {A : Type} (img : Np.ndarray A) : result nat :=
  match Np.shape img with
  | n :: _ => Ok n
  | [] => Raise (OpError msg_index_out_of_range)
  end.

(** [tf.numpy_function(f, args, tf.float32)]: the value returned by the
    Python function, converted to a tensor; [None] cannot be converted.  An
    exception is the one that Python raises inside the function; TensorFlow
    reports it as the failure of the op. *)
Definition numpy_function (r : result (option (Np.ndarray sample)))
  : result (Np.ndarray sample) :=
  v <- r ;;
  match v with
  | Some a => Ok a
  | None => Raise (OpError msg_none_is_not_a_tensor)
  end.

End TF.

(** ** Loading one image *)

Section LoadImage.

Variable F : Files.
Variable mode : TF.execution.

Definition load_image (path : string) (image_size : Z * Z) (num_channels : Z)
    (interpolation : string) (crop_to_aspect_ratio : bool) : result TF.image :=
  if regex_full_match_ext path ".dcm" then
    img <- decode_dicom_image F path ;;
    (* 93: the assertion guards every later operation of the branch *)
    frames <- TF.shape0 img ;;
    raise_if (negb (frames =? 1)%nat) (InvalidArgumentError msg_multiframe_dicom) ;;;
    let img := TF.squeeze0 img in
    let img :=
      if num_channels =? 3 then Np.concat_last [img; img; img]
      else if num_channels =? 4 then
        Np.concat_last [img; img; img; TF.ones_times_255 img]
      else img in
    img <- (if crop_to_aspect_ratio
            then TF.resize_with_crop_or_pad (crop_or_pad_takes_method F) img
                   (fst image_size) (snd image_size) interpolation
            else TF.resize img image_size interpolation) ;;
    TF.set_shape mode img [fst image_size; snd image_size; num_channels]
  else if regex_full_match_ext path ".npz" then
    img <- TF.numpy_function (decode_npz_image F path num_channels) ;;
    img <- (if crop_to_aspect_ratio
            then TF.resize_with_crop_or_pad (crop_or_pad_takes_method F) img
                   (fst image_size) (snd image_size) interpolation
            else TF.resize_with_pad img (fst image_size) (snd image_size) interpolation) ;;
    TF.set_shape mode img [fst image_size; snd image_size; num_channels]
  else if regex_full_match_ext path ".npy" then
    img <- TF.numpy_function (decode_npy_image F path num_channels) ;;
    img <- (if crop_to_aspect_ratio
            then TF.resize_with_crop_or_pad (crop_or_pad_takes_method F) img
                   (fst image_size) (snd image_size) interpolation
            else TF.resize_with_pad img (fst image_size) (snd image_size) interpolation) ;;
    TF.set_shape mode img [fst image_size; snd image_size; num_channels]
  else
    img <- decode_image F path num_channels ;;
    img <- (if crop_to_aspect_ratio
            then TF.resize_with_crop_or_pad (crop_or_pad_takes_method F) img
                   (fst image_size) (snd image_size) interpolation
            else TF.resize img image_size interpolation) ;;
    TF.set_shape mode img [fst image_size; snd image_size; num_channels].

End LoadImage.

(** ** One pass over a declared pipeline *)

(** The elements a dataset yields.  An image remembers the path it was
    loaded from. *)
Inductive element : Type :=
| EPath (path : string)
| EImage (path : string) (img : TF.image)
| ELabel (label_mode : string) (num_classes : Z) (row : label_list)
| EPair (image label : element)
| EBatch (elements : list element).

Fixpoint element_paths (e : element) : list string :=
  match e with
  | EPath p => [p]
  | EImage p _ => [p]
  | ELabel _ _ _ => []
  | EPair a _ => element_paths a
  | EBatch es => flat_map element_paths es
  end.

(** The slices of a label array along its first axis. *)
Definition slices {A : Type} (a : Np.ndarray A) : list (Np.ndarray A) :=
  match Np.shape a with
  | [] => []
  | n :: rest =>
      let r := Np.size_of rest in
      map (fun i => Np.mk_ndarray rest (firstn r (skipn (i * r) (Np.data a)))) (seq 0 n)
  end.

Definition label_rows (l : label_list) : list label_list :=
  match l with
  | NoLabels => []
  | IntLabels a => map IntLabels (slices a)
  | FloatLabels a => map FloatLabels (slices a)
  end.

(** The part of the execution engine that is not determined by the
    declaration: the order in which a shuffle stage with a given buffer size
    and seed releases its input. *)
Record Engine : Type := mk_engine
  { shuffled : forall A : Type, Z -> Z -> list A -> list A }.

Section Iteration.

Variable F : Files.
Variable G : Engine.

(** The lazy stream of a dataset: each element is computed when it is asked
    for, and computing it can raise.  The run of [load_image] on a path
    includes the comparison of the tensor with the shape that the stage
    declares for its elements, the one given to [set_shape]. *)
Fixpoint stream (ds : Dataset) : list (result element) :=
  match ds with
  | from_tensor_slices image_paths => map (fun p => Ok (EPath p)) image_paths
  | map_load_image ds image_size num_channels interpolation crop =>
      map (fun r =>
             e <- r ;;
             match e with
             | EPath p =>
                 img <- load_image F TF.Graph p image_size num_channels
                                   interpolation crop ;;
                 Ok (EImage p img)
             | _ => Raise (OpError (msg_utils "load_image expects a path"))
             end)
          (stream ds)
  | labels_to_dataset labels label_mode num_classes =>
      map (fun row => Ok (ELabel label_mode num_classes row)) (label_rows labels)
  | zip images labels =>
      map (fun p => a <- fst p ;; b <- snd p ;; Ok (EPair a b))
          (combine (stream images) (stream labels))
  | prefetch ds => stream ds
  | shuffle ds buffer_size seed => shuffled G buffer_size seed (stream ds)
  | batch ds batch_size =>
      map (fun chunk => es <- traverse (fun r => r) chunk ;; Ok (EBatch es))
          (Np.chunks (Z.to_nat batch_size) (stream ds))
  end.

(** A full pass of a consumer: every element in turn, ended by the first
    exception. *)
Definition iterate (ds : Dataset) : result (list element) :=
  traverse (fun r => r) (stream ds).

End Iteration.

(** The shuffle stages of a pipeline, outermost first, as (buffer size, seed). *)
Fixpoint shuffle_stages (ds : Dataset) : list (Z * Z) :=
  match ds with
  | from_tensor_slices _ => []
  | labels_to_dataset _ _ _ => []
  | map_load_image ds _ _ _ _ => shuffle_stages ds
  | zip a b => shuffle_stages a ++ shuffle_stages b
  | prefetch ds => shuffle_stages ds
  | shuffle ds buffer_size seed => (buffer_size, seed) :: shuffle_stages ds
  | batch ds _ => shuffle_stages ds
  end.

(** ** Concrete collaborators for running the model

    A small file system, a stand-in for the utils package and an engine, on
    which the functions above can be evaluated. *)

Definition bytes (l : list Z) : list sample := map UInt8 l.

Definition ex_files : Files :=
  mk_files
    (fun path =>
       if (path =? "multi.dcm")%string then
         Ok (Np.mk_ndarray [2; 2; 2; 1]%nat (bytes [1; 2; 3; 4; 5; 6; 7; 8]))
       else if (path =? "colour.dcm")%string then
         Ok (Np.mk_ndarray [1; 2; 2; 3]%nat
               (bytes [1; 2; 3; 4; 5; 6; 7; 8; 9; 10; 11; 12]))
       else if (path =? "gray.dcm")%string then
         Ok (Np.mk_ndarray [1; 2; 2; 1]%nat (bytes [10; 20; 30; 40]))
       else Raise (OpError (msg_utils "no such file")))
    (fun path =>
       if (path =? "plane.npz")%string then
         Ok (NpzFile [("arr_0", Np.mk_ndarray [1; 2]%nat [NpInt 0; NpInt 1])])
       else if (path =? "plane.npy")%string then
         Ok (NpyArray (Np.mk_ndarray [1; 2]%nat [NpInt 0; NpInt 1]))
       else if (path =? "dot.npy")%string then
         Ok (NpyArray (Np.mk_ndarray [1; 1]%nat [NpInt 5]))
       else if (path =? "volume.npy")%string then
         Ok (NpyArray (Np.mk_ndarray [1; 1; 2]%nat [NpInt 0; NpInt 1]))
       else Raise (OpError (msg_utils "no such file")))
    (fun path c =>
       let k := if c =? 0 then 3%nat else Z.to_nat c in
       if negb ((c =? 0) || (c =? 1) || (c =? 3) || (c =? 4)) then
         Raise (OpError (msg_utils "channels must be in (None, 0, 1, 3, 4)"))
       else if (path =? "small.png")%string then
         Ok (Np.mk_ndarray [2; 2; k]%nat (repeat (UInt8 7) (4 * k)))
       else if (path =? "wide.png")%string then
         Ok (Np.mk_ndarray [1; 2; k]%nat (repeat (UInt8 7) (2 * k)))
       else if (path =? "large.png")%string then
         Ok (Np.mk_ndarray [8; 8; k]%nat (repeat (UInt8 7) (64 * k)))
       else Raise (OpError (msg_utils "no such file")))
    true.

(** The same files under a TensorFlow whose [resize_with_crop_or_pad] has the
    documented signature. *)
Definition ex_files_documented : Files :=
  mk_files (decode_dicom_image ex_files) (np_load ex_files) (decode_image ex_files)
           false.

(** A file system in which every path holds a plain 1-by-2 array and a
    2-by-2 raster image, and no path holds a DICOM file. *)
Definition ex_files_no_dicom : Files :=
  mk_files
    (fun _ => Raise (OpError (msg_utils "not a DICOM file")))
    (fun _ => Ok (NpyArray (Np.mk_ndarray [1; 2]%nat [NpInt 0; NpInt 1])))
    (fun _ c =>
       if (c =? 1) || (c =? 3) || (c =? 4) then
         Ok (Np.mk_ndarray [2; 2; Z.to_nat c]%nat (repeat (UInt8 7) (4 * Z.to_nat c)))
       else Raise (OpError (msg_utils "channels must be in (None, 0, 1, 3, 4)")))
    true.

(** The first [k] slices of a label array along its first axis, and the rest. *)
Definition take_rows {A : Type} (k : nat) (a : Np.ndarray A) : Np.ndarray A :=
  match Np.shape a with
  | [] => a
  | n :: rest =>
      Np.mk_ndarray (Nat.min k n :: rest) (firstn (k * Np.size_of rest) (Np.data a))
  end.

Definition drop_rows {A : Type} (k : nat) (a : Np.ndarray A) : Np.ndarray A :=
  match Np.shape a with
  | [] => a
  | n :: rest =>
      Np.mk_ndarray ((n - k)%nat :: rest) (skipn (k * Np.size_of rest) (Np.data a))
  end.

Definition on_labels (f : forall A : Type, Np.ndarray A -> Np.ndarray A)
    (l : label_list) : label_list :=
  match l with
  | NoLabels => NoLabels
  | IntLabels a => IntLabels (f Z a)
  | FloatLabels a => FloatLabels (f spec_float a)
  end.

(** A split that keeps the last [floor (validation_split * n)] samples for
    validation and the samples before them for training. *)
Definition ex_split (samples : list string) (labels : label_list)
    (validation_split : option Q) (subset : option string)
  : result (list string * label_list) :=
  match validation_split with
  | None => Ok (samples, labels)
  | Some q =>
      let n := length samples in
      let keep := (n - Z.to_nat (Qfloor (q * inject_Z (Z.of_nat n))))%nat in
      match subset with
      | Some s =>
          if (s =? "training")%string then
            Ok (firstn keep samples, on_labels (fun A => take_rows keep) labels)
          else if (s =? "validation")%string then
            Ok (skipn keep samples, on_labels (fun A => drop_rows keep) labels)
          else Raise (ValueError (msg_utils "subset"))
      | None => Raise (ValueError (msg_utils "subset"))
      end
  end.

Definition ex_utils : Utils :=
  mk_utils
    (fun interpolation => Ok interpolation)
    (fun _ _ _ _ => Ok tt)
    ex_split
    (fun _ labels _ _ _ _ _ _ =>
       Ok (["a.png"; "b.png"],
           match labels with
           | PyInferred => PySequence (Np.mk_ndarray [2%nat] [0; 1])
           | _ => labels
           end))
    42.

Definition ex_engine : Engine := mk_engine (fun A _ _ l => rev l).

Definition ex_paths : list string := ["a.jpg"; "b.jpg"; "c.png"].

Definition ex_ten_paths : list string :=
  ["small.png"; "wide.png"; "large.png"; "small.png"; "wide.png"; "large.png";
   "small.png"; "wide.png"; "large.png"; "small.png"].

Definition matrix (n w : nat) (l : list Z) : Np.ndarray Z := Np.mk_ndarray [n; w] l.
Definition vector (l : list Z) : Np.ndarray Z := Np.mk_ndarray [length l] l.


(** ** Notions used in the statements *)

Definition list_sum (l : list Z) : Z := fold_right Z.add 0 l.

(** Row [i] of a matrix of width [w] stored in row-major order. *)
Definition row (w : nat) (l : list Z) (i : nat) : list Z :=
  firstn w (skipn (i * w) l).

(** The labels take exactly two different values. *)
Definition two_distinct_values (l : list Z) : Prop :=
  exists x y, x <> y /\ In x l /\ In y l /\ forall z, In z l -> z = x \/ z = y.

(** What the three operations have in common: the source is kept, the
    result has the target height and width and the channels of the source. *)
Definition resized_from (t : Np.ndarray sample) (th tw : Z) (im : TF.image) : Prop :=
  TF.source im = t /\ TF.height im = th /\ TF.width im = tw /\
  TF.static_shape im = None /\
  exists (b : list nat) (H W c : nat),
    Np.shape t = b ++ [H; W; c] /\ TF.leading im = b /\
    (0 < H)%nat /\ (0 < W)%nat /\ 0 < th /\ 0 < tw /\
    TF.image_shape im = map Z.of_nat b ++ [th; tw; Z.of_nat c].

(** The letterbox of [resize_with_pad]: the whole source is shown, in the
    box that TensorFlow computes from the source size and the size of the
    result with one ratio for both axes; the box is not empty and lies inside
    the result, and everything outside it is zero padding. *)
Definition letterboxed (im : TF.image) : Prop :=
  exists (b : list nat) (H W c : nat),
    Np.shape (TF.source im) = b ++ [H; W; c] /\
    TF.window im = TF.whole (Z.of_nat H) (Z.of_nat W) /\
    let box := TF.content im in
    box = TF.pad_box (Z.of_nat H) (Z.of_nat W) (TF.height im) (TF.width im) /\
    0 <= TF.top box /\ 0 <= TF.left box /\
    0 < TF.rows box /\ 0 < TF.cols box /\
    TF.top box + TF.rows box <= TF.height im /\
    TF.left box + TF.cols box <= TF.width im.

(** The letterbox in exact arithmetic: the source scaled by the largest
    factor for which it fits in the target, and centred. *)
Definition exact_letterbox (h w target_height target_width : Z) : TF.rect :=
  let width_bound := h * target_width <=? w * target_height in
  TF.mk_rect
    (Z.max 0 (if width_bound
              then (target_height * w - h * target_width) / (2 * w) else 0))
    (Z.max 0 (if width_bound
              then 0 else (target_width * h - w * target_height) / (2 * h)))
    (if width_bound then h * target_width / w else target_height)
    (if width_bound then target_width else w * target_height / h).

(** The box is the exact one, or a pixel shorter along an axis (the quotient
    fell just short of a whole number in binary32) and then at most a pixel
    further from the top or the left. *)
Definition near_exact_letterbox (h w target_height target_width : Z) : bool :=
  let box := TF.pad_box h w target_height target_width in
  let exact := exact_letterbox h w target_height target_width in
  (TF.rows exact - 1 <=? TF.rows box) && (TF.rows box <=? TF.rows exact)
  && (TF.cols exact - 1 <=? TF.cols box) && (TF.cols box <=? TF.cols exact)
  && (TF.top exact <=? TF.top box) && (TF.top box <=? TF.top exact + 1)
  && (TF.left exact <=? TF.left box) && (TF.left box <=? TF.left exact + 1).

Definition sizes_up_to (n : nat) : list Z := map (fun i => Z.of_nat (S i)) (seq 0 n).

(** The tensor of the DICOM branch after lines 95-99. *)
Definition dicom_channels (img : Np.ndarray sample) (num_channels : Z)
  : Np.ndarray sample :=
  if num_channels =? 3 then Np.concat_last [img; img; img]
  else if num_channels =? 4 then
    Np.concat_last [img; img; img; TF.ones_times_255 img]
  else img.

(** The resize step shared by the branches: [letterbox] tells the array
    branches, which pad, from the DICOM and raster branches, which stretch. *)
Definition resize_step (F : Files) (mode : TF.execution) (letterbox : bool)
    (img : Np.ndarray sample) (image_size : Z * Z) (num_channels : Z)
    (interpolation : string) (crop_to_aspect_ratio : bool) : result TF.image :=
  img <- (if crop_to_aspect_ratio
          then TF.resize_with_crop_or_pad (crop_or_pad_takes_method F) img
                 (fst image_size) (snd image_size) interpolation
          else if letterbox
          then TF.resize_with_pad img (fst image_size) (snd image_size) interpolation
          else TF.resize img image_size interpolation) ;;
  TF.set_shape mode img [fst image_size; snd image_size; num_channels].

Inductive branch : Type := DicomBranch | NpzBranch | NpyBranch | RasterBranch.

(** The branch of [load_image] that a path takes: first match wins. *)
Definition branch_of (path : string) : branch :=
  if regex_full_match_ext path ".dcm" then DicomBranch
  else if regex_full_match_ext path ".npz" then NpzBranch
  else if regex_full_match_ext path ".npy" then NpyBranch
  else RasterBranch.

(** The channel count that replication produces from one plane. *)
Definition replicated_channels (num_channels : Z) : nat :=
  if num_channels =? 3 then 3 else if num_channels =? 4 then 4 else 1.

(** The path list that a pipeline draws its samples from. *)
Fixpoint source_paths (ds : Dataset) : list string :=
  match ds with
  | from_tensor_slices image_paths => image_paths
  | map_load_image ds _ _ _ _ => source_paths ds
  | labels_to_dataset _ _ _ => []
  | zip images _ => source_paths images
  | prefetch ds => source_paths ds
  | shuffle ds _ _ => source_paths ds
  | batch ds _ => source_paths ds
  end.

(** A pass over a stream. *)
Definition pass (s : list (result element)) : result (list element) :=
  traverse (fun r => r) s.

(** ** The tabular entry points *)

(** A column selector as Python passes it: a string, a list of strings, or
    any other object. *)
Inductive py_key : Type :=
| KeyStr (name : string)
| KeyList (names : list string)
| KeyOther.

(** The calls into pandas made by the tabular entry points.  The frames are
    those whose path column holds strings and whose label columns hold
    integers. *)
Record Pandas : Type := mk_pandas
  { DataFrame : Type;
    (* pd.read_csv(csv_path) *)
    read_csv : string -> result DataFrame;
    (* df[path_col].values, for a string path_col *)
    path_values : DataFrame -> string -> result (list string);
    (* np.array(df[label_col].values.tolist()), for a string or a list *)
    label_values : DataFrame -> py_key -> result (Np.ndarray Z) }.

(** [s[-1]], for a non-empty string. *)
Fixpoint last_char (s : string) : option ascii :=
  match s with
  | EmptyString => None
  | String c EmptyString => Some c
  | String _ rest => last_char rest
  end.

Definition ends_with_slash (s : string) : bool :=
  match last_char s with
  | Some c => Ascii.eqb c "/"%char
  | None => false
  end.

Section TabularEntryPoints.

Variable P : Pandas.
Variable U : Utils.

(** Lines 350 and 356 raise with the text of the label-mode error. *)
Definition image_dataset_from_dataframe
    (df : DataFrame P) (path_col label_col : py_key) (image_dir : string)
    (label_mode : option string) (color_mode : string) (batch_size : option Z)
    (image_size : Z * Z) (shuffle_flag : bool) (seed : option Z)
    (validation_split : option Q) (subset : option string)
    (interpolation : string) (crop_to_aspect_ratio : bool) : result datasets :=
  (* 350 *)
  path_col <- match path_col with
              | KeyStr name => Ok name
              | _ => Raise (ValueError msg_label_mode)
              end ;;
  (* 356 *)
  raise_if (match label_col with KeyStr _ | KeyList _ => false | KeyOther => true end)
           (ValueError msg_label_mode) ;;;
  (* 362 *)
  let image_dir :=
    if negb (image_dir =? "")%string && negb (ends_with_slash image_dir)
    then (image_dir ++ "/")%string else image_dir in
  (* 363 *)
  values <- path_values P df path_col ;;
  let image_paths := map (String.append image_dir) values in
  (* 364 *)
  labels <- label_values P df label_col ;;
  image_dataset_from_paths_and_labels U image_paths (PySequence labels) label_mode
    color_mode batch_size image_size shuffle_flag seed validation_split subset
    interpolation crop_to_aspect_ratio.

Definition image_dataset_from_csv
    (csv_path : string) (path_col label_col : py_key) (image_dir : string)
    (label_mode : option string) (color_mode : string) (batch_size : option Z)
    (image_size : Z * Z) (shuffle_flag : bool) (seed : option Z)
    (validation_split : option Q) (subset : option string)
    (interpolation : string) (crop_to_aspect_ratio : bool) : result datasets :=
  df <- read_csv P csv_path ;;
  image_dataset_from_dataframe df path_col label_col image_dir label_mode
    color_mode batch_size image_size shuffle_flag seed validation_split subset
    interpolation crop_to_aspect_ratio.

End TabularEntryPoints.

(** A frame for running the tabular entry points: string columns and integer
    columns by name. *)
Record ex_frame : Type := mk_frame
  { text_columns : list (string * list string);
    integer_columns : list (string * list Z) }.

Definition ex_train_frame : ex_frame :=
  mk_frame [("file", ["small.png"; "wide.png"; "large.png"])]
           [("y", [0; 1; 0]); ("a", [1; 0; 1]); ("b", [0; 1; 1])].

(** Row [i] of the selected columns, for [df[[c1, c2, ...]].values]. *)
Definition frame_row (columns : list (list Z)) (i : nat) : list Z :=
  map (fun column => nth i column 0) columns.

Definition ex_label_values (df : ex_frame) (key : py_key) : result (Np.ndarray Z) :=
  match key with
  | KeyStr name =>
      match lookup name (integer_columns df) with
      | Some column => Ok (Np.mk_ndarray [length column] column)
      | None => Raise (KeyError name)
      end
  | KeyList names =>
      columns <- traverse (fun name =>
                             match lookup name (integer_columns df) with
                             | Some column => Ok column
                             | None => Raise (KeyError name)
                             end) names ;;
      let n := match integer_columns df with
               | (_, column) :: _ => length column
               | [] => 0%nat
               end in
      if (n =? 0)%nat then Ok (Np.mk_ndarray [0%nat] [])
      else Ok (Np.mk_ndarray [n; length names]
                 (flat_map (frame_row columns) (seq 0 n)))
  | KeyOther => Raise (KeyError "")
  end.

Definition ex_pandas : Pandas :=
  mk_pandas
    (fun path =>
       if (path =? "train.csv")%string then Ok ex_train_frame
       else Raise (OpError (msg_utils "no such file")))
    (fun df name =>
       match lookup name (text_columns df) with
       | Some column => Ok column
       | None => Raise (KeyError name)
       end)
    ex_label_values.

(** ** Further notions used in the statements *)

(** The argument checks that precede the label checks in
    [image_dataset_from_paths_and_labels] (lines 502-516) all pass. *)
Definition arguments_pass (U : Utils) (color_mode : string) (interpolation : string)
    (validation_split : option Q) (subset : option string) (shuffle_flag : bool)
    (seed : option Z) : Prop :=
  (color_mode = "rgb" \/ color_mode = "rgba" \/ color_mode = "grayscale")
  /\ (exists interpolation', get_interpolation U interpolation = Ok interpolation')
  /\ check_validation_split_arg U validation_split subset shuffle_flag seed = Ok tt.

(** The label modes that line 495 lets through. *)
Definition accepted_mode (label_mode : string) : Prop :=
  mode_in label_mode ["int"; "categorical"; "multi_label"; "binary"] = true.

(** The dataset objects of a returned value. *)
Definition handles (d : datasets) : list dataset_handle :=
  match d with
  | Single dataset => [dataset]
  | TrainVal train_dataset val_dataset => [train_dataset; val_dataset]
  end.

(** The arguments of the [load_image] stages of a pipeline. *)
Fixpoint load_settings (ds : Dataset) : list (Z * Z * Z * string * bool) :=
  match ds with
  | from_tensor_slices _ => []
  | labels_to_dataset _ _ _ => []
  | map_load_image ds image_size num_channels interpolation crop =>
      (image_size, num_channels, interpolation, crop) :: load_settings ds
  | zip a b => load_settings a ++ load_settings b
  | prefetch ds => load_settings ds
  | shuffle ds _ _ => load_settings ds
  | batch ds _ => load_settings ds
  end.

(** The label mode and class count of the label stages of a pipeline. *)
Fixpoint label_settings (ds : Dataset) : list (string * Z) :=
  match ds with
  | from_tensor_slices _ => []
  | labels_to_dataset _ label_mode num_classes => [(label_mode, num_classes)]
  | map_load_image ds _ _ _ _ => label_settings ds
  | zip a b => label_settings a ++ label_settings b
  | prefetch ds => label_settings ds
  | shuffle ds _ _ => label_settings ds
  | batch ds _ => label_settings ds
  end.

(** The batch sizes of the batch stages of a pipeline, outermost first. *)
Fixpoint batch_stages (ds : Dataset) : list Z :=
  match ds with
  | from_tensor_slices _ => []
  | labels_to_dataset _ _ _ => []
  | map_load_image ds _ _ _ _ => batch_stages ds
  | zip a b => batch_stages a ++ batch_stages b
  | prefetch ds => batch_stages ds
  | shuffle ds _ _ => batch_stages ds
  | batch ds batch_size => batch_size :: batch_stages ds
  end.

(** The string [ext] occurs somewhere in [path]. *)
Definition occurs (ext path : string) : Prop :=
  exists a b, path = (a ++ ext ++ b)%string.

(** The channel count of the tensor that the DICOM branch resizes, for
    decoded frames of [c] channels. *)
Definition dicom_channel_count (num_channels : Z) (c : nat) : nat :=
  if num_channels =? 3 then (3 * c)%nat
  else if num_channels =? 4 then (4 * c)%nat else c.

(** The number of label rows that the label stages of a pipeline hold. *)
Fixpoint label_count (ds : Dataset) : nat :=
  match ds with
  | from_tensor_slices _ => 0%nat
  | labels_to_dataset labels _ _ => length (label_rows labels)
  | map_load_image ds _ _ _ _ => label_count ds
  | zip a b => (label_count a + label_count b)%nat
  | prefetch ds => label_count ds
  | shuffle ds _ _ => label_count ds
  | batch ds _ => label_count ds
  end.

(** The engine releases what a shuffle stage took in, each element once. *)
Definition shuffles_by_permuting (G : Engine) : Prop :=
  forall (A : Type) (buffer_size seed : Z) (l : list A),
    Permutation (shuffled G buffer_size seed l) l.

(** The samples inside the batches of a pass, and a pass without batches. *)
Definition unbatched (es : list element) : list element :=
  flat_map (fun e => match e with EBatch xs => xs | _ => [e] end) es.

(** The element is an image, not a pair and not a batch. *)
Definition is_image (e : element) : Prop :=
  match e with EImage _ _ => True | _ => False end.

(** * Properties *)

(** ** Lists and numpy operations *)

Lemma fold_left_max_ge (l : list Z) (x : Z) : x <= fold_left Z.max l x.
Proof.
  revert x; induction l as [|y l IH]; intros x; simpl; [lia|].
  specialize (IH (Z.max x y)); lia.
Qed.

Lemma fold_left_max_upper (l : list Z) (x z : Z) :
  In z l -> z <= fold_left Z.max l x.
Proof.
  revert x; induction l as [|y l IH]; intros x; simpl; [tauto|].
  intros [->|Hin]; [|now apply IH].
  pose proof (fold_left_max_ge l (Z.max x z)); lia.
Qed.

Lemma fold_left_max_in (l : list Z) (x : Z) :
  fold_left Z.max l x = x \/ In (fold_left Z.max l x) l.
Proof.
  revert x; induction l as [|y l IH]; intros x; simpl; [now left|].
  destruct (IH (Z.max x y)) as [H|H]; [|now right; right].
  rewrite H. destruct (Z.max_spec x y) as [[_ ->]|[_ ->]]; auto.
Qed.

(** [np.max] returns the largest element of a non-empty array. *)
Lemma np_max_spec (a : Np.ndarray Z) (m : Z) :
  Np.max a = Ok m ->
  In m (Np.data a) /\ forall x, In x (Np.data a) -> x <= m.
Proof.
  unfold Np.max. destruct (Np.data a) as [|x xs]; [discriminate|].
  intros H; injection H as <-. split.
  - destruct (fold_left_max_in xs x) as [->|Hin]; simpl; auto.
  - intros z [<-|Hin]; [apply fold_left_max_ge | now apply fold_left_max_upper].
Qed.

Lemma np_max_nonempty (a : Np.ndarray Z) :
  Np.data a <> [] -> exists m, Np.max a = Ok m.
Proof.
  unfold Np.max. destruct (Np.data a); [congruence | eauto].
Qed.

(** Two distinct values: the length of [np.unique] is 2 exactly when the
    labels take two different values and no third one. *)
Lemma nodup_length_two (l : list Z) :
  length (nodup Z.eq_dec l) = 2%nat <->
  exists x y, x <> y /\ In x l /\ In y l /\ forall z, In z l -> z = x \/ z = y.
Proof.
  pose proof (NoDup_nodup Z.eq_dec l) as Hnd.
  pose proof (nodup_In Z.eq_dec l) as Hin.
  split.
  - destruct (nodup Z.eq_dec l) as [|x [|y [|z r]]] eqn:E; try discriminate.
    intros _. exists x, y. repeat split.
    + inversion Hnd as [|? ? Hx _]; subst. simpl in Hx. intros ->. tauto.
    + apply Hin; simpl; auto.
    + apply Hin; simpl; auto.
    + intros z Hz. apply Hin in Hz. simpl in Hz. intuition.
  - intros (x & y & Hxy & Hx & Hy & Hall).
    assert (Hincl : incl (nodup Z.eq_dec l) [x; y]).
    { intros z Hz. apply Hin in Hz. destruct (Hall z Hz); subst; simpl; auto. }
    assert (Hincl' : incl [x; y] (nodup Z.eq_dec l)).
    { intros z [<-|[<-|[]]]; now apply Hin. }
    assert (Hnd2 : NoDup [x; y]).
    { constructor; [simpl; intuition | constructor; [simpl; tauto | constructor]]. }
    pose proof (NoDup_incl_length Hnd Hincl) as H1.
    pose proof (NoDup_incl_length Hnd2 Hincl') as H2.
    simpl in H1, H2. lia.
Qed.

(** ** The label-mode check of the entry point *)

Section LabelModeCheck.

Variable U : Utils.
Variables (image_paths : list string) (color_mode : string) (batch_size : option Z)
          (image_size : Z * Z) (shuffle_flag : bool) (seed : option Z)
          (validation_split : option Q) (subset : option string)
          (interpolation : string) (crop_to_aspect_ratio : bool).

(** With any sequence of labels, the mode [multi_class] stops at line 495:
    the set tested there lacks it. *)
Lemma entry_point_rejects_multi_class (a : Np.ndarray Z) :
  image_dataset_from_paths_and_labels U image_paths (PySequence a)
    (Some "multi_class") color_mode batch_size image_size shuffle_flag seed
    validation_split subset interpolation crop_to_aspect_ratio
  = Raise (ValueError msg_label_mode).
Proof. reflexivity. Qed.

(** The same check in [image_dataset_from_directory] (line 287) lets
    [multi_class] through: the call reaches [index_directory]. *)
Lemma directory_check_accepts_multi_class (directory : string) (e : exn)
    (class_names : option (list string)) (follow_links : bool) :
  index_directory U directory PyInferred (Some "multi_class") ALLOWLIST_FORMATS
    class_names shuffle_flag
    (match seed with None => randint U | Some s => s end) follow_links = Raise e ->
  image_dataset_from_directory U directory PyInferred (Some "multi_class")
    class_names color_mode batch_size image_size shuffle_flag seed
    validation_split subset interpolation follow_links crop_to_aspect_ratio
  = Raise e.
Proof.
  intros H. unfold image_dataset_from_directory. cbn. rewrite H. reflexivity.
Qed.

(** ... and what it indexed is then refused by the delegate. *)
Lemma directory_multi_class_is_refused_later (directory : string)
    (class_names : option (list string)) (follow_links : bool)
    (paths : list string) (a : Np.ndarray Z) :
  index_directory U directory PyInferred (Some "multi_class") ALLOWLIST_FORMATS
    class_names shuffle_flag
    (match seed with None => randint U | Some s => s end) follow_links
  = Ok (paths, PySequence a) ->
  image_dataset_from_directory U directory PyInferred (Some "multi_class")
    class_names color_mode batch_size image_size shuffle_flag seed
    validation_split subset interpolation follow_links crop_to_aspect_ratio
  = Raise (ValueError msg_label_mode).
Proof.
  intros H. unfold image_dataset_from_directory. cbn. rewrite H. reflexivity.
Qed.

End LabelModeCheck.

(** C1.  The call of scenario 3, labels [[1,0],[0,1],[1,0]] with
    [label_mode = 'multi_class'], does not build a dataset: whatever the other
    arguments are, it raises the ValueError of the label-mode check at
    line 495, although the label checks and the class count that follow
    (lines 536-559) would accept the matrix with a class count of 2, its row
    width. *)
Theorem multi_class_scenario_raises_label_mode_error :
  forall (U : Utils) (image_paths : list string) (color_mode : string)
         (batch_size : option Z) (image_size : Z * Z) (shuffle_flag : bool)
         (seed : option Z) (validation_split : option Q) (subset : option string)
         (interpolation : string) (crop_to_aspect_ratio : bool),
    image_dataset_from_paths_and_labels U image_paths
      (PySequence (matrix 3 2 [1; 0; 0; 1; 1; 0])) (Some "multi_class")
      color_mode batch_size image_size shuffle_flag seed validation_split
      subset interpolation crop_to_aspect_ratio
    = Raise (ValueError msg_label_mode)
    /\ kind_of (ValueError msg_label_mode) = InvalidArgument
    /\ reconcile_labels "multi_class" (matrix 3 2 [1; 0; 0; 1; 1; 0])
       = Ok (IntLabels (matrix 3 2 [1; 0; 0; 1; 1; 0]), Some 2).
Proof.
  intros. split; [apply entry_point_rejects_multi_class|].
  split; reflexivity.
Qed.

(** C7.  Under [label_mode = 'multi_class'] the entry point never reaches the
    checks of lines 536-548: for every label array (a matrix with a row
    summing to more than 1, a matrix of width 1, a rank-1 sequence alike) it
    raises the label-mode error of line 495, which is none of the three
    messages of those lines.  Run on their own, lines 536-548 do give the
    messages of the claim on the inputs of scenario 4. *)
Theorem multi_class_label_checks_are_not_reached :
  (forall (U : Utils) (image_paths : list string) (a : Np.ndarray Z)
          (color_mode : string) (batch_size : option Z) (image_size : Z * Z)
          (shuffle_flag : bool) (seed : option Z) (validation_split : option Q)
          (subset : option string) (interpolation : string)
          (crop_to_aspect_ratio : bool),
      image_dataset_from_paths_and_labels U image_paths (PySequence a)
        (Some "multi_class") color_mode batch_size image_size shuffle_flag seed
        validation_split subset interpolation crop_to_aspect_ratio
      = Raise (ValueError msg_label_mode))
  /\ msg_label_mode <> msg_use_multi_label
  /\ msg_label_mode <> msg_use_binary
  /\ msg_label_mode <> msg_labels_shape_matrix
  /\ reconcile_labels "multi_class" (matrix 3 2 [1; 1; 0; 1; 0; 0])
     = Raise (ValueError msg_use_multi_label)
  /\ reconcile_labels "multi_class" (matrix 3 1 [1; 0; 1])
     = Raise (ValueError msg_use_binary)
  /\ reconcile_labels "multi_class" (vector [1; 0; 1])
     = Raise (ValueError msg_labels_shape_matrix).
Proof.
  split; [intros; apply entry_point_rejects_multi_class|].
  repeat split; try discriminate; reflexivity.
Qed.

(** ** Label reconciliation *)

Lemma bind_ok {A B : Type} (r : result A) (k : A -> result B) (b : B) :
  bind r k = Ok b -> exists a, r = Ok a /\ k a = Ok b.
Proof. destruct r; simpl; [eauto | discriminate]. Qed.

Lemma Ok_inj {A : Type} (a b : A) : Ok a = Ok b -> a = b.
Proof. congruence. Qed.

Lemma raise_if_ok (c : bool) (e : exn) (u : unit) :
  raise_if c e = Ok u -> c = false.
Proof. destruct c; simpl; [discriminate | reflexivity]. Qed.

Ltac bind_inv H :=
  let x := fresh "x" in
  let Hx := fresh "Hx" in
  apply bind_ok in H; destruct H as (x & Hx & H).

Lemma shape1_ok (a : Np.ndarray Z) (w : Z) :
  shape1 a = Ok w ->
  exists rows k rest, Np.shape a = rows :: k :: rest /\ w = Z.of_nat k.
Proof.
  unfold shape1, Np.shape_at.
  destruct (Np.shape a) as [|rows [|k rest]]; simpl; try discriminate.
  intros H; injection H as <-. eauto.
Qed.

Lemma reconcile_binary_vector (l : list Z) :
  reconcile_labels "binary" (vector l)
  = if (length (nodup Z.eq_dec l) =? 2)%nat
    then Ok (FloatLabels (Np.mk_ndarray [length l; 1%nat] (map Np.float64_of_Z l)),
             Some 2)
    else Raise (ValueError msg_binary_two_classes).
Proof.
  unfold reconcile_labels. cbn.
  unfold Np.unique; cbn.
  destruct (length (nodup Z.eq_dec l) =? 2)%nat; reflexivity.
Qed.

Lemma binary_labels_stage (l : list Z) :
  ~ two_distinct_values l ->
  reconcile_labels "binary" (vector l) = Raise (ValueError msg_binary_two_classes).
Proof.
  intros Hnot. rewrite reconcile_binary_vector.
  destruct (length (nodup Z.eq_dec l) =? 2)%nat eqn:E; [|reflexivity].
  apply Nat.eqb_eq, nodup_length_two in E. contradiction.
Qed.

(** C6.  Under [label_mode = 'binary'] a label sequence gets a trailing axis
    of extent 1 and is cast to floating point; the label checks raise the
    ValueError of line 532 exactly when the labels do not take exactly two
    distinct values.  On [0, 1, 0] the result is [[0.0], [1.0], [0.0]]. *)
Theorem binary_labels_are_reshaped_and_cast :
  forall l : list Z,
    (two_distinct_values l ->
     reconcile_labels "binary" (vector l)
     = Ok (FloatLabels (Np.mk_ndarray [length l; 1%nat] (map Np.float64_of_Z l)),
           Some 2))
    /\ (~ two_distinct_values l ->
        reconcile_labels "binary" (vector l)
        = Raise (ValueError msg_binary_two_classes))
    /\ (fails_with (reconcile_labels "binary" (vector l)) InvalidArgument
        <-> ~ two_distinct_values l)
    /\ reconcile_labels "binary" (vector [0; 1; 0])
       = Ok (FloatLabels
               (Np.mk_ndarray [3; 1]%nat
                  [S754_zero false; S754_finite false 4503599627370496 (-52);
                   S754_zero false]),
             Some 2).
Proof.
  intros l. rewrite reconcile_binary_vector.
  pose proof (nodup_length_two l) as Hiff. fold (two_distinct_values l) in Hiff.
  destruct (length (nodup Z.eq_dec l) =? 2)%nat eqn:E.
  - apply Nat.eqb_eq in E. apply Hiff in E. repeat split.
    + tauto.
    + intros (e & He & _). discriminate.
    + intros Hn. tauto.
  - apply Nat.eqb_neq in E. assert (Hn : ~ two_distinct_values l) by tauto.
    repeat split.
    + tauto.
    + intros _. exact Hn.
    + intros _. exists (ValueError msg_binary_two_classes). split; reflexivity.
Qed.

(** *** Rows of a label matrix *)

Lemma chunks_fuel_nil {A : Type} (f w : nat) : Np.chunks_fuel f w (@nil A) = [].
Proof. destruct f; reflexivity. Qed.

Lemma chunks_fuel_enough {A : Type} (w : nat) :
  (0 < w)%nat ->
  forall (f f' : nat) (l : list A),
    (length l <= f)%nat -> (length l <= f')%nat ->
    Np.chunks_fuel f w l = Np.chunks_fuel f' w l.
Proof.
  intros Hw. induction f as [|f IH]; intros f' l Hf Hf'.
  - destruct l; [|simpl in Hf; lia]. now rewrite !chunks_fuel_nil.
  - destruct l as [|x l]; [now rewrite !chunks_fuel_nil|].
    destruct f' as [|f']; [simpl in Hf'; lia|].
    simpl Np.chunks_fuel. f_equal.
    assert (Hlen : (length (skipn w (x :: l)) <= length l)%nat).
    { rewrite length_skipn. cbn [length]. lia. }
    simpl in Hf, Hf'. apply IH; lia.
Qed.

Lemma chunks_cons {A : Type} (w : nat) (x : A) (l : list A) :
  (0 < w)%nat ->
  Np.chunks w (x :: l) = firstn w (x :: l) :: Np.chunks w (skipn w (x :: l)).
Proof.
  intros Hw. unfold Np.chunks at 1. simpl Np.chunks_fuel. f_equal.
  apply chunks_fuel_enough; [assumption | | lia].
  rewrite length_skipn. cbn [length]. lia.
Qed.

Lemma chunks_rows (w : nat) :
  (0 < w)%nat ->
  forall (n : nat) (l : list Z),
    length l = (n * w)%nat -> Np.chunks w l = map (row w l) (seq 0 n).
Proof.
  intros Hw. induction n as [|n IH]; intros l Hlen.
  - destruct l; [reflexivity | simpl in Hlen; lia].
  - destruct l as [|x l]; [simpl in Hlen; lia|].
    rewrite chunks_cons by assumption.
    rewrite (IH (skipn w (x :: l))) by (rewrite length_skipn, Hlen; lia).
    simpl seq. simpl map. f_equal.
    rewrite <- seq_shift, map_map. apply map_ext. intros i.
    unfold row. rewrite skipn_skipn. do 2 f_equal. simpl. lia.
Qed.

Lemma chunks_one {A : Type} (l : list A) : Np.chunks 1 l = map (fun x => [x]) l.
Proof.
  induction l as [|x l IH]; [reflexivity|].
  rewrite chunks_cons by lia. simpl. now rewrite IH.
Qed.

(** *** 64-bit integers *)

Lemma wrap64_range (z : Z) : Np.int64 (Np.wrap64 z).
Proof.
  unfold Np.int64, Np.wrap64.
  pose proof (Z.mod_pos_bound (z + 2 ^ 63) (2 ^ 64) ltac:(lia)). lia.
Qed.

Lemma wrap64_id (z : Z) : Np.int64 z -> Np.wrap64 z = z.
Proof.
  unfold Np.int64, Np.wrap64. intros H. rewrite Z.mod_small; lia.
Qed.

Lemma wrap64_add_l (a x : Z) : Np.wrap64 (Np.wrap64 a + x) = Np.wrap64 (a + x).
Proof.
  unfold Np.wrap64. f_equal.
  replace ((a + 2 ^ 63) mod 2 ^ 64 - 2 ^ 63 + x + 2 ^ 63)
    with ((a + 2 ^ 63) mod 2 ^ 64 + x) by lia.
  rewrite Zplus_mod_idemp_l. f_equal. lia.
Qed.

(** The largest [int64] plus one is the smallest [int64]. *)
Lemma wrap64_overflow : Np.wrap64 (2 ^ 63 - 1 + 1) = - 2 ^ 63.
Proof. reflexivity. Qed.

Lemma add_singletons (b : list Z) (z : Z) :
  Np.int64 z ->
  fold_left Np.add_vectors (map (fun x => [x]) b) [z] = [Np.wrap64 (z + list_sum b)].
Proof.
  revert z; induction b as [|x b IH]; intros z Hz; simpl.
  - rewrite Z.add_0_r. now rewrite wrap64_id.
  - rewrite IH by apply wrap64_range. rewrite wrap64_add_l. f_equal. f_equal. lia.
Qed.

Lemma block_sums (rows : list (list Z)) :
  flat_map (fun b => fold_left Np.add_vectors (Np.chunks 1 b) (repeat 0 1)) rows
  = map (fun b => Np.wrap64 (list_sum b)) rows.
Proof.
  induction rows as [|b rows IH]; [reflexivity|].
  cbn [flat_map]. rewrite IH, chunks_one. cbn [repeat].
  rewrite add_singletons by (unfold Np.int64; lia). reflexivity.
Qed.

(** [np.sum(labels, axis=1)] of a matrix is the vector of its row sums, each
    taken in [int64]. *)
Lemma sum_axis1_matrix (n w : nat) (l : list Z) :
  (0 < w)%nat -> length l = (n * w)%nat ->
  Np.sum_axis1 (matrix n w l)
  = Np.mk_ndarray [n] (map (fun i => Np.wrap64 (list_sum (row w l i))) (seq 0 n)).
Proof.
  intros Hw Hlen. unfold Np.sum_axis1, matrix.
  cbn [Np.shape Np.data Np.size_of fold_right].
  f_equal. rewrite Nat.mul_1_r, block_sums, (chunks_rows Hw n l Hlen).
  now rewrite map_map.
Qed.

(** The label checks and the class count under [multi_class], with the tests
    on the mode evaluated. *)
Lemma reconcile_multi_class_eq (a : Np.ndarray Z) :
  reconcile_labels "multi_class" a
  = (raise_if (Np.ndim a <? 2)%nat (ValueError msg_labels_shape_matrix) ;;;
     w <- shape1 a ;;
     raise_if (w <? 2) (ValueError msg_use_binary) ;;;
     (m <- Np.max (Np.sum_axis1 a) ;;
      raise_if (1 <? m) (ValueError msg_use_multi_label)) ;;;
     w <- shape1 a ;;
     Ok (IntLabels a, Some w)).
Proof.
  unfold reconcile_labels. cbn.
  destruct (raise_if (Np.ndim a <=? 1)%nat (ValueError msg_labels_shape_matrix));
    [|reflexivity].
  cbn. destruct (shape1 a) as [w|]; [|reflexivity].
  cbn. destruct (raise_if (w <? 2) (ValueError msg_use_binary)); [|reflexivity].
  cbn. destruct (Np.max (Np.sum_axis1 a)) as [m|]; [|reflexivity].
  cbn. destruct (raise_if (1 <? m) (ValueError msg_use_multi_label)); reflexivity.
Qed.

Lemma multi_class_matrix_steps (n w : nat) (l : list Z) :
  (2 <= w)%nat -> length l = (n * w)%nat ->
  reconcile_labels "multi_class" (matrix n w l)
  = (m <- Np.max (Np.mk_ndarray [n]
                    (map (fun i => Np.wrap64 (list_sum (row w l i))) (seq 0 n))) ;;
     raise_if (1 <? m) (ValueError msg_use_multi_label) ;;;
     Ok (IntLabels (matrix n w l), Some (Z.of_nat w))).
Proof.
  intros Hw Hlen. rewrite reconcile_multi_class_eq.
  rewrite (@sum_axis1_matrix n w l) by (assumption || lia).
  change (Np.ndim (matrix n w l)) with 2%nat.
  change (shape1 (matrix n w l)) with (Ok (Z.of_nat w)).
  cbn [Nat.ltb Nat.leb raise_if bind].
  destruct (Z.ltb_spec (Z.of_nat w) 2) as [Hlt|_]; [lia|].
  cbn [raise_if bind].
  destruct (Np.max _) as [m|]; [|reflexivity]. cbn [bind].
  destruct (raise_if (1 <? m) (ValueError msg_use_multi_label)); reflexivity.
Qed.

(** Lines 536-548 on a matrix under [multi_class]: a row summing to more
    than 1 (and to no more than an [int64] holds) gives the message that
    suggests multi_label. *)
Lemma reconcile_multi_class_row_sum (n w : nat) (l : list Z) (i : nat) :
  (2 <= w)%nat -> length l = (n * w)%nat ->
  (i < n)%nat -> 1 < list_sum (row w l i) < 2 ^ 63 ->
  reconcile_labels "multi_class" (matrix n w l)
  = Raise (ValueError msg_use_multi_label).
Proof.
  intros Hw Hlen Hi Hsum. rewrite multi_class_matrix_steps by assumption.
  set (sums := map (fun i => Np.wrap64 (list_sum (row w l i))) (seq 0 n)).
  assert (Hin : In (list_sum (row w l i)) sums).
  { unfold sums. apply in_map_iff. exists i. split.
    - apply wrap64_id. unfold Np.int64. lia.
    - apply in_seq. lia. }
  destruct (np_max_nonempty (Np.mk_ndarray [n] sums)) as [m Hm].
  { simpl. intros E. rewrite E in Hin. contradiction. }
  rewrite Hm. cbn [bind].
  destruct (np_max_spec _ Hm) as [_ Hub]. specialize (Hub _ Hin).
  destruct (Z.ltb_spec 1 m) as [_|Hle]; [reflexivity | lia].
Qed.

(** ... and mutually exclusive rows are accepted, with the row width as the
    class count. *)
Lemma reconcile_multi_class_exclusive (n w : nat) (l : list Z) :
  (2 <= w)%nat -> (0 < n)%nat -> length l = (n * w)%nat ->
  (forall i, (i < n)%nat -> - 2 ^ 63 <= list_sum (row w l i) <= 1) ->
  reconcile_labels "multi_class" (matrix n w l)
  = Ok (IntLabels (matrix n w l), Some (Z.of_nat w)).
Proof.
  intros Hw Hn Hlen Hrows. rewrite multi_class_matrix_steps by assumption.
  set (sums := map (fun i => Np.wrap64 (list_sum (row w l i))) (seq 0 n)).
  destruct (np_max_nonempty (Np.mk_ndarray [n] sums)) as [m Hm].
  { simpl. unfold sums. destruct n; [lia | discriminate]. }
  rewrite Hm. cbn [bind].
  destruct (np_max_spec _ Hm) as [Hin _]. simpl in Hin.
  apply in_map_iff in Hin. destruct Hin as (i & <- & Hi). apply in_seq in Hi.
  specialize (Hrows i ltac:(lia)).
  rewrite wrap64_id by (unfold Np.int64; lia).
  destruct (Z.ltb_spec 1 (list_sum (row w l i))) as [Hgt|_]; [lia | reflexivity].
Qed.

(** A matrix of width 1 gets the message that suggests the binary mode, a
    rank-1 sequence the message that asks for shape (samples, num_classes);
    both for multi_class and multi_label. *)
Lemma reconcile_multi_width_one (label_mode : string) (n : nat) (l : list Z) :
  label_mode = "multi_class" \/ label_mode = "multi_label" ->
  reconcile_labels label_mode (matrix n 1 l) = Raise (ValueError msg_use_binary).
Proof. intros [-> | ->]; reflexivity. Qed.

Lemma reconcile_multi_rank_one (label_mode : string) (l : list Z) :
  label_mode = "multi_class" \/ label_mode = "multi_label" ->
  reconcile_labels label_mode (vector l)
  = Raise (ValueError msg_labels_shape_matrix).
Proof. intros [-> | ->]; reflexivity. Qed.

Lemma reconcile_multi_label_matrix (n w : nat) (l : list Z) :
  (2 <= w)%nat ->
  reconcile_labels "multi_label" (matrix n w l)
  = Ok (IntLabels (matrix n w l), Some (Z.of_nat w + 1)).
Proof.
  intros Hw. unfold reconcile_labels. cbn.
  destruct (Z.ltb_spec (Z.of_nat w) 2) as [Hlt|_]; [lia | reflexivity].
Qed.

(** Integer class ids: a non-empty sequence is accepted as it is, with one
    class more than its largest label, counted in [int64]. *)
Lemma reconcile_int_vector (label_mode : string) (l : list Z) (m : Z) :
  label_mode = "int" \/ label_mode = "categorical" ->
  Np.max (vector l) = Ok m ->
  reconcile_labels label_mode (vector l)
  = Ok (IntLabels (vector l), Some (Np.wrap64 (m + 1))).
Proof.
  intros [-> | ->] Hm; unfold reconcile_labels; cbn [mode_in existsb String.eqb
    Ascii.eqb Bool.eqb orb andb Np.ndim vector Np.shape length Nat.ltb Nat.leb
    raise_if bind]; rewrite Hm; reflexivity.
Qed.

(** C3, as amended.  Whenever the label checks accept [(labels, label_mode)],
    the class count they derive is 2 for binary, the row width for
    multi_class, the row width plus one for multi_label and, for int and
    categorical, the largest label plus one as numpy computes it in 64-bit
    integers: the largest label plus one for every largest label but
    [2^63 - 1], and [-2^63] for that one.  The checks do accept in each mode:
    labels with exactly two distinct values under binary, every non-empty
    flat list under int and categorical, every matrix at least two wide under
    multi_label, and under multi_class every such matrix whose rows each sum
    to at most 1. *)
Theorem class_count_derivation :
  (forall (label_mode : string) (a : Np.ndarray Z) (l : label_list) (n : option Z),
      reconcile_labels label_mode a = Ok (l, n) ->
      (label_mode = "binary" -> n = Some 2) /\
      (label_mode = "int" \/ label_mode = "categorical" ->
       exists m, In m (Np.data a) /\ (forall x, In x (Np.data a) -> x <= m) /\
                 n = Some (Np.wrap64 (m + 1)) /\
                 (Np.int64 m -> m <> 2 ^ 63 - 1 -> n = Some (m + 1)) /\
                 (m = 2 ^ 63 - 1 -> n = Some (- 2 ^ 63))) /\
      (label_mode = "multi_class" ->
       exists rows w rest, Np.shape a = rows :: w :: rest /\ n = Some (Z.of_nat w)) /\
      (label_mode = "multi_label" ->
       exists rows w rest,
         Np.shape a = rows :: w :: rest /\ n = Some (Z.of_nat w + 1)))
  /\ (forall l : list Z,
         two_distinct_values l ->
         exists l', reconcile_labels "binary" (vector l) = Ok (l', Some 2))
  /\ (forall (label_mode : string) (l : list Z),
         label_mode = "int" \/ label_mode = "categorical" -> l <> [] ->
         exists m,
           Np.max (vector l) = Ok m
           /\ reconcile_labels label_mode (vector l)
              = Ok (IntLabels (vector l), Some (Np.wrap64 (m + 1))))
  /\ (forall (n w : nat) (l : list Z),
         (2 <= w)%nat -> (0 < n)%nat -> length l = (n * w)%nat ->
         (forall i, (i < n)%nat -> - 2 ^ 63 <= list_sum (row w l i) <= 1) ->
         reconcile_labels "multi_class" (matrix n w l)
         = Ok (IntLabels (matrix n w l), Some (Z.of_nat w)))
  /\ (forall (n w : nat) (l : list Z),
         (2 <= w)%nat ->
         reconcile_labels "multi_label" (matrix n w l)
         = Ok (IntLabels (matrix n w l), Some (Z.of_nat w + 1))).
Proof.
  split; [|split; [|split; [|split]]].
  - intros label_mode a l n H. repeat split.
    + intros ->. unfold reconcile_labels in H. cbn in H.
      bind_inv H. now injection H as _ <-.
    + intros Hmode.
      assert (Hmax : exists m, Np.max a = Ok m /\ n = Some (Np.wrap64 (m + 1))).
      { destruct Hmode as [-> | ->]; unfold reconcile_labels in H;
          cbn [mode_in existsb String.eqb Ascii.eqb Bool.eqb orb andb] in H.
        all: bind_inv H; bind_inv H; bind_inv H; bind_inv H.
        all: cbn [bind] in H; apply Ok_inj in H.
        all: bind_inv Hx2; apply Ok_inj in Hx2; subst x2.
        all: injection H as _ <-; eauto. }
      destruct Hmax as (m & Hm & ->).
      apply np_max_spec in Hm. destruct Hm as [Hin Hub].
      exists m. split; [exact Hin|]. split; [exact Hub|]. split; [reflexivity|].
      split.
      * intros Hrange Hne. f_equal. apply wrap64_id.
        unfold Np.int64 in *. lia.
      * intros ->. f_equal.
    + intros ->. unfold reconcile_labels in H. cbn in H.
      bind_inv H. bind_inv H. injection H as _ <-.
      bind_inv Hx0. injection Hx0 as <-.
      apply shape1_ok in Hx1. destruct Hx1 as (rows & k & rest & Hs & ->). eauto.
    + intros ->. unfold reconcile_labels in H. cbn in H.
      bind_inv H. bind_inv H. injection H as _ <-.
      bind_inv Hx0. injection Hx0 as <-.
      apply shape1_ok in Hx1. destruct Hx1 as (rows & k & rest & Hs & ->). eauto.
  - intros l Htwo. rewrite reconcile_binary_vector.
    apply nodup_length_two in Htwo. apply Nat.eqb_eq in Htwo. rewrite Htwo. eauto.
  - intros label_mode l Hmode Hne.
    destruct (@np_max_nonempty (vector l)) as [m Hm]; [exact Hne|].
    exists m. split; [exact Hm | now apply reconcile_int_vector].
  - intros n w l. apply reconcile_multi_class_exclusive.
  - intros n w l. apply reconcile_multi_label_matrix.
Qed.

(** The theorem at the labels of the scenarios: class ids [0, 2, 1], binary
    labels [0, 1, 0], the one-hot matrix of scenario 3 and a multi-label
    matrix. *)
Lemma class_count_derivation_witness :
  reconcile_labels "int" (vector [0; 2; 1]) = Ok (IntLabels (vector [0; 2; 1]), Some 3)
  /\ (exists l', reconcile_labels "binary" (vector [0; 1; 0]) = Ok (l', Some 2))
  /\ reconcile_labels "multi_class" (matrix 3 2 [1; 0; 0; 1; 1; 0])
     = Ok (IntLabels (matrix 3 2 [1; 0; 0; 1; 1; 0]), Some 2)
  /\ reconcile_labels "multi_label" (matrix 3 2 [1; 1; 0; 1; 0; 0])
     = Ok (IntLabels (matrix 3 2 [1; 1; 0; 1; 0; 0]), Some 3).
Proof.
  destruct class_count_derivation as (Hderived & Hbinary & Hint & Hclass & Hlabel).
  split; [|split; [|split]].
  - destruct (Hint "int" [0; 2; 1] (or_introl eq_refl) ltac:(discriminate))
      as (m & Hm & Hrec).
    apply Ok_inj in Hm. subst m. exact Hrec.
  - apply Hbinary. exists 0, 1.
    split; [discriminate|]. split; [simpl; auto|]. split; [simpl; auto|].
    intros z [<- | [<- | [<- | []]]]; auto.
  - apply (Hclass 3%nat 2%nat); [lia | lia | reflexivity |].
    intros i Hi. destruct i as [|[|[|i]]]; [cbn; lia | cbn; lia | cbn; lia | lia].
  - apply (Hlabel 3%nat 2%nat). lia.
Defined.

(** C3, as stated, fails at the largest 64-bit integer: under int the label
    [2^63 - 1] passes the checks, and the class count derived from it is
    [-2^63], not the label plus one. *)
Lemma class_count_wraps_at_the_largest_label :
  Np.int64 9223372036854775807
  /\ reconcile_labels "int" (vector [9223372036854775807])
     = Ok (IntLabels (vector [9223372036854775807]), Some (-9223372036854775808))
  /\ -9223372036854775808 <> 9223372036854775807 + 1.
Proof.
  split; [unfold Np.int64; lia|]. split; [reflexivity | discriminate].
Qed.

(** ** Geometry of the resize operations *)

Lemma image_dims_ok {A : Type} (t : Np.ndarray A) (b : list nat) (h w : Z) (c : nat) :
  TF.image_dims t = Ok (b, h, w, c) ->
  exists H W : nat,
    Np.shape t = b ++ [H; W; c] /\ h = Z.of_nat H /\ w = Z.of_nat W /\
    0 < h /\ 0 < w /\ (0 < c)%nat /\ (b = [] \/ exists n, b = [n]).
Proof.
  unfold TF.image_dims.
  destruct (Np.shape t) as [|x1 [|x2 [|x3 [|x4 [|x5 rest]]]]];
    cbn [bind]; try discriminate.
  - destruct ((x1 =? 0) || (x2 =? 0) || (x3 =? 0))%nat eqn:E;
      cbn [raise_if bind]; [discriminate|].
    intros H; injection H as <- <- <- <-.
    apply orb_false_elim in E; destruct E as [E E3].
    apply orb_false_elim in E; destruct E as [E1 E2].
    apply Nat.eqb_neq in E1, E2, E3.
    exists x1, x2. repeat split; try lia. now left.
  - destruct ((x2 =? 0) || (x3 =? 0) || (x4 =? 0))%nat eqn:E;
      cbn [raise_if bind]; [discriminate|].
    intros H; injection H as <- <- <- <-.
    apply orb_false_elim in E; destruct E as [E E3].
    apply orb_false_elim in E; destruct E as [E1 E2].
    apply Nat.eqb_neq in E1, E2, E3.
    exists x2, x3. repeat split; try lia. right; eauto.
Qed.

Lemma check_target_ok (h w : Z) (u : unit) :
  TF.check_target h w = Ok u -> 0 < h /\ 0 < w.
Proof.
  unfold TF.check_target. intros H. apply raise_if_ok in H.
  apply orb_false_elim in H. destruct H as [H1 H2].
  apply Z.leb_gt in H1, H2. lia.
Qed.

Lemma last_dim_app (b : list nat) (h w c : nat) :
  Np.last_dim (b ++ [h; w; c]) = c.
Proof.
  unfold Np.last_dim.
  change [h; w; c] with ([h; w] ++ [c]). rewrite app_assoc. apply last_last.
Qed.

Ltac resize_inv H :=
  let d := fresh "d" in
  let Hd := fresh "Hd" in
  let u := fresh "u" in
  let Hu := fresh "Hu" in
  apply bind_ok in H; destruct H as (d & Hd & H);
  destruct d as [[[? ?] ?] ?];
  apply bind_ok in H; destruct H as (u & Hu & H);
  apply image_dims_ok in Hd;
  apply check_target_ok in Hu.

Lemma resize_ok (t : Np.ndarray sample) (size : Z * Z) (m : string) (im : TF.image) :
  TF.resize t size m = Ok im ->
  resized_from t (fst size) (snd size) im /\
  TF.padding_free im /\ TF.shows_whole_source im.
Proof.
  unfold TF.resize. intros H. resize_inv H.
  destruct Hd as (H0 & W0 & Hs & -> & -> & Hh & Hw & Hc & _).
  injection H as <-. unfold resized_from, TF.padding_free, TF.shows_whole_source,
    TF.image_shape. cbn. rewrite Hs, last_dim_app.
  repeat split; try lia.
  - exists l, H0, W0, n. repeat split; lia.
  - exists l, H0, W0, n. split; reflexivity.
Qed.

Lemma resize_with_crop_or_pad_ok (takes_method : bool) (t : Np.ndarray sample)
    (th tw : Z) (m : string) (im : TF.image) :
  TF.resize_with_crop_or_pad takes_method t th tw m = Ok im ->
  takes_method = true /\
  resized_from t th tw im /\
  exists (b : list nat) (H W c : nat),
    Np.shape t = b ++ [H; W; c] /\
    (* no scaling: the window and the place it lands have one size *)
    TF.rows (TF.content im) = Z.min th (Z.of_nat H) /\
    TF.cols (TF.content im) = Z.min tw (Z.of_nat W) /\
    TF.rows (TF.window im) = Z.min th (Z.of_nat H) /\
    TF.cols (TF.window im) = Z.min tw (Z.of_nat W) /\
    TF.top (TF.content im) = Z.max ((th - Z.of_nat H) / 2) 0 /\
    TF.left (TF.content im) = Z.max ((tw - Z.of_nat W) / 2) 0 /\
    TF.top (TF.window im) = Z.max (- (th - Z.of_nat H) / 2) 0 /\
    TF.left (TF.window im) = Z.max (- (tw - Z.of_nat W) / 2) 0.
Proof.
  unfold TF.resize_with_crop_or_pad. intros H. bind_inv H.
  apply raise_if_ok, negb_false_iff in Hx. split; [exact Hx|].
  resize_inv H.
  destruct Hd as (H0 & W0 & Hs & -> & -> & Hh & Hw & Hc & _).
  injection H as <-. unfold resized_from, TF.image_shape. cbn.
  rewrite Hs, last_dim_app. split.
  - repeat split; try lia. exists l, H0, W0, n. repeat split; lia.
  - exists l, H0, W0, n. repeat split; reflexivity.
Qed.

Lemma resize_with_crop_or_pad_undocumented (t : Np.ndarray sample) (th tw : Z)
    (m : string) :
  TF.resize_with_crop_or_pad false t th tw m = Raise (TypeError "method").
Proof. reflexivity. Qed.

Lemma div_facts (a b : Z) : 0 < b -> b * (a / b) <= a < b * (a / b) + b.
Proof.
  intros Hb. pose proof (Z.div_mod a b ltac:(lia)).
  pose proof (Z.mod_pos_bound a b Hb). lia.
Qed.

Lemma pad_box_offsets (h w th tw : Z) :
  0 <= TF.top (TF.pad_box h w th tw) /\ 0 <= TF.left (TF.pad_box h w th tw).
Proof.
  cbv beta iota zeta delta [TF.pad_box TF.top TF.left]. split; apply Z.le_max_l.
Qed.

Lemma resize_with_pad_ok (t : Np.ndarray sample) (th tw : Z) (m : string)
    (im : TF.image) :
  TF.resize_with_pad t th tw m = Ok im ->
  resized_from t th tw im /\ letterboxed im.
Proof.
  unfold TF.resize_with_pad. intros H. resize_inv H.
  destruct Hd as (H0 & W0 & Hs & -> & -> & Hh & Hw & Hc & _).
  cbv zeta in H.
  apply bind_ok in H. destruct H as (u2 & Hu2 & H). apply check_target_ok in Hu2.
  apply bind_ok in H. destruct H as (u3 & Hu3 & H). apply raise_if_ok in Hu3.
  apply orb_false_elim in Hu3. destruct Hu3 as [Hb1 Hb2].
  apply Z.ltb_ge in Hb1, Hb2.
  apply Ok_inj in H. subst im.
  pose proof (pad_box_offsets (Z.of_nat H0) (Z.of_nat W0) th tw) as [Ht Hl].
  unfold resized_from, letterboxed, TF.image_shape.
  cbv beta iota zeta delta
      [TF.source TF.leading TF.height TF.width TF.content TF.window
       TF.static_shape].
  rewrite Hs, last_dim_app. split.
  - repeat split; try lia. exists l, H0, W0, n. repeat split; lia.
  - exists l, H0, W0, n. split; [reflexivity|]. split; [reflexivity|].
    split; [reflexivity|]. repeat split; lia.
Qed.

(** For source and target sizes up to 8 by 8 the box of [resize_with_pad]
    is the exact letterbox up to one pixel. *)
Lemma pad_box_near_exact_letterbox (h w th tw : Z) :
  In h (sizes_up_to 8) -> In w (sizes_up_to 8) ->
  In th (sizes_up_to 8) -> In tw (sizes_up_to 8) ->
  near_exact_letterbox h w th tw = true.
Proof.
  assert (Hall : forallb (fun h => forallb (fun w => forallb (fun th =>
                   forallb (fun tw => near_exact_letterbox h w th tw)
                           (sizes_up_to 8)) (sizes_up_to 8)) (sizes_up_to 8))
                   (sizes_up_to 8) = true) by (vm_compute; reflexivity).
  intros Hh Hw Hth Htw.
  rewrite forallb_forall in Hall. specialize (Hall h Hh).
  rewrite forallb_forall in Hall. specialize (Hall w Hw).
  rewrite forallb_forall in Hall. specialize (Hall th Hth).
  rewrite forallb_forall in Hall. exact (Hall tw Htw).
Qed.

(** ** Channel replication *)

Lemma zip_app_map {A B : Type} (f g : A -> list B) (l : list A) :
  Np.zip_app (map f l) (map g l) = map (fun x => f x ++ g x) l.
Proof. induction l as [|x l IH]; simpl; congruence. Qed.

Lemma zip_app_constant {A B : Type} (f : A -> list B) (c : B) (l : list A) :
  Np.zip_app (map f l) (map (fun x => [x]) (repeat c (length l)))
  = map (fun x => f x ++ [c]) l.
Proof. induction l as [|x l IH]; simpl; congruence. Qed.

Lemma removelast_snoc {A : Type} (s : list A) (x : A) : removelast (s ++ [x]) = s.
Proof. apply removelast_last. Qed.

Lemma last_dim_snoc (s : list nat) (c : nat) : Np.last_dim (s ++ [c]) = c.
Proof. apply last_last. Qed.

(** Three copies of a single-channel tensor joined along the last axis:
    every sample three times in a row. *)
Lemma concat_last_three {A : Type} (x : Np.ndarray A) (s : list nat) :
  Np.shape x = s ++ [1%nat] ->
  Np.concat_last [x; x; x]
  = Np.mk_ndarray (s ++ [3%nat]) (flat_map (fun v => [v; v; v]) (Np.data x)).
Proof.
  intros Hs. unfold Np.concat_last. rewrite Hs, removelast_snoc, last_dim_snoc.
  cbn [fold_left length Nat.mul Nat.add]. rewrite chunks_one, !zip_app_map.
  now rewrite flat_map_concat_map.
Qed.

Lemma concat_last_four {A : Type} (x : Np.ndarray A) (s : list nat) :
  Np.shape x = s ++ [1%nat] ->
  Np.concat_last [x; x; x; x]
  = Np.mk_ndarray (s ++ [4%nat]) (flat_map (fun v => [v; v; v; v]) (Np.data x)).
Proof.
  intros Hs. unfold Np.concat_last. rewrite Hs, removelast_snoc, last_dim_snoc.
  cbn [fold_left length Nat.mul Nat.add]. rewrite chunks_one, !zip_app_map.
  now rewrite flat_map_concat_map.
Qed.

(** Three copies and a plane of 255 (lines 98-99): every sample three times,
    then 255. *)
Lemma concat_last_opaque (x : Np.ndarray sample) (s : list nat) :
  Np.shape x = s ++ [1%nat] -> Np.well_shaped x ->
  Np.concat_last [x; x; x; TF.ones_times_255 x]
  = Np.mk_ndarray (s ++ [4%nat])
      (flat_map (fun v => [v; v; v; UInt8 255]) (Np.data x)).
Proof.
  intros Hs Hwf. unfold Np.concat_last. rewrite Hs, removelast_snoc, last_dim_snoc.
  cbn [fold_left length Nat.mul Nat.add].
  unfold TF.ones_times_255. cbn [Np.data Np.shape].
  unfold Np.well_shaped in Hwf. rewrite <- Hwf, !chunks_one, !zip_app_map, zip_app_constant.
  now rewrite flat_map_concat_map.
Qed.

(** [numpy_channels] on a 2-D array: a trailing channel axis, and the plane
    repeated for 3 or 4 channels. *)
Lemma numpy_channels_plane {A : Type} (x : Np.ndarray A) (h w : nat) (num_channels : Z) :
  Np.shape x = [h; w] ->
  numpy_channels x num_channels
  = Some (if num_channels =? 3
          then Np.mk_ndarray [h; w; 3%nat] (flat_map (fun v => [v; v; v]) (Np.data x))
          else if num_channels =? 4
          then Np.mk_ndarray [h; w; 4%nat] (flat_map (fun v => [v; v; v; v]) (Np.data x))
          else Np.mk_ndarray [h; w; 1%nat] (Np.data x)).
Proof.
  intros Hs. unfold numpy_channels, Np.ndim. rewrite Hs. cbn [length Nat.eqb].
  assert (Hx : Np.shape (Np.expand_dims_last x) = [h; w] ++ [1%nat]).
  { unfold Np.expand_dims_last. cbn [Np.shape]. now rewrite Hs. }
  destruct (Z.eqb_spec num_channels 3) as [->|H3].
  - cbn [Z.eqb Pos.eqb]. now rewrite (@concat_last_three _ _ _ Hx).
  - destruct (Z.eqb_spec num_channels 4) as [->|H4].
    + now rewrite (@concat_last_four _ _ _ Hx).
    + unfold Np.expand_dims_last. now rewrite Hs.
Qed.

Lemma numpy_channels_some {A : Type} (x y : Np.ndarray A) (num_channels : Z) :
  numpy_channels x num_channels = Some y ->
  exists h w, Np.shape x = [h; w].
Proof.
  unfold numpy_channels, Np.ndim.
  destruct (Np.shape x) as [|h [|w [|? ?]]]; cbn; try discriminate. eauto.
Qed.

Lemma numpy_channels_none {A : Type} (x : Np.ndarray A) (num_channels : Z) :
  Np.ndim x <> 2%nat -> numpy_channels x num_channels = None.
Proof.
  intros H. unfold numpy_channels.
  destruct (Nat.eqb_spec (Np.ndim x) 2); [contradiction | reflexivity].
Qed.

(** ** Loading one image: the four branches *)

Section LoadImageFacts.

Variable F : Files.
Variable mode : TF.execution.
Variables (path : string) (image_size : Z * Z) (num_channels : Z)
          (interpolation : string) (crop_to_aspect_ratio : bool).

Lemma load_image_branches :
  load_image F mode path image_size num_channels interpolation crop_to_aspect_ratio
  = match branch_of path with
    | DicomBranch =>
        img <- decode_dicom_image F path ;;
        frames <- TF.shape0 img ;;
        raise_if (negb (frames =? 1)%nat) (InvalidArgumentError msg_multiframe_dicom) ;;;
        resize_step F mode false (dicom_channels (TF.squeeze0 img) num_channels)
                    image_size num_channels interpolation crop_to_aspect_ratio
    | NpzBranch =>
        img <- TF.numpy_function (decode_npz_image F path num_channels) ;;
        resize_step F mode true img image_size num_channels interpolation
                    crop_to_aspect_ratio
    | NpyBranch =>
        img <- TF.numpy_function (decode_npy_image F path num_channels) ;;
        resize_step F mode true img image_size num_channels interpolation
                    crop_to_aspect_ratio
    | RasterBranch =>
        img <- decode_image F path num_channels ;;
        resize_step F mode false img image_size num_channels interpolation
                    crop_to_aspect_ratio
    end.
Proof.
  unfold load_image, branch_of, resize_step, dicom_channels.
  destruct (regex_full_match_ext path ".dcm"); [reflexivity|].
  destruct (regex_full_match_ext path ".npz"); [reflexivity|].
  destruct (regex_full_match_ext path ".npy"); reflexivity.
Qed.

End LoadImageFacts.

Lemma set_shape_ok (mode : TF.execution) (im0 im : TF.image) (s : list Z) :
  TF.set_shape mode im0 s = Ok im ->
  im = TF.annotate im0 s /\ TF.image_shape im0 = s.
Proof.
  unfold TF.set_shape.
  destruct (list_eq_dec Z.eq_dec (TF.image_shape im0) s) as [E|E]; [|discriminate].
  intros H. apply Ok_inj in H. auto.
Qed.

Lemma set_shape_mismatch (mode : TF.execution) (im0 : TF.image) (s : list Z) :
  TF.image_shape im0 <> s -> TF.set_shape mode im0 s = Raise (TF.shape_error mode).
Proof.
  intros Hne. unfold TF.set_shape.
  destruct (list_eq_dec Z.eq_dec (TF.image_shape im0) s); [contradiction | reflexivity].
Qed.

Lemma set_shape_match (mode : TF.execution) (im0 : TF.image) (s : list Z) :
  TF.image_shape im0 = s -> TF.set_shape mode im0 s = Ok (TF.annotate im0 s).
Proof.
  intros He. unfold TF.set_shape.
  destruct (list_eq_dec Z.eq_dec (TF.image_shape im0) s); [reflexivity | contradiction].
Qed.

Lemma resize_step_ok (F : Files) (mode : TF.execution) (letterbox : bool)
    (img : Np.ndarray sample) (size : Z * Z) (nc : Z) (interp : string)
    (crop : bool) (im : TF.image) :
  resize_step F mode letterbox img size nc interp crop = Ok im ->
  exists im0,
    im = TF.annotate im0 [fst size; snd size; nc] /\
    TF.image_shape im0 = [fst size; snd size; nc] /\
    resized_from img (fst size) (snd size) im0 /\
    (if crop
     then TF.resize_with_crop_or_pad (crop_or_pad_takes_method F) img
            (fst size) (snd size) interp = Ok im0
     else if letterbox
     then TF.resize_with_pad img (fst size) (snd size) interp = Ok im0
          /\ letterboxed im0
     else TF.resize img size interp = Ok im0
          /\ TF.padding_free im0 /\ TF.shows_whole_source im0).
Proof.
  unfold resize_step. intros H. bind_inv H. apply set_shape_ok in H.
  destruct H as [-> Hshape].
  exists x. split; [reflexivity|]. split; [exact Hshape|]. destruct crop.
  - split; [|assumption]. now apply resize_with_crop_or_pad_ok in Hx.
  - destruct letterbox.
    + pose proof Hx as Hx'. apply resize_with_pad_ok in Hx'. tauto.
    + pose proof Hx as Hx'. apply resize_ok in Hx'. tauto.
Qed.

Lemma resized_shape (t : Np.ndarray sample) (th tw : Z) (im : TF.image)
    (h w k : nat) :
  resized_from t th tw im -> Np.shape t = [h; w; k] ->
  TF.image_shape im = [th; tw; Z.of_nat k].
Proof.
  intros (_ & _ & _ & _ & b & H0 & W0 & c & Hs & _ & _ & _ & _ & _ & Hshape) Ht.
  rewrite Hshape. rewrite Ht in Hs.
  assert (Hb : b = []).
  { apply (f_equal (@length nat)) in Hs. rewrite length_app in Hs.
    simpl in Hs. destruct b; [reflexivity | simpl in Hs; lia]. }
  subst b. simpl in Hs. injection Hs as _ _ ->. reflexivity.
Qed.

Lemma annotate_shape (im : TF.image) (s : list Z) :
  TF.image_shape (TF.annotate im s) = TF.image_shape im
  /\ TF.static_shape (TF.annotate im s) = Some s.
Proof. split; reflexivity. Qed.

(** The shape of the tensor handed to the resize step in the array branches. *)
Lemma numpy_function_shape (r : result (option (Np.ndarray sample)))
    (a : Np.ndarray np_value) (nc : Z) (img : Np.ndarray sample) :
  r = Ok (numpy_channels (Np.astype to_float32 a) nc) ->
  TF.numpy_function r = Ok img ->
  exists h w,
    Np.shape a = [h; w] /\
    img = (if nc =? 3
           then Np.mk_ndarray [h; w; 3%nat]
                  (flat_map (fun v => [v; v; v]) (map to_float32 (Np.data a)))
           else if nc =? 4
           then Np.mk_ndarray [h; w; 4%nat]
                  (flat_map (fun v => [v; v; v; v]) (map to_float32 (Np.data a)))
           else Np.mk_ndarray [h; w; 1%nat] (map to_float32 (Np.data a))).
Proof.
  intros -> H. unfold TF.numpy_function in H. cbn [bind] in H.
  destruct (numpy_channels (Np.astype to_float32 a) nc) as [y|] eqn:E;
    [|discriminate].
  apply Ok_inj in H. subst y.
  destruct (numpy_channels_some _ _ E) as (h & w & Hs).
  rewrite (numpy_channels_plane _ nc Hs) in E. injection E as <-.
  exists h, w. split; [exact Hs | reflexivity].
Qed.

Lemma decode_npz_image_ok (F : Files) (path : string) (nc : Z)
    (v : option (Np.ndarray sample)) :
  decode_npz_image F path nc = Ok v ->
  exists entries a,
    np_load F path = Ok (NpzFile entries) /\ lookup "arr_0" entries = Some a /\
    v = numpy_channels (Np.astype to_float32 a) nc.
Proof.
  unfold decode_npz_image. intros H. bind_inv H.
  destruct x as [entries|a]; [|discriminate].
  destruct (lookup "arr_0" entries) as [a|] eqn:E; [|discriminate].
  apply Ok_inj in H. eauto.
Qed.

Lemma decode_npy_image_ok (F : Files) (path : string) (nc : Z)
    (v : option (Np.ndarray sample)) :
  decode_npy_image F path nc = Ok v ->
  exists a,
    np_load F path = Ok (NpyArray a) /\
    v = numpy_channels (Np.astype to_float32 a) nc.
Proof.
  unfold decode_npy_image. intros H. bind_inv H.
  destruct x as [entries|a]; [discriminate|].
  apply Ok_inj in H. eauto.
Qed.

Lemma numpy_function_ok (r : result (option (Np.ndarray sample)))
    (img : Np.ndarray sample) :
  TF.numpy_function r = Ok img -> r = Ok (Some img).
Proof.
  unfold TF.numpy_function. destruct r as [[y|]|e]; cbn; congruence.
Qed.

Lemma replicated_channels_entry (nc : Z) :
  nc = 1 \/ nc = 3 \/ nc = 4 -> Z.of_nat (replicated_channels nc) = nc.
Proof. intros [-> | [-> | ->]]; reflexivity. Qed.

Lemma array_branch_shape (a : Np.ndarray np_value) (nc : Z) (img : Np.ndarray sample) :
  TF.numpy_function (Ok (numpy_channels (Np.astype to_float32 a) nc)) = Ok img ->
  exists h w, Np.shape a = [h; w] /\ Np.shape img = [h; w; replicated_channels nc].
Proof.
  intros H. destruct (numpy_function_shape a nc eq_refl H)
    as (h & w & Hs & ->).
  exists h, w. split; [assumption|]. unfold replicated_channels.
  destruct (nc =? 3); [reflexivity|]. destruct (nc =? 4); reflexivity.
Qed.

Lemma dicom_channels_shape (img : Np.ndarray sample) (nc : Z) (h w : nat) :
  Np.shape img = [h; w; 1%nat] ->
  Np.shape (dicom_channels img nc) = [h; w; replicated_channels nc].
Proof.
  intros Hs. unfold dicom_channels, replicated_channels, Np.concat_last.
  destruct (nc =? 3); [cbn [Np.shape]; now rewrite Hs|].
  destruct (nc =? 4); [cbn [Np.shape]; now rewrite Hs | assumption].
Qed.

(** Every successful load went through the resize step. *)
Lemma load_image_ends_in_resize_step (F : Files) (mode : TF.execution)
    (path : string) (image_size : Z * Z) (num_channels : Z)
    (interpolation : string) (crop_to_aspect_ratio : bool) (im : TF.image) :
  load_image F mode path image_size num_channels interpolation crop_to_aspect_ratio
  = Ok im ->
  exists letterbox img,
    resize_step F mode letterbox img image_size num_channels interpolation
                crop_to_aspect_ratio = Ok im.
Proof.
  intros H. rewrite load_image_branches in H. destruct (branch_of path).
  - bind_inv H. bind_inv H. bind_inv H. eauto.
  - bind_inv H. eauto.
  - bind_inv H. eauto.
  - bind_inv H. eauto.
Qed.

(** The shape of the tensor that the DICOM branch hands to the resize step. *)
Lemma dicom_channels_shape_general (img : Np.ndarray sample) (nc : Z) (h w c : nat) :
  Np.shape img = [h; w; c] ->
  Np.shape (dicom_channels img nc) = [h; w; dicom_channel_count nc c].
Proof.
  intros Hs. unfold dicom_channels, dicom_channel_count, Np.concat_last.
  destruct (nc =? 3); [cbn [Np.shape]; now rewrite Hs|].
  destruct (nc =? 4); [cbn [Np.shape]; now rewrite Hs | assumption].
Qed.

Lemma dicom_channel_count_positive (nc : Z) (c : nat) :
  (0 < c)%nat -> (0 < dicom_channel_count nc c)%nat.
Proof.
  unfold dicom_channel_count. destruct (nc =? 3); [lia|].
  destruct (nc =? 4); lia.
Qed.

(** Stretching a rank-3 tensor to a positive target. *)
Lemma resize_rank3 (img : Np.ndarray sample) (size : Z * Z) (method : string)
    (h w k : nat) :
  Np.shape img = [h; w; k] -> (0 < h)%nat -> (0 < w)%nat -> (0 < k)%nat ->
  0 < fst size -> 0 < snd size ->
  exists im,
    TF.resize img size method = Ok im
    /\ TF.image_shape im = [fst size; snd size; Z.of_nat k].
Proof.
  intros Hs Hh Hw Hk H1 H2. unfold TF.resize, TF.image_dims, TF.check_target.
  rewrite Hs. cbn [bind].
  assert (E1 : ((h =? 0) || (w =? 0) || (k =? 0))%nat = false).
  { destruct (Nat.eqb_spec h 0); [lia|]. destruct (Nat.eqb_spec w 0); [lia|].
    destruct (Nat.eqb_spec k 0); [lia | reflexivity]. }
  assert (E2 : (fst size <=? 0) || (snd size <=? 0) = false).
  { destruct (Z.leb_spec (fst size) 0); [lia|].
    destruct (Z.leb_spec (snd size) 0); [lia | reflexivity]. }
  rewrite E1. cbn [raise_if bind]. rewrite E2. cbn [raise_if bind].
  eexists. split; [reflexivity|].
  unfold TF.image_shape. cbn [TF.source TF.leading TF.height TF.width map app].
  now rewrite Hs.
Qed.

(** What the DICOM branch does with a single frame of [c] channels that is
    stretched to a positive target size: the load succeeds when replication
    gives the declared channel count, and ends in the shape error of the
    execution mode otherwise. *)
Lemma dicom_frame_load (F : Files) (mode : TF.execution) (path : string)
    (image_size : Z * Z) (num_channels : Z) (interpolation : string)
    (t : Np.ndarray sample) (h w c : nat) :
  branch_of path = DicomBranch ->
  decode_dicom_image F path = Ok t ->
  Np.shape t = [1%nat; h; w; c] ->
  (0 < h)%nat -> (0 < w)%nat -> (0 < c)%nat ->
  0 < fst image_size -> 0 < snd image_size ->
  (Z.of_nat (dicom_channel_count num_channels c) = num_channels ->
   exists im,
     load_image F mode path image_size num_channels interpolation false = Ok im)
  /\ (Z.of_nat (dicom_channel_count num_channels c) <> num_channels ->
      load_image F mode path image_size num_channels interpolation false
      = Raise (TF.shape_error mode)).
Proof.
  intros Hbranch Hdecode Hshape Hh Hw Hc H1 H2.
  assert (Hsq : Np.shape (TF.squeeze0 t) = [h; w; c]).
  { unfold TF.squeeze0. cbn [Np.shape]. now rewrite Hshape. }
  pose proof (dicom_channels_shape_general (TF.squeeze0 t) num_channels Hsq) as Hk.
  pose proof (dicom_channel_count_positive num_channels Hc) as Hpos.
  destruct (@resize_rank3 (dicom_channels (TF.squeeze0 t) num_channels) image_size
              interpolation h w (dicom_channel_count num_channels c)
              Hk Hh Hw Hpos H1 H2) as (im & Hresize & Him).
  assert (Hload :
            load_image F mode path image_size num_channels interpolation false
            = TF.set_shape mode im [fst image_size; snd image_size; num_channels]).
  { rewrite load_image_branches, Hbranch, Hdecode. cbn [bind].
    unfold TF.shape0. rewrite Hshape. cbn [bind Nat.eqb negb raise_if].
    unfold resize_step. rewrite Hresize. reflexivity. }
  rewrite Hload. split.
  - intros Heq. eexists. apply set_shape_match. rewrite Him. now rewrite Heq.
  - intros Hne. apply set_shape_mismatch. rewrite Him. intros E.
    injection E as E. contradiction.
Qed.

(** C2.  A tensor that [load_image] returns has the shape
    [(image_size[0], image_size[1], num_channels)], which is also its static
    shape, in every branch and in both ways of executing it.  The shape is
    checked, not assumed: a single DICOM frame whose replication gives the
    declared number of channels is returned, and one whose replication gives
    another number ends the load with an error, the ValueError of
    [set_shape] when called eagerly and the InvalidArgumentError of the run
    inside the pipeline. *)
Theorem decoded_shape_is_the_declared_shape
    (F : Files) (mode : TF.execution) (path : string) (image_size : Z * Z)
    (num_channels : Z) (interpolation : string) (crop_to_aspect_ratio : bool) :
  (forall im,
      load_image F mode path image_size num_channels interpolation
                 crop_to_aspect_ratio = Ok im ->
      TF.image_shape im = [fst image_size; snd image_size; num_channels]
      /\ TF.static_shape im = Some [fst image_size; snd image_size; num_channels])
  /\ (forall (t : Np.ndarray sample) (h w c : nat),
         branch_of path = DicomBranch ->
         decode_dicom_image F path = Ok t ->
         Np.shape t = [1%nat; h; w; c] ->
         (0 < h)%nat -> (0 < w)%nat -> (0 < c)%nat ->
         0 < fst image_size -> 0 < snd image_size ->
         (Z.of_nat (dicom_channel_count num_channels c) = num_channels ->
          exists im,
            load_image F mode path image_size num_channels interpolation false
            = Ok im)
         /\ (Z.of_nat (dicom_channel_count num_channels c) <> num_channels ->
             load_image F mode path image_size num_channels interpolation false
             = Raise (TF.shape_error mode))).
Proof.
  split.
  - intros im H. apply load_image_ends_in_resize_step in H.
    destruct H as (letterbox & img & H).
    apply resize_step_ok in H. destruct H as (im0 & -> & Hshape & _).
    split; [|reflexivity].
    rewrite (proj1 (annotate_shape im0 _)). exact Hshape.
  - intros t h w c. apply dicom_frame_load.
Qed.

(** The example decoder honours the contract of [tf.image.decode_image]. *)
Lemma ex_files_contract : decode_image_contract ex_files.
Proof.
  intros path c a. unfold ex_files. cbn [decode_image].
  destruct ((c =? 0) || (c =? 1) || (c =? 3) || (c =? 4)) eqn:E;
    cbn [negb]; [|discriminate].
  assert (Hc : c <> 0 -> Z.of_nat (if c =? 0 then 3%nat else Z.to_nat c) = c).
  { intros Hne. repeat (apply orb_true_iff in E; destruct E as [E|E]);
      apply Z.eqb_eq in E; subst; try reflexivity. contradiction. }
  destruct (path =? "small.png")%string;
    [intros H; apply Ok_inj in H; subst a; cbn [Np.shape]; eauto|].
  destruct (path =? "wide.png")%string;
    [intros H; apply Ok_inj in H; subst a; cbn [Np.shape]; eauto|].
  destruct (path =? "large.png")%string;
    [intros H; apply Ok_inj in H; subst a; cbn [Np.shape]; eauto|].
  discriminate.
Qed.

(** The theorem in the pipeline and eagerly: a grey-scale DICOM file, an
    array file and a raster file read as RGB come out 4 by 4 by 3; a colour
    DICOM file read as RGB, whose frame replicated three times has nine
    channels, ends in the shape error of either mode. *)
Lemma decoded_shape_is_the_declared_shape_witness :
  (exists im,
      load_image ex_files TF.Graph "gray.dcm" (4, 4) 3 "bilinear" false = Ok im
      /\ TF.image_shape im = [4; 4; 3]
      /\ TF.static_shape im = Some [4; 4; 3])
  /\ (exists im,
         load_image ex_files TF.Graph "plane.npz" (4, 4) 3 "bilinear" false = Ok im
         /\ TF.image_shape im = [4; 4; 3])
  /\ (exists im,
         load_image ex_files TF.Eager "small.png" (4, 4) 3 "bilinear" false = Ok im
         /\ TF.image_shape im = [4; 4; 3])
  /\ load_image ex_files TF.Graph "colour.dcm" (4, 4) 3 "bilinear" false
     = Raise (InvalidArgumentError msg_incompatible_shape)
  /\ load_image ex_files TF.Eager "colour.dcm" (4, 4) 3 "bilinear" false
     = Raise (ValueError msg_incompatible_shape).
Proof.
  split; [|split; [|split; [|split]]].
  - eexists. split; [vm_compute; reflexivity|].
    apply (proj1 (@decoded_shape_is_the_declared_shape ex_files TF.Graph "gray.dcm"
                    (4, 4) 3 "bilinear" false)).
    vm_compute. reflexivity.
  - eexists. split; [vm_compute; reflexivity|].
    apply (proj1 (@decoded_shape_is_the_declared_shape ex_files TF.Graph "plane.npz"
                    (4, 4) 3 "bilinear" false)).
    vm_compute. reflexivity.
  - eexists. split; [vm_compute; reflexivity|].
    apply (proj1 (@decoded_shape_is_the_declared_shape ex_files TF.Eager "small.png"
                    (4, 4) 3 "bilinear" false)).
    vm_compute. reflexivity.
  - apply (proj2 (@decoded_shape_is_the_declared_shape ex_files TF.Graph "colour.dcm"
                    (4, 4) 3 "bilinear" false) _ 2%nat 2%nat 3%nat
                 eq_refl eq_refl eq_refl ltac:(lia) ltac:(lia) ltac:(lia)
                 ltac:(reflexivity) ltac:(reflexivity)).
    discriminate.
  - apply (proj2 (@decoded_shape_is_the_declared_shape ex_files TF.Eager "colour.dcm"
                    (4, 4) 3 "bilinear" false) _ 2%nat 2%nat 3%nat
                 eq_refl eq_refl eq_refl ltac:(lia) ltac:(lia) ltac:(lia)
                 ltac:(reflexivity) ltac:(reflexivity)).
    discriminate.
Defined.

(** ** Cropping to the aspect ratio *)

(** With [crop_to_aspect_ratio], a load succeeds only under a TensorFlow
    whose [resize_with_crop_or_pad] takes the keyword [method], and then no
    branch scales: the part of the source that is shown keeps its size in
    pixels. *)
Lemma crop_branch_never_scales (F : Files) (mode : TF.execution) (path : string)
    (image_size : Z * Z) (num_channels : Z) (interpolation : string)
    (im : TF.image) :
  load_image F mode path image_size num_channels interpolation true = Ok im ->
  crop_or_pad_takes_method F = true
  /\ TF.rows (TF.content im) = TF.rows (TF.window im)
  /\ TF.cols (TF.content im) = TF.cols (TF.window im).
Proof.
  intros H. apply load_image_ends_in_resize_step in H.
  destruct H as (letterbox & img & Hr). apply resize_step_ok in Hr.
  destruct Hr as (im0 & -> & _ & _ & Hcrop).
  apply resize_with_crop_or_pad_ok in Hcrop.
  destruct Hcrop as (Htakes & _ & b & h & w & c & _ & Hr1 & Hc1 & Hr2 & Hc2 & _).
  cbn [TF.annotate TF.content TF.window]. split; [exact Htakes|].
  split; congruence.
Qed.

(** A source at least two rows shorter than the target gets a band of zero
    padding on top. *)
Lemma crop_or_pad_pads_short_sources (takes_method : bool) (t : Np.ndarray sample)
    (th tw : Z) (m : string) (im : TF.image) (h w c : nat) :
  TF.resize_with_crop_or_pad takes_method t th tw m = Ok im ->
  Np.shape t = [h; w; c] -> Z.of_nat h + 2 <= th ->
  TF.is_padding im 0 0 = true /\ ~ TF.padding_free im.
Proof.
  intros H Hs Hsmall. apply resize_with_crop_or_pad_ok in H.
  destruct H as (_ & Hfrom & b & h' & w' & c' & Hs' & _ & _ & _ & _ & Htop & _).
  rewrite Hs in Hs'.
  assert (Hb : b = []).
  { apply (f_equal (@length nat)) in Hs'. rewrite length_app in Hs'.
    simpl in Hs'. destruct b; [reflexivity | simpl in Hs'; lia]. }
  subst b. simpl in Hs'. injection Hs' as <- <- <-.
  assert (Hpos : 1 <= TF.top (TF.content im)).
  { rewrite Htop. pose proof (div_facts (th - Z.of_nat h) (b := 2) ltac:(lia)). lia. }
  split.
  - unfold TF.is_padding, TF.inside.
    destruct (Z.leb_spec (TF.top (TF.content im)) 0); [lia | reflexivity].
  - unfold TF.padding_free. intros E. rewrite E in Hpos. simpl in Hpos. lia.
Qed.

(** C4.  With [crop_to_aspect_ratio] set, a 2-by-2 raster image loaded at
    [image_size = (4, 4)] is not enlarged: its four pixels sit unscaled in the
    middle of the result, and the border of the result, pixel (0, 0) for one,
    is zero padding.  An 8-by-8 image loaded at the same size is not resized
    either: the result shows its central 4-by-4 pixels, not the whole image,
    though the whole image already has the aspect ratio of the target.  Under
    a TensorFlow whose [resize_with_crop_or_pad] has the documented signature,
    both loads end in a TypeError. *)
Theorem crop_to_aspect_ratio_pads_a_small_image :
  forall mode : TF.execution,
    (exists im,
        load_image ex_files mode "small.png" (4, 4) 3 "bilinear" true = Ok im
        /\ TF.image_shape im = [4; 4; 3]
        /\ TF.window im = TF.whole 2 2
        /\ TF.content im = TF.mk_rect 1 1 2 2
        /\ TF.is_padding im 0 0 = true
        /\ ~ TF.padding_free im)
    /\ (exists im,
           load_image ex_files mode "large.png" (4, 4) 3 "bilinear" true = Ok im
           /\ Np.shape (TF.source im) = [8; 8; 3]%nat
           /\ TF.window im = TF.mk_rect 2 2 4 4
           /\ TF.content im = TF.whole 4 4)
    /\ load_image ex_files_documented mode "small.png" (4, 4) 3 "bilinear" true
       = Raise (TypeError "method")
    /\ load_image ex_files_documented mode "large.png" (4, 4) 3 "bilinear" true
       = Raise (TypeError "method").
Proof.
  intros mode. split; [|split; [|split]].
  - destruct mode; eexists; (split; [reflexivity|]); repeat split; discriminate.
  - destruct mode; eexists; (split; [reflexivity|]); repeat split.
  - destruct mode; reflexivity.
  - destruct mode; reflexivity.
Qed.

(** ** The resize policy without cropping *)

Lemma letterboxed_annotate (im : TF.image) (s : list Z) :
  letterboxed im -> letterboxed (TF.annotate im s).
Proof. intros H. exact H. Qed.

(** C5.  Without [crop_to_aspect_ratio] every branch returns a tensor of
    exactly the target height and width that shows the whole source, and the
    branches differ in how.  An array-sourced image (.npz, .npy) is
    letterboxed: the result is that of [resize_with_pad] on the decoded
    array, the source scaled with one ratio into a box inside the target, the
    rest zero padding.  A DICOM or raster image is stretched: the result is
    that of [resize], the source scaled to fill the target, each axis with
    its own factor.  A 2-D array from a .npz file read with
    [num_channels = 3] gives a source with every sample three times, the
    three channels. *)
Theorem resize_policy_without_crop
    (F : Files) (mode : TF.execution) (path : string) (image_size : Z * Z)
    (num_channels : Z) (interpolation : string) (im : TF.image) :
  load_image F mode path image_size num_channels interpolation false = Ok im ->
  TF.height im = fst image_size /\ TF.width im = snd image_size
  /\ TF.shows_whole_source im
  /\ (branch_of path = NpzBranch \/ branch_of path = NpyBranch ->
      letterboxed im
      /\ exists im0,
           TF.resize_with_pad (TF.source im) (fst image_size) (snd image_size)
                              interpolation = Ok im0
           /\ im = TF.annotate im0 [fst image_size; snd image_size; num_channels])
  /\ (branch_of path = DicomBranch \/ branch_of path = RasterBranch ->
      TF.padding_free im
      /\ exists im0,
           TF.resize (TF.source im) image_size interpolation = Ok im0
           /\ im = TF.annotate im0 [fst image_size; snd image_size; num_channels])
  /\ (branch_of path = NpzBranch -> num_channels = 3 ->
      exists entries a h w,
        np_load F path = Ok (NpzFile entries)
        /\ lookup "arr_0" entries = Some a
        /\ Np.shape a = [h; w]
        /\ TF.source im
           = Np.mk_ndarray [h; w; 3%nat]
               (flat_map (fun v => [v; v; v]) (map to_float32 (Np.data a)))).
Proof.
  intros H. rewrite load_image_branches in H.
  assert (Hstretch : forall img,
             resize_step F mode false img image_size num_channels interpolation
                         false = Ok im ->
             TF.height im = fst image_size /\ TF.width im = snd image_size
             /\ TF.shows_whole_source im
             /\ TF.padding_free im
             /\ exists im0,
                  TF.resize (TF.source im) image_size interpolation = Ok im0
                  /\ im = TF.annotate im0
                            [fst image_size; snd image_size; num_channels]).
  { intros img Hr. apply resize_step_ok in Hr.
    destruct Hr as (im0 & -> & _ & Hfrom & Hresize & Hfree & Hwhole).
    destruct Hfrom as (Hsrc & Hh & Hw & _).
    cbn [TF.annotate TF.height TF.width TF.source].
    split; [exact Hh|]. split; [exact Hw|]. split; [exact Hwhole|].
    split; [exact Hfree|]. exists im0. rewrite Hsrc. split; [exact Hresize | reflexivity]. }
  assert (Hbox : forall img,
             resize_step F mode true img image_size num_channels interpolation
                         false = Ok im ->
             TF.source im = img
             /\ TF.height im = fst image_size /\ TF.width im = snd image_size
             /\ TF.shows_whole_source im
             /\ letterboxed im
             /\ exists im0,
                  TF.resize_with_pad (TF.source im) (fst image_size)
                                     (snd image_size) interpolation = Ok im0
                  /\ im = TF.annotate im0
                            [fst image_size; snd image_size; num_channels]).
  { intros img Hr. apply resize_step_ok in Hr.
    destruct Hr as (im0 & -> & _ & Hfrom & Hresize & Hletter).
    destruct Hfrom as (Hsrc & Hh & Hw & _).
    cbn [TF.annotate TF.height TF.width TF.source].
    split; [exact Hsrc|]. split; [exact Hh|]. split; [exact Hw|]. split.
    - destruct Hletter as (b & H0 & W0 & c & Hs & Hwin & _).
      exists b, H0, W0, c. split; assumption.
    - split; [exact Hletter|]. exists im0. rewrite Hsrc.
      split; [exact Hresize | reflexivity]. }
  destruct (branch_of path) eqn:Hb.
  - bind_inv H. bind_inv H. bind_inv H. apply Hstretch in H.
    destruct H as (Hh & Hw & Hwhole & Hfree & Hop).
    split; [exact Hh|]. split; [exact Hw|]. split; [exact Hwhole|].
    split; [intros [E|E]; discriminate E|].
    split; [intros _; split; assumption | intros E; discriminate E].
  - bind_inv H. apply Hbox in H.
    destruct H as (Hsrc & Hh & Hw & Hwhole & Hl & Hop).
    split; [exact Hh|]. split; [exact Hw|]. split; [exact Hwhole|].
    split; [intros _; split; assumption|].
    split; [intros [E|E]; discriminate E|].
    intros _ ->. pose proof (numpy_function_ok _ Hx) as Hd.
    apply decode_npz_image_ok in Hd. destruct Hd as (entries & a & Hl' & Hk & Hv).
    assert (Hx' : TF.numpy_function
                    (Ok (numpy_channels (Np.astype to_float32 a) 3)) = Ok x)
      by (rewrite <- Hv; reflexivity).
    destruct (numpy_function_shape a 3 eq_refl Hx') as (h & w & Hs & Himg).
    exists entries, a, h, w. rewrite Hsrc. repeat split; assumption.
  - bind_inv H. apply Hbox in H.
    destruct H as (Hsrc & Hh & Hw & Hwhole & Hl & Hop).
    split; [exact Hh|]. split; [exact Hw|]. split; [exact Hwhole|].
    split; [intros _; split; assumption|].
    split; [intros [E|E]; discriminate E | intros E; discriminate E].
  - bind_inv H. apply Hstretch in H.
    destruct H as (Hh & Hw & Hwhole & Hfree & Hop).
    split; [exact Hh|]. split; [exact Hw|]. split; [exact Hwhole|].
    split; [intros [E|E]; discriminate E|].
    split; [intros _; split; assumption | intros E; discriminate E].
Qed.

(** The theorem in the four branches, each at 4 by 4.  A 1-by-2 array from a
    .npz and from a .npy file becomes 4 pixels wide and 2 high, with a band
    of padding above and below; a 2-by-2 DICOM frame and the 1-by-2 picture
    as a raster file fill all 4 rows and columns.  At 7 by 7, a 1-by-1 array
    lands in a box of 6 by 6: the ratio 1/7 is rounded up in binary32, and
    the source divided by it falls just short of 7. *)
Lemma resize_policy_without_crop_witness :
  (exists im,
      load_image ex_files TF.Graph "plane.npz" (4, 4) 3 "bilinear" false = Ok im
      /\ (TF.height im, TF.width im) = (4, 4)
      /\ letterboxed im
      /\ TF.content im = TF.mk_rect 1 0 2 4
      /\ TF.is_padding im 0 0 = true
      /\ Np.shape (TF.source im) = [1; 2; 3]%nat)
  /\ (exists im,
         load_image ex_files TF.Graph "plane.npy" (4, 4) 1 "bilinear" false = Ok im
         /\ (TF.height im, TF.width im) = (4, 4)
         /\ letterboxed im
         /\ TF.content im = TF.mk_rect 1 0 2 4)
  /\ (exists im,
         load_image ex_files TF.Graph "gray.dcm" (4, 4) 3 "bilinear" false = Ok im
         /\ (TF.height im, TF.width im) = (4, 4)
         /\ TF.padding_free im
         /\ TF.window im = TF.whole 2 2)
  /\ (exists im,
         load_image ex_files TF.Graph "wide.png" (4, 4) 3 "bilinear" false = Ok im
         /\ (TF.height im, TF.width im) = (4, 4)
         /\ TF.padding_free im
         /\ TF.window im = TF.whole 1 2
         /\ TF.content im = TF.whole 4 4)
  /\ (exists im,
         load_image ex_files TF.Graph "dot.npy" (7, 7) 1 "bilinear" false = Ok im
         /\ letterboxed im
         /\ TF.content im = TF.mk_rect 0 0 6 6).
Proof.
  split; [|split; [|split; [|split]]].
  - eexists. split; [vm_compute; reflexivity|].
    match goal with
    | |- (TF.height ?im, _) = _ /\ _ =>
        destruct (@resize_policy_without_crop ex_files TF.Graph "plane.npz" (4, 4) 3
                    "bilinear" im ltac:(vm_compute; reflexivity))
          as (Hh & Hw & _ & Harray & _)
    end.
    destruct (Harray (or_introl eq_refl)) as [Hl _].
    split; [now rewrite Hh, Hw|]. split; [exact Hl|].
    split; [reflexivity|]. split; reflexivity.
  - eexists. split; [vm_compute; reflexivity|].
    match goal with
    | |- (TF.height ?im, _) = _ /\ _ =>
        destruct (@resize_policy_without_crop ex_files TF.Graph "plane.npy" (4, 4) 1
                    "bilinear" im ltac:(vm_compute; reflexivity))
          as (Hh & Hw & _ & Harray & _)
    end.
    destruct (Harray (or_intror eq_refl)) as [Hl _].
    split; [now rewrite Hh, Hw|]. split; [exact Hl | reflexivity].
  - eexists. split; [vm_compute; reflexivity|].
    match goal with
    | |- (TF.height ?im, _) = _ /\ _ =>
        destruct (@resize_policy_without_crop ex_files TF.Graph "gray.dcm" (4, 4) 3
                    "bilinear" im ltac:(vm_compute; reflexivity))
          as (Hh & Hw & _ & _ & Hstretch & _)
    end.
    destruct (Hstretch (or_introl eq_refl)) as [Hfree _].
    split; [now rewrite Hh, Hw|]. split; [exact Hfree | reflexivity].
  - eexists. split; [vm_compute; reflexivity|].
    match goal with
    | |- (TF.height ?im, _) = _ /\ _ =>
        destruct (@resize_policy_without_crop ex_files TF.Graph "wide.png" (4, 4) 3
                    "bilinear" im ltac:(vm_compute; reflexivity))
          as (Hh & Hw & _ & _ & Hstretch & _)
    end.
    destruct (Hstretch (or_intror eq_refl)) as [Hfree _].
    split; [now rewrite Hh, Hw|]. split; [exact Hfree|]. split; reflexivity.
  - eexists. split; [vm_compute; reflexivity|].
    match goal with
    | |- letterboxed ?im /\ _ =>
        destruct (@resize_policy_without_crop ex_files TF.Graph "dot.npy" (7, 7) 1
                    "bilinear" im ltac:(vm_compute; reflexivity))
          as (_ & _ & _ & Harray & _)
    end.
    destruct (Harray (or_intror eq_refl)) as [Hl _].
    split; [exact Hl | reflexivity].
Defined.

(** ** DICOM files *)

Lemma traverse_app_raise {A B : Type} (f : A -> result B) (before after : list A)
    (x : A) (e : exn) :
  (forall y, In y before -> exists b, f y = Ok b) ->
  f x = Raise e ->
  traverse f (before ++ x :: after) = Raise e.
Proof.
  intros Hbefore Hx. induction before as [|y before IH]; simpl.
  - now rewrite Hx.
  - destruct (Hbefore y (or_introl eq_refl)) as [b Hb]. rewrite Hb. cbn [bind].
    rewrite IH; [reflexivity|]. intros z Hz. apply Hbefore. now right.
Qed.

Lemma traverse_in_raise {A B : Type} (f : A -> result B) (l : list A) (x : A)
    (e : exn) :
  In x l -> f x = Raise e -> exists e', traverse f l = Raise e'.
Proof.
  intros Hin Hx. induction l as [|y l IH]; [contradiction|]. simpl.
  destruct (f y) as [b|e0] eqn:Hy; cbn [bind]; [|eauto].
  destruct Hin as [->|Hin]; [congruence|].
  destruct (IH Hin) as [e' ->]. cbn [bind]. eauto.
Qed.

Lemma traverse_map {A B C : Type} (g : A -> B) (f : B -> result C) (l : list A) :
  traverse f (map g l) = traverse (fun x => f (g x)) l.
Proof. induction l as [|x l IH]; simpl; [reflexivity | now rewrite IH]. Qed.

(** A pass over the images of a path list, written with [traverse]. *)
Lemma iterate_images (F : Files) (G : Engine) (paths : list string)
    (image_size : Z * Z) (num_channels : Z) (interpolation : string) (crop : bool) :
  iterate F G (map_load_image (from_tensor_slices paths) image_size num_channels
                              interpolation crop)
  = traverse (fun p =>
                img <- load_image F TF.Graph p image_size num_channels
                                  interpolation crop ;;
                Ok (EImage p img))
             paths.
Proof.
  unfold iterate. cbn [stream]. rewrite !traverse_map. reflexivity.
Qed.

(** C8.  On a path of the DICOM branch whose file decodes to a tensor [t]:
    when the first extent of [t], the frame count, is not 1, [load_image]
    raises the error of the assertion of line 93, and a pass over a dataset
    that contains the path ends with an exception instead of skipping the
    sample (with that very error when the paths before it load); when
    [load_image] succeeds, the frame count is 1 and the tensor that is resized
    is the single frame, as it is for one channel, three times along the last
    axis for three channels, and three times followed by 255 for four. *)
Theorem multiframe_dicom_is_refused
    (F : Files) (mode : TF.execution) (path : string) (image_size : Z * Z)
    (num_channels : Z) (interpolation : string) (crop_to_aspect_ratio : bool)
    (t : Np.ndarray sample) :
  branch_of path = DicomBranch ->
  decode_dicom_image F path = Ok t ->
  (forall frames rest,
      Np.shape t = frames :: rest -> frames <> 1%nat ->
      load_image F mode path image_size num_channels interpolation
                 crop_to_aspect_ratio
      = Raise (InvalidArgumentError msg_multiframe_dicom)
      /\ fails_with
           (load_image F mode path image_size num_channels interpolation
                       crop_to_aspect_ratio) UnsupportedFormat
      /\ forall (G : Engine) (before after : list string),
           (exists e,
               iterate F G
                 (map_load_image (from_tensor_slices (before ++ path :: after))
                    image_size num_channels interpolation crop_to_aspect_ratio)
               = Raise e)
           /\ ((forall p, In p before ->
                          exists im, load_image F TF.Graph p image_size num_channels
                                       interpolation crop_to_aspect_ratio = Ok im) ->
               iterate F G
                 (map_load_image (from_tensor_slices (before ++ path :: after))
                    image_size num_channels interpolation crop_to_aspect_ratio)
               = Raise (InvalidArgumentError msg_multiframe_dicom)))
  /\ (forall im,
         load_image F mode path image_size num_channels interpolation
                    crop_to_aspect_ratio = Ok im ->
         exists rest, Np.shape t = 1%nat :: rest
                      /\ TF.source im = dicom_channels (TF.squeeze0 t) num_channels)
  /\ (forall h w,
         Np.shape t = [1; h; w; 1]%nat -> Np.well_shaped t ->
         dicom_channels (TF.squeeze0 t) num_channels
         = if num_channels =? 3
           then Np.mk_ndarray [h; w; 3%nat]
                  (flat_map (fun v => [v; v; v]) (Np.data t))
           else if num_channels =? 4
           then Np.mk_ndarray [h; w; 4%nat]
                  (flat_map (fun v => [v; v; v; UInt8 255]) (Np.data t))
           else Np.mk_ndarray [h; w; 1%nat] (Np.data t)).
Proof.
  intros Hb Ht. split; [|split].
  - intros frames rest Hs Hframes.
    assert (Hload : forall mode',
               load_image F mode' path image_size num_channels interpolation
                          crop_to_aspect_ratio
               = Raise (InvalidArgumentError msg_multiframe_dicom)).
    { intros mode'. rewrite load_image_branches, Hb, Ht. cbn [bind].
      unfold TF.shape0. rewrite Hs. cbn [bind].
      destruct (Nat.eqb_spec frames 1); [contradiction | reflexivity]. }
    split; [apply Hload|]. split.
    { exists (InvalidArgumentError msg_multiframe_dicom).
      split; [apply Hload | reflexivity]. }
    intros G before after. rewrite iterate_images. split.
    + eapply traverse_in_raise.
      * apply in_or_app. right. left. reflexivity.
      * cbv beta. rewrite Hload. reflexivity.
    + intros Hbefore. apply traverse_app_raise.
      * intros p Hp. destruct (Hbefore p Hp) as [im Him]. rewrite Him. cbn [bind]. eauto.
      * rewrite Hload. reflexivity.
  - intros im H. rewrite load_image_branches, Hb, Ht in H. cbn [bind] in H.
    bind_inv H. bind_inv H.
    unfold TF.shape0 in Hx. destruct (Np.shape t) as [|frames rest]; [discriminate|].
    apply Ok_inj in Hx. subst x.
    apply raise_if_ok in Hx0. apply negb_false_iff, Nat.eqb_eq in Hx0. subst frames.
    exists rest. split; [reflexivity|].
    apply resize_step_ok in H. destruct H as (im0 & -> & _ & (Hsrc & _) & _).
    exact Hsrc.
  - intros h w Hs Hwf.
    assert (Hsq : Np.shape (TF.squeeze0 t) = [h; w] ++ [1%nat]).
    { unfold TF.squeeze0. cbn [Np.shape]. now rewrite Hs. }
    assert (Hwf' : Np.well_shaped (TF.squeeze0 t)).
    { unfold Np.well_shaped, TF.squeeze0 in *. cbn [Np.shape Np.data].
      rewrite Hwf, Hs. cbn [Np.size_of fold_right tl]. lia. }
    unfold dicom_channels.
    destruct (num_channels =? 3); [exact (@concat_last_three _ _ _ Hsq)|].
    destruct (num_channels =? 4); [exact (@concat_last_opaque _ _ Hsq Hwf')|].
    unfold TF.squeeze0. now rewrite Hs.
Qed.

(** The theorem at a two-frame file between two single-frame files. *)
Lemma multiframe_dicom_is_refused_witness :
  load_image ex_files TF.Graph "multi.dcm" (4, 4) 3 "bilinear" false
  = Raise (InvalidArgumentError msg_multiframe_dicom)
  /\ iterate ex_files ex_engine
       (map_load_image (from_tensor_slices ["gray.dcm"; "multi.dcm"; "gray.dcm"])
          (4, 4) 3 "bilinear" false)
     = Raise (InvalidArgumentError msg_multiframe_dicom).
Proof.
  pose proof (@multiframe_dicom_is_refused ex_files TF.Graph "multi.dcm" (4, 4) 3
                "bilinear" false _ eq_refl eq_refl) as [H _].
  destruct (H 2%nat [2; 2; 1]%nat eq_refl ltac:(discriminate)) as (H1 & _ & H2).
  split; [exact H1|].
  destruct (H2 ex_engine ["gray.dcm"] ["gray.dcm"]) as [_ H3].
  apply H3. intros p [<-|[]]. eexists. reflexivity.
Defined.

(** ** Arrays that are not planes *)

(** C10.  For an array whose rank is not 2, [numpy_channels] returns [None];
    so do [decode_npy_image] and [decode_npz_image] on a file that holds such
    an array, and [load_image] on that file yields no tensor: it ends with
    the conversion error of [tf.numpy_function], which is not the
    UnsupportedFormat error. *)
Theorem numpy_channels_is_defined_on_planes_only
    (F : Files) (mode : TF.execution) (path : string) (image_size : Z * Z)
    (num_channels : Z) (interpolation : string) (crop_to_aspect_ratio : bool)
    (a : Np.ndarray np_value) :
  Np.ndim a <> 2%nat ->
  numpy_channels (Np.astype to_float32 a) num_channels = None
  /\ (np_load F path = Ok (NpyArray a) ->
      decode_npy_image F path num_channels = Ok None
      /\ (branch_of path = NpyBranch ->
          load_image F mode path image_size num_channels interpolation
                     crop_to_aspect_ratio
          = Raise (OpError msg_none_is_not_a_tensor)))
  /\ (forall entries,
         np_load F path = Ok (NpzFile entries) ->
         lookup "arr_0" entries = Some a ->
         decode_npz_image F path num_channels = Ok None
         /\ (branch_of path = NpzBranch ->
             load_image F mode path image_size num_channels interpolation
                        crop_to_aspect_ratio
             = Raise (OpError msg_none_is_not_a_tensor)))
  /\ kind_of (OpError msg_none_is_not_a_tensor) <> UnsupportedFormat.
Proof.
  intros Hrank.
  assert (Hnone : numpy_channels (Np.astype to_float32 a) num_channels = None).
  { apply numpy_channels_none. exact Hrank. }
  split; [exact Hnone|]. split; [|split].
  - intros Hload.
    assert (Hd : decode_npy_image F path num_channels = Ok None).
    { unfold decode_npy_image. rewrite Hload. cbn [bind]. now rewrite Hnone. }
    split; [exact Hd|]. intros Hb.
    rewrite load_image_branches, Hb, Hd. reflexivity.
  - intros entries Hload Hentry.
    assert (Hd : decode_npz_image F path num_channels = Ok None).
    { unfold decode_npz_image. rewrite Hload. cbn [bind]. rewrite Hentry.
      now rewrite Hnone. }
    split; [exact Hd|]. intros Hb.
    rewrite load_image_branches, Hb, Hd. reflexivity.
  - discriminate.
Qed.

(** The theorem at a .npy file that holds a 1-by-1-by-2 volume. *)
Lemma numpy_channels_is_defined_on_planes_only_witness :
  Np.ndim (Np.mk_ndarray [1; 1; 2]%nat [NpInt 0; NpInt 1]) <> 2%nat
  /\ decode_npy_image ex_files "volume.npy" 3 = Ok None
  /\ load_image ex_files TF.Graph "volume.npy" (4, 4) 3 "bilinear" false
     = Raise (OpError msg_none_is_not_a_tensor).
Proof.
  assert (Hrank : Np.ndim (Np.mk_ndarray [1; 1; 2]%nat [NpInt 0; NpInt 1]) <> 2%nat)
    by discriminate.
  split; [exact Hrank|].
  destruct (@numpy_channels_is_defined_on_planes_only
              ex_files TF.Graph "volume.npy" (4, 4) 3 "bilinear" false _ Hrank)
    as (_ & Hnpy & _).
  destruct (Hnpy eq_refl) as [Hd Hl].
  split; [exact Hd | exact (Hl eq_refl)].
Defined.

(** On a plane the helper does return a tensor: the converse of C10. *)
Lemma numpy_channels_on_a_plane {A : Type} (x : Np.ndarray A) (num_channels : Z) :
  Np.ndim x = 2%nat -> exists y, numpy_channels x num_channels = Some y.
Proof.
  intros H. unfold numpy_channels. rewrite H. cbn [Nat.eqb]. eauto.
Qed.

(** ** Shuffling *)

Lemma pass_cons_ok (r : result element) (s : list (result element))
    (es : list element) :
  pass (r :: s) = Ok es ->
  exists e es', r = Ok e /\ pass s = Ok es' /\ es = e :: es'.
Proof.
  unfold pass. cbn [traverse]. intros H. bind_inv H. bind_inv H.
  apply Ok_inj in H. eauto.
Qed.

Lemma pass_app (s1 s2 : list (result element)) (e1 e2 : list element) :
  pass s1 = Ok e1 -> pass s2 = Ok e2 -> pass (s1 ++ s2) = Ok (e1 ++ e2).
Proof.
  revert e1. induction s1 as [|r s1 IH]; intros e1 H1 H2.
  - apply Ok_inj in H1. subst e1. exact H2.
  - apply pass_cons_ok in H1. destruct H1 as (e & es' & -> & Hs1 & ->).
    cbn [app]. unfold pass in *. cbn [traverse bind].
    fold (pass (s1 ++ s2)). unfold pass. rewrite (IH _ Hs1 H2). reflexivity.
Qed.

Lemma firstn_plus {A : Type} (n j : nat) (l : list A) :
  firstn n l ++ firstn j (skipn n l) = firstn (n + j) l.
Proof.
  revert l. induction n as [|n IH]; intros l; [reflexivity|].
  destruct l as [|x l]; cbn [firstn skipn Nat.add app].
  - now rewrite firstn_nil.
  - now rewrite IH.
Qed.

(** The first batches of a stream hold a prefix of it. *)
Lemma chunks_prefix {A : Type} (n : nat) :
  forall (fuel : nat) (l : list A) (k : nat),
    exists j, concat (firstn k (Np.chunks_fuel fuel n l)) = firstn j l.
Proof.
  induction fuel as [|fuel IH]; intros l k.
  - exists 0%nat. cbn [Np.chunks_fuel]. now rewrite firstn_nil.
  - destruct l as [|x l].
    + exists 0%nat. cbn [Np.chunks_fuel]. now rewrite firstn_nil.
    + destruct k as [|k]; [exists 0%nat; reflexivity|].
      cbn [Np.chunks_fuel firstn concat].
      destruct (IH (skipn n (x :: l)) k) as [j Hj].
      exists (n + j)%nat. rewrite <- firstn_plus. f_equal. exact Hj.
Qed.

Section Streams.

Variable F : Files.

Lemma stream_without_shuffle (G1 G2 : Engine) (ds : Dataset) :
  shuffle_stages ds = [] -> stream F G1 ds = stream F G2 ds.
Proof.
  induction ds as [ps | ds IH size nc interp crop | l m n | a IHa b IHb
                   | ds IH | ds IH buffer seed | ds IH bsize];
    cbn [shuffle_stages stream]; intros H.
  - reflexivity.
  - now rewrite IH.
  - reflexivity.
  - apply app_eq_nil in H. destruct H as [Ha Hb]. now rewrite IHa, IHb.
  - now apply IH.
  - discriminate.
  - now rewrite IH.
Qed.

Variable G : Engine.

Lemma pass_paths (l : list string) :
  pass (map (fun p => Ok (EPath p)) l) = Ok (map EPath l)
  /\ flat_map element_paths (map EPath l) = l.
Proof.
  induction l as [|p l [IH1 IH2]]; [split; reflexivity|].
  split.
  - unfold pass in *. cbn [map traverse bind]. now rewrite IH1.
  - cbn [map flat_map element_paths app]. now rewrite IH2.
Qed.

Lemma pass_labels (m : string) (n : Z) (rows : list label_list) :
  pass (map (fun r => Ok (ELabel m n r)) rows) = Ok (map (ELabel m n) rows)
  /\ flat_map element_paths (map (ELabel m n) rows) = [].
Proof.
  induction rows as [|r rows [IH1 IH2]]; [split; reflexivity|].
  split.
  - unfold pass in *. cbn [map traverse bind]. now rewrite IH1.
  - cbn [map flat_map element_paths app]. exact IH2.
Qed.

Lemma pass_loaded (size : Z * Z) (nc : Z) (interp : string) (crop : bool)
    (s : list (result element)) (es' : list element) :
  pass (map (fun r =>
               e <- r ;;
               match e with
               | EPath p =>
                   img <- load_image F TF.Graph p size nc interp crop ;;
                   Ok (EImage p img)
               | _ => Raise (OpError (msg_utils "load_image expects a path"))
               end) s) = Ok es' ->
  exists es, pass s = Ok es
             /\ flat_map element_paths es' = flat_map element_paths es.
Proof.
  revert es'. induction s as [|r s IH]; intros es' H.
  - apply Ok_inj in H. subst es'. exists []. split; reflexivity.
  - cbn [map] in H. apply pass_cons_ok in H.
    destruct H as (y & ys & Hy & Hs & ->).
    destruct (IH _ Hs) as (es & Hes & Hpaths).
    bind_inv Hy. subst r.
    destruct x as [p| | | |]; try discriminate.
    bind_inv Hy. apply Ok_inj in Hy. subst y.
    exists (EPath p :: es). split.
    + unfold pass in *. cbn [traverse bind]. now rewrite Hes.
    + cbn [flat_map element_paths app]. now rewrite Hpaths.
Qed.

Lemma pass_zipped (xa xb : list (result element)) (es' : list element) :
  pass (map (fun p => a <- fst p ;; b <- snd p ;; Ok (EPair a b)) (combine xa xb))
  = Ok es' ->
  exists j esa, pass (firstn j xa) = Ok esa
                /\ flat_map element_paths es' = flat_map element_paths esa.
Proof.
  revert xb es'. induction xa as [|ra xa IH]; intros xb es' H.
  - apply Ok_inj in H. subst es'. exists 0%nat, []. split; reflexivity.
  - destruct xb as [|rb xb].
    + apply Ok_inj in H. subst es'. exists 0%nat, []. split; reflexivity.
    + cbn [combine map] in H. apply pass_cons_ok in H.
      destruct H as (y & ys & Hy & Hs & ->).
      destruct (IH _ _ Hs) as (j & esa & Hesa & Hpaths).
      cbn [fst snd] in Hy. bind_inv Hy. bind_inv Hy. apply Ok_inj in Hy.
      subst ra rb y.
      exists (S j), (x :: esa). split.
      * cbn [firstn]. unfold pass in *. cbn [traverse bind]. now rewrite Hesa.
      * cbn [flat_map element_paths]. now rewrite Hpaths.
Qed.

Lemma pass_batched (cs : list (list (result element))) (es' : list element) :
  pass (map (fun chunk => es <- traverse (fun r => r) chunk ;; Ok (EBatch es)) cs)
  = Ok es' ->
  exists es, pass (concat cs) = Ok es
             /\ flat_map element_paths es' = flat_map element_paths es.
Proof.
  revert es'. induction cs as [|c cs IH]; intros es' H.
  - apply Ok_inj in H. subst es'. exists []. split; reflexivity.
  - cbn [map] in H. apply pass_cons_ok in H.
    destruct H as (y & ys & Hy & Hs & ->).
    destruct (IH _ Hs) as (es & Hes & Hpaths).
    bind_inv Hy. apply Ok_inj in Hy. subst y.
    exists (x ++ es). split.
    + cbn [concat]. now apply pass_app.
    + cbn [flat_map element_paths]. now rewrite flat_map_app, Hpaths.
Qed.

(** Without a shuffle stage, the samples of any successful partial pass come
    from a prefix of the path list, in its order. *)
Lemma ordered_without_shuffle (ds : Dataset) :
  shuffle_stages ds = [] ->
  forall (k : nat) (es : list element),
    pass (firstn k (stream F G ds)) = Ok es ->
    exists c, flat_map element_paths es = firstn c (source_paths ds).
Proof.
  induction ds as [ps | ds IH size nc interp crop | l m n | a IHa b IHb
                   | ds IH | ds IH buffer seed | ds IH bsize];
    cbn [shuffle_stages stream source_paths]; intros Hno k es H.
  - rewrite firstn_map in H.
    destruct (pass_paths (firstn k ps)) as [Hp Hq].
    rewrite Hp in H. apply Ok_inj in H. subst es. eauto.
  - rewrite firstn_map in H. apply pass_loaded in H.
    destruct H as (es0 & Hes0 & ->). eapply IH; eassumption.
  - rewrite firstn_map in H.
    destruct (pass_labels m n (firstn k (label_rows l))) as [Hp Hq].
    rewrite Hp in H. apply Ok_inj in H. subst es. exists 0%nat. exact Hq.
  - apply app_eq_nil in Hno. destruct Hno as [Ha _].
    rewrite firstn_map, combine_firstn in H. apply pass_zipped in H.
    destruct H as (j & esa & Hesa & ->).
    rewrite firstn_firstn in Hesa. eapply IHa; eassumption.
  - eapply IH; eassumption.
  - discriminate.
  - rewrite firstn_map in H. apply pass_batched in H.
    destruct H as (es0 & Hes0 & ->).
    destruct (chunks_prefix (Z.to_nat bsize) (length (stream F G ds))
                            (stream F G ds) k) as [j Hj].
    unfold Np.chunks in Hes0. rewrite Hj in Hes0. eapply IH; eassumption.
Qed.

Lemma ordered_pass_without_shuffle (ds : Dataset) (es : list element) :
  shuffle_stages ds = [] ->
  iterate F G ds = Ok es ->
  exists c, flat_map element_paths es = firstn c (source_paths ds).
Proof.
  intros Hno H. apply (@ordered_without_shuffle ds Hno (length (stream F G ds))).
  rewrite firstn_all. exact H.
Qed.

End Streams.

Lemma paths_and_labels_to_dataset_facts (image_paths : list string)
    (image_size : Z * Z) (num_channels : Z) (labels : label_list)
    (label_mode : option string) (num_classes : Z) (interpolation : string)
    (crop : bool) :
  let ds := paths_and_labels_to_dataset image_paths image_size num_channels labels
              label_mode num_classes interpolation crop in
  shuffle_stages ds = [] /\ source_paths ds = image_paths.
Proof.
  unfold paths_and_labels_to_dataset.
  destruct label_mode as [mode|]; [|split; reflexivity].
  destruct (mode =? "")%string; split; reflexivity.
Qed.

Section BothSubsets.

Variable U : Utils.
Variables (image_paths : list string) (labels : py_labels)
          (label_mode : option string) (color_mode : string)
          (batch_size : option Z) (image_size : Z * Z) (shuffle_flag : bool)
          (seed : option Z) (validation_split : option Q)
          (interpolation : string) (crop_to_aspect_ratio : bool).

(** What a successful call with [subset = 'both'] has built. *)
Lemma both_subsets_inversion (train val : dataset_handle) :
  image_dataset_from_paths_and_labels U image_paths labels label_mode color_mode
    batch_size image_size shuffle_flag seed validation_split (Some "both")
    interpolation crop_to_aspect_ratio = Ok (TrainVal train val) ->
  exists (labels' labels_train labels_val : label_list)
         (train_base val_base : Dataset),
    get_training_or_validation_split U image_paths labels' validation_split
      (Some "training") = Ok (file_paths train, labels_train)
    /\ get_training_or_validation_split U image_paths labels' validation_split
         (Some "validation") = Ok (file_paths val, labels_val)
    /\ (shuffle_stages train_base = [] /\ source_paths train_base = file_paths train)
    /\ (shuffle_stages val_base = [] /\ source_paths val_base = file_paths val)
    /\ pipeline train
       = (let seed := match seed with None => randint U | Some s => s end in
          match batch_size with
          | Some b =>
              batch (if shuffle_flag then shuffle train_base (b * 8) seed
                     else train_base) b
          | None =>
              if shuffle_flag then shuffle train_base 1024 seed else train_base
          end)
    /\ pipeline val
       = match batch_size with
         | Some b => batch val_base b
         | None => val_base
         end.
Proof.
  unfold image_dataset_from_paths_and_labels. intros H.
  bind_inv H. bind_inv H. bind_inv H. bind_inv H. bind_inv H. bind_inv H.
  destruct x4 as [[labels' label_mode'] num_classes].
  change (("both" =? "both")%string) with true in H. cbv iota in H.
  bind_inv H. bind_inv H. destruct x4 as [image_paths_train labels_train].
  destruct x5 as [image_paths_val labels_val].
  bind_inv H. bind_inv H. bind_inv H.
  set (train_base :=
         prefetch (paths_and_labels_to_dataset image_paths_train image_size x1
                     labels_train label_mode' x6 x2 crop_to_aspect_ratio)) in *.
  set (val_base :=
         prefetch (paths_and_labels_to_dataset image_paths_val image_size x1
                     labels_val label_mode' x6 x2 crop_to_aspect_ratio)) in *.
  exists labels', labels_train, labels_val, train_base, val_base.
  pose proof (paths_and_labels_to_dataset_facts image_paths_train image_size x1
                labels_train label_mode' x6 x2 crop_to_aspect_ratio) as Ht.
  pose proof (paths_and_labels_to_dataset_facts image_paths_val image_size x1
                labels_val label_mode' x6 x2 crop_to_aspect_ratio) as Hv.
  cbv zeta in Ht, Hv.
  destruct batch_size as [b|]; cbv beta iota zeta in H;
    apply Ok_inj in H; injection H as <- <-; cbn [file_paths pipeline];
    repeat split; try assumption; try apply Ht; try apply Hv.
Qed.

End BothSubsets.

(** C9.  When a call with [subset = 'both'] succeeds: the validation pipeline
    has no shuffle stage, whatever the shuffle flag; the training pipeline
    has exactly one when the flag is set, with a buffer of 8 times the batch
    size, or of 1024 without batching, and the seed of the call, and none
    otherwise.  The stream of the validation dataset does not depend on the
    engine's shuffling, and every successful pass over it yields samples of
    the validation slice of the path list, in the order of that slice. *)
Theorem validation_dataset_is_not_shuffled
    (U : Utils) (image_paths : list string) (labels : py_labels)
    (label_mode : option string) (color_mode : string) (batch_size : option Z)
    (image_size : Z * Z) (shuffle_flag : bool) (seed : option Z)
    (validation_split : option Q) (interpolation : string)
    (crop_to_aspect_ratio : bool) (train val : dataset_handle) :
  image_dataset_from_paths_and_labels U image_paths labels label_mode color_mode
    batch_size image_size shuffle_flag seed validation_split (Some "both")
    interpolation crop_to_aspect_ratio = Ok (TrainVal train val) ->
  shuffle_stages (pipeline val) = []
  /\ shuffle_stages (pipeline train)
     = (if shuffle_flag
        then [(match batch_size with Some b => b * 8 | None => 1024 end,
               match seed with Some s => s | None => randint U end)]
        else [])
  /\ (exists labels' labels_val,
         get_training_or_validation_split U image_paths labels' validation_split
           (Some "validation") = Ok (file_paths val, labels_val))
  /\ (forall (F : Files) (G1 G2 : Engine),
         stream F G1 (pipeline val) = stream F G2 (pipeline val))
  /\ (forall (F : Files) (G : Engine) (es : list element),
         iterate F G (pipeline val) = Ok es ->
         exists c, flat_map element_paths es = firstn c (file_paths val)).
Proof.
  intros H. apply both_subsets_inversion in H.
  destruct H as (labels' & labels_train & labels_val & train_base & val_base
                 & _ & Hsplit & [Ht _] & [Hv Hsrc] & Htrain & Hval).
  assert (Hnone : shuffle_stages (pipeline val) = []).
  { rewrite Hval. destruct batch_size; exact Hv. }
  assert (Hsource : source_paths (pipeline val) = file_paths val).
  { rewrite Hval. destruct batch_size; exact Hsrc. }
  split; [exact Hnone|]. split; [|split; [|split]].
  - rewrite Htrain. cbv zeta.
    destruct batch_size, shuffle_flag; cbn [shuffle_stages]; now rewrite Ht.
  - eauto.
  - intros F G1 G2. now apply stream_without_shuffle.
  - intros F G es Hes. rewrite <- Hsource.
    eapply ordered_pass_without_shuffle; eassumption.
Qed.

(** The theorem at scenario 5: ten paths, a validation fraction of 0.3,
    seed 42, batches of 2, shuffling requested. *)
Lemma validation_dataset_is_not_shuffled_witness :
  exists train val,
    image_dataset_from_paths_and_labels ex_utils ex_ten_paths
      (PySequence (vector [0; 1; 0; 1; 0; 1; 0; 1; 0; 1])) (Some "int") "rgb"
      (Some 2) (4, 4) true (Some 42) (Some (3 # 10)%Q) (Some "both") "bilinear"
      false = Ok (TrainVal train val)
    /\ length (file_paths train) = 7%nat
    /\ file_paths val = ["wide.png"; "large.png"; "small.png"]
    /\ shuffle_stages (pipeline val) = []
    /\ shuffle_stages (pipeline train) = [(16, 42)]
    /\ exists es,
         iterate ex_files ex_engine (pipeline val) = Ok es
         /\ flat_map element_paths es = file_paths val.
Proof.
  eexists. eexists. split; [vm_compute; reflexivity|].
  split; [reflexivity|]. split; [reflexivity|].
  match goal with
  | |- shuffle_stages (pipeline ?v) = [] /\ shuffle_stages (pipeline ?t) = _ /\ _ =>
      destruct (@validation_dataset_is_not_shuffled ex_utils ex_ten_paths
                  (PySequence (vector [0; 1; 0; 1; 0; 1; 0; 1; 0; 1])) (Some "int")
                  "rgb" (Some 2) (4, 4) true (Some 42) (Some (3 # 10)%Q) "bilinear"
                  false t v ltac:(vm_compute; reflexivity))
        as (Hval & Htrain & _)
  end.
  split; [exact Hval|]. split; [exact Htrain|].
  eexists. split; vm_compute; reflexivity.
Defined.

(** ** The entry point on whole calls *)

(** The binary check seen from the entry point: once the argument checks
    that precede it pass, labels without exactly two distinct values end the
    call with the ValueError of line 532. *)
Lemma entry_point_binary_needs_two_classes
    (U : Utils) (image_paths : list string) (l : list Z) (color_mode : string)
    (batch_size : option Z) (image_size : Z * Z) (shuffle_flag : bool)
    (seed : option Z) (validation_split : option Q) (subset : option string)
    (interpolation interpolation' : string) (crop_to_aspect_ratio : bool) :
  color_mode = "rgb" \/ color_mode = "rgba" \/ color_mode = "grayscale" ->
  get_interpolation U interpolation = Ok interpolation' ->
  check_validation_split_arg U validation_split subset shuffle_flag seed = Ok tt ->
  ~ two_distinct_values l ->
  image_dataset_from_paths_and_labels U image_paths (PySequence (vector l))
    (Some "binary") color_mode batch_size image_size shuffle_flag seed
    validation_split subset interpolation crop_to_aspect_ratio
  = Raise (ValueError msg_binary_two_classes).
Proof.
  intros Hcolor Hinterp Hcheck Hnot.
  assert (Hrec : reconcile_labels "binary" (vector l)
                 = Raise (ValueError msg_binary_two_classes)).
  { now apply binary_labels_stage. }
  unfold image_dataset_from_paths_and_labels.
  destruct Hcolor as [-> | [-> | ->]];
    cbn [raise_if bind negb mode_in existsb String.eqb Ascii.eqb Bool.eqb orb];
    rewrite Hinterp; cbn [bind]; rewrite Hcheck; cbn [bind];
    rewrite Hrec; reflexivity.
Qed.

(** Scenario 1: three paths with integer labels. *)
Example scenario_int_labels :
  image_dataset_from_paths_and_labels ex_utils ex_paths
    (PySequence (vector [0; 1; 0])) (Some "int") "rgb" (Some 32) (64, 64) true
    (Some 42) None None "bilinear" false
  = Ok (Single
          (mk_handle
             (batch
                (shuffle
                   (prefetch
                      (zip (map_load_image (from_tensor_slices ex_paths) (64, 64) 3
                              "bilinear" false)
                           (labels_to_dataset (IntLabels (vector [0; 1; 0]))
                              "int" 2)))
                   256 42)
                32)
             ex_paths)).
Proof. reflexivity. Qed.

(** A call without labels stops where [num_classes] is read: no branch of
    lines 550-557 has assigned it. *)
Example unlabelled_call_reads_an_unassigned_local :
  image_dataset_from_paths_and_labels ex_utils ex_paths PyNone None "rgb"
    (Some 32) (64, 64) true (Some 42) None None "bilinear" false
  = Raise (UnboundLocalError "num_classes").
Proof. reflexivity. Qed.

(** * Further properties of the entry points and of the decoder *)

(** ** Label errors at the entry point *)

Section LabelStage.

Variable U : Utils.
Variables (image_paths : list string) (color_mode : string) (batch_size : option Z)
          (image_size : Z * Z) (shuffle_flag : bool) (seed : option Z)
          (validation_split : option Q) (subset : option string)
          (interpolation : string) (crop_to_aspect_ratio : bool).

Hypothesis Hargs :
  arguments_pass U color_mode interpolation validation_split subset shuffle_flag seed.

(** Once the argument checks pass, an error of the label checks is the error
    of the call. *)
Lemma label_errors_surface (label_mode : string) (a : Np.ndarray Z) (e : exn) :
  accepted_mode label_mode ->
  reconcile_labels label_mode a = Raise e ->
  image_dataset_from_paths_and_labels U image_paths (PySequence a) (Some label_mode)
    color_mode batch_size image_size shuffle_flag seed validation_split subset
    interpolation crop_to_aspect_ratio = Raise e.
Proof.
  intros Hmode Hrec. destruct Hargs as (Hcolor & (i & Hi) & Hcheck).
  unfold image_dataset_from_paths_and_labels. unfold accepted_mode in Hmode.
  rewrite Hmode.
  destruct Hcolor as [-> | [-> | ->]];
    cbn [raise_if bind negb String.eqb Ascii.eqb Bool.eqb];
    rewrite Hi; cbn [bind]; rewrite Hcheck; cbn [bind];
    rewrite Hrec; reflexivity.
Qed.

End LabelStage.

Lemma accepted_mode_cases (label_mode : string) :
  accepted_mode label_mode ->
  label_mode = "int" \/ label_mode = "categorical" \/ label_mode = "multi_label"
  \/ label_mode = "binary".
Proof.
  unfold accepted_mode, mode_in. cbn [existsb]. intros H.
  repeat (apply orb_true_iff in H; destruct H as [H|H]);
    try discriminate; apply String.eqb_eq in H; auto.
Qed.

(** X1.  An empty list of labels never gets as far as the check for an empty
    path list: once the argument checks pass, the call ends in a ValueError of
    the label checks, which is numpy's zero-size reduction error under int and
    categorical, the two-classes error under binary and the matrix-shape error
    under multi_label. *)
Theorem empty_labels_are_a_label_error
    (U : Utils) (image_paths : list string) (label_mode color_mode : string)
    (batch_size : option Z) (image_size : Z * Z) (shuffle_flag : bool)
    (seed : option Z) (validation_split : option Q) (subset : option string)
    (interpolation : string) (crop_to_aspect_ratio : bool) :
  arguments_pass U color_mode interpolation validation_split subset shuffle_flag seed ->
  accepted_mode label_mode ->
  image_dataset_from_paths_and_labels U image_paths (PySequence (vector []))
    (Some label_mode) color_mode batch_size image_size shuffle_flag seed
    validation_split subset interpolation crop_to_aspect_ratio
  = Raise (ValueError
             (if (label_mode =? "binary")%string then msg_binary_two_classes
              else if (label_mode =? "multi_label")%string
                   then msg_labels_shape_matrix
                   else msg_zero_size_reduction)).
Proof.
  intros Hargs Hmode. apply label_errors_surface; [assumption | assumption |].
  destruct (accepted_mode_cases Hmode) as [-> | [-> | [-> | ->]]]; reflexivity.
Qed.

Lemma ex_arguments_pass (color_mode : string) (interpolation : string)
    (validation_split : option Q) (subset : option string) (shuffle_flag : bool)
    (seed : option Z) :
  color_mode = "rgb" \/ color_mode = "rgba" \/ color_mode = "grayscale" ->
  arguments_pass ex_utils color_mode interpolation validation_split subset
                 shuffle_flag seed.
Proof. intros H. split; [exact H|]. split; [eexists|]; reflexivity. Qed.

Lemma empty_labels_are_a_label_error_witness :
  image_dataset_from_paths_and_labels ex_utils [] (PySequence (vector []))
    (Some "int") "rgb" (Some 32) (64, 64) true (Some 42) None None "bilinear" false
  = Raise (ValueError msg_zero_size_reduction).
Proof.
  apply (@empty_labels_are_a_label_error ex_utils [] "int" "rgb" (Some 32) (64, 64)
           true (Some 42) None None "bilinear" false).
  - apply ex_arguments_pass. left. reflexivity.
  - reflexivity.
Defined.

(** X2.  Under int and categorical every non-empty list of 64-bit labels is
    accepted whatever its values and handed on unchanged.  The class count is
    the largest label plus one in 64-bit arithmetic.  Below the largest
    64-bit integer that is one more than the largest label, so every label is
    below it; nothing checks that labels are non-negative, and a list of
    negative labels gets a class count of zero or less.  At the largest
    64-bit integer the count wraps to [-2^63], below every label. *)
Theorem integer_labels_are_taken_as_they_are
    (label_mode : string) (l : list Z) :
  label_mode = "int" \/ label_mode = "categorical" ->
  l <> [] ->
  Forall Np.int64 l ->
  exists m k,
    Np.max (vector l) = Ok m
    /\ reconcile_labels label_mode (vector l) = Ok (IntLabels (vector l), Some k)
    /\ k = Np.wrap64 (m + 1)
    /\ (m < 2 ^ 63 - 1 ->
        k = m + 1 /\ (forall x, In x l -> x < k) /\ In (k - 1) l
        /\ ((forall x, In x l -> x < 0) -> k <= 0))
    /\ (m = 2 ^ 63 - 1 -> k = - 2 ^ 63 /\ forall x, In x l -> k <= x).
Proof.
  intros Hmode Hne Hrange.
  destruct (@np_max_nonempty (vector l)) as [m Hm]; [exact Hne|].
  destruct (np_max_spec _ Hm) as [Hin Hub]. cbn [vector Np.data] in Hin, Hub.
  assert (Hm64 : Np.int64 m) by (rewrite Forall_forall in Hrange; now apply Hrange).
  exists m, (Np.wrap64 (m + 1)). split; [exact Hm|].
  split; [now apply reconcile_int_vector|]. split; [reflexivity|]. split.
  - intros Hbelow.
    assert (Hk : Np.wrap64 (m + 1) = m + 1).
    { apply wrap64_id. unfold Np.int64 in *. lia. }
    rewrite Hk. split; [reflexivity|].
    split; [intros x Hx; specialize (Hub x Hx); lia|].
    split; [now replace (m + 1 - 1) with m by lia|].
    intros Hneg. specialize (Hneg m Hin). lia.
  - intros ->. split; [reflexivity|]. intros x Hx.
    rewrite Forall_forall in Hrange. specialize (Hrange x Hx).
    unfold Np.int64 in Hrange.
    change (Np.wrap64 (2 ^ 63 - 1 + 1)) with (- 2 ^ 63). lia.
Qed.

Lemma integer_labels_are_taken_as_they_are_witness :
  (exists k,
      reconcile_labels "int" (vector [-3; -1; -2])
      = Ok (IntLabels (vector [-3; -1; -2]), Some k)
      /\ k = 0)
  /\ (exists k,
         reconcile_labels "int" (vector [0; 9223372036854775807])
         = Ok (IntLabels (vector [0; 9223372036854775807]), Some k)
         /\ k = -9223372036854775808).
Proof.
  split.
  - destruct (@integer_labels_are_taken_as_they_are "int" [-3; -1; -2])
      as (m & k & Hm & Hk & _ & Hbelow & _).
    + left. reflexivity.
    + discriminate.
    + repeat constructor; unfold Np.int64; lia.
    + vm_compute in Hm. apply Ok_inj in Hm. subst m.
      exists k. split; [exact Hk|].
      destruct (Hbelow ltac:(lia)) as [Heq _]. lia.
  - destruct (@integer_labels_are_taken_as_they_are "int" [0; 9223372036854775807])
      as (m & k & Hm & Hk & _ & _ & Htop).
    + left. reflexivity.
    + discriminate.
    + repeat constructor; unfold Np.int64; lia.
    + vm_compute in Hm. apply Ok_inj in Hm. subst m.
      exists k. split; [exact Hk|].
      destruct (Htop eq_refl) as [Heq _]. exact Heq.
Defined.

(** X3.  Under multi_label a rank-1 label list and a matrix of width 1 end
    the call with the shape error and with the hint at the binary mode; a
    matrix of width 2 or more is accepted whatever it holds (rows are not
    required to be 0/1 or to sum to anything) with a class count of its
    width plus one, and is handed on unchanged. *)
Theorem multi_label_checks_only_the_shape
    (U : Utils) (image_paths : list string) (color_mode : string)
    (batch_size : option Z) (image_size : Z * Z) (shuffle_flag : bool)
    (seed : option Z) (validation_split : option Q) (subset : option string)
    (interpolation : string) (crop_to_aspect_ratio : bool) :
  arguments_pass U color_mode interpolation validation_split subset shuffle_flag seed ->
  (forall l,
      image_dataset_from_paths_and_labels U image_paths (PySequence (vector l))
        (Some "multi_label") color_mode batch_size image_size shuffle_flag seed
        validation_split subset interpolation crop_to_aspect_ratio
      = Raise (ValueError msg_labels_shape_matrix))
  /\ (forall n l,
         image_dataset_from_paths_and_labels U image_paths
           (PySequence (matrix n 1 l)) (Some "multi_label") color_mode batch_size
           image_size shuffle_flag seed validation_split subset interpolation
           crop_to_aspect_ratio
         = Raise (ValueError msg_use_binary))
  /\ (forall n w l,
         (2 <= w)%nat ->
         reconcile_labels "multi_label" (matrix n w l)
         = Ok (IntLabels (matrix n w l), Some (Z.of_nat w + 1))).
Proof.
  intros Hargs. split; [|split].
  - intros l. apply label_errors_surface; [assumption | reflexivity | reflexivity].
  - intros n l. apply label_errors_surface; [assumption | reflexivity | reflexivity].
  - intros n w l Hw. now apply reconcile_multi_label_matrix.
Qed.

Lemma multi_label_checks_only_the_shape_witness :
  image_dataset_from_paths_and_labels ex_utils ex_paths
    (PySequence (matrix 3 1 [1; 0; 1])) (Some "multi_label") "rgb" (Some 32)
    (64, 64) true (Some 42) None None "bilinear" false
  = Raise (ValueError msg_use_binary)
  /\ reconcile_labels "multi_label" (matrix 2 2 [5; 5; 0; 7])
     = Ok (IntLabels (matrix 2 2 [5; 5; 0; 7]), Some 3).
Proof.
  destruct (@multi_label_checks_only_the_shape ex_utils ex_paths "rgb" (Some 32)
              (64, 64) true (Some 42) None None "bilinear" false)
    as (_ & Hwidth & Hok).
  - apply ex_arguments_pass. left. reflexivity.
  - split; [apply Hwidth | apply Hok; lia].
Defined.

(** X4.  A column of labels, [[0], [1], [0]], and the flat list [0, 1, 0] are
    interchangeable under binary, which leaves an array of rank 2 as it is
    and gives a flat list a trailing axis; under int and categorical the
    column is refused with the shape error. *)
Theorem label_column_and_flat_list
    (U : Utils) (image_paths : list string) (color_mode : string)
    (batch_size : option Z) (image_size : Z * Z) (shuffle_flag : bool)
    (seed : option Z) (validation_split : option Q) (subset : option string)
    (interpolation : string) (crop_to_aspect_ratio : bool) (l : list Z) :
  arguments_pass U color_mode interpolation validation_split subset shuffle_flag seed ->
  reconcile_labels "binary" (matrix (length l) 1 l)
  = reconcile_labels "binary" (vector l)
  /\ (forall label_mode,
         label_mode = "int" \/ label_mode = "categorical" ->
         image_dataset_from_paths_and_labels U image_paths
           (PySequence (matrix (length l) 1 l)) (Some label_mode) color_mode
           batch_size image_size shuffle_flag seed validation_split subset
           interpolation crop_to_aspect_ratio
         = Raise (ValueError msg_labels_shape_samples)).
Proof.
  intros Hargs. split.
  - rewrite reconcile_binary_vector. unfold reconcile_labels. cbn.
    unfold Np.unique; cbn.
    destruct (length (nodup Z.eq_dec l) =? 2)%nat; reflexivity.
  - intros label_mode [-> | ->];
      (apply label_errors_surface; [assumption | reflexivity | reflexivity]).
Qed.

Lemma label_column_and_flat_list_witness :
  reconcile_labels "binary" (matrix 3 1 [0; 1; 0])
  = reconcile_labels "binary" (vector [0; 1; 0])
  /\ image_dataset_from_paths_and_labels ex_utils ex_paths
       (PySequence (matrix 3 1 [0; 1; 0])) (Some "int") "rgb" (Some 32) (64, 64)
       true (Some 42) None None "bilinear" false
     = Raise (ValueError msg_labels_shape_samples).
Proof.
  destruct (@label_column_and_flat_list ex_utils ex_paths "rgb" (Some 32) (64, 64)
              true (Some 42) None None "bilinear" false [0; 1; 0]) as [Hsame Hint].
  - apply ex_arguments_pass. left. reflexivity.
  - split; [exact Hsame|]. apply Hint. left. reflexivity.
Defined.

(** ** What a successful call has built *)

Section BuiltDatasets.

Variable U : Utils.
Variables (image_paths : list string) (labels : py_labels)
          (label_mode : option string) (color_mode : string)
          (batch_size : option Z) (image_size : Z * Z) (shuffle_flag : bool)
          (seed : option Z) (validation_split : option Q) (subset : option string)
          (interpolation : string) (crop_to_aspect_ratio : bool).

Lemma built_datasets_inversion (d : datasets) :
  image_dataset_from_paths_and_labels U image_paths labels label_mode color_mode
    batch_size image_size shuffle_flag seed validation_split subset
    interpolation crop_to_aspect_ratio = Ok d ->
  exists (a : Np.ndarray Z) (m : string) (labels' : label_list) (n nc : Z)
         (interpolation' : string),
    labels = PySequence a /\ label_mode = Some m /\ accepted_mode m
    /\ reconcile_labels m a = Ok (labels', Some n)
    /\ ((color_mode = "rgb" /\ nc = 3) \/ (color_mode = "rgba" /\ nc = 4)
        \/ (color_mode = "grayscale" /\ nc = 1))
    /\ get_interpolation U interpolation = Ok interpolation'
    /\ check_validation_split_arg U validation_split subset shuffle_flag seed = Ok tt
    /\ let base (paths : list string) (l : label_list) :=
         prefetch (zip (map_load_image (from_tensor_slices paths) image_size nc
                          interpolation' crop_to_aspect_ratio)
                       (labels_to_dataset l m n)) in
       let seed := match seed with None => randint U | Some s => s end in
       let finish (shuffled : bool) (ds : Dataset) :=
         match batch_size with
         | Some b => batch (if shuffled then shuffle ds (b * 8) seed else ds) b
         | None => if shuffled then shuffle ds 1024 seed else ds
         end in
       match d with
       | TrainVal train val =>
           subset = Some "both"
           /\ exists labels_train labels_val,
                get_training_or_validation_split U image_paths labels'
                  validation_split (Some "training")
                = Ok (file_paths train, labels_train)
                /\ get_training_or_validation_split U image_paths labels'
                     validation_split (Some "validation")
                   = Ok (file_paths val, labels_val)
                /\ file_paths train <> [] /\ file_paths val <> []
                /\ pipeline train
                   = finish shuffle_flag (base (file_paths train) labels_train)
                /\ pipeline val = finish false (base (file_paths val) labels_val)
       | Single ds =>
           subset <> Some "both"
           /\ exists labels_split,
                get_training_or_validation_split U image_paths labels'
                  validation_split subset = Ok (file_paths ds, labels_split)
                /\ file_paths ds <> []
                /\ pipeline ds
                   = finish shuffle_flag (base (file_paths ds) labels_split)
       end.
Proof.
  unfold image_dataset_from_paths_and_labels. intros H.
  bind_inv H. bind_inv H. bind_inv H. bind_inv H. bind_inv H. bind_inv H.
  destruct x3. destruct x4 as [[labels' label_mode'] num_classes].
  (* the argument checks *)
  apply raise_if_ok, negb_false_iff in Hx0.
  assert (Hcolor : (color_mode = "rgb" /\ x1 = 3) \/ (color_mode = "rgba" /\ x1 = 4)
                   \/ (color_mode = "grayscale" /\ x1 = 1)).
  { destruct (String.eqb_spec color_mode "rgb") as [->|_];
      [left; split; [reflexivity | now apply Ok_inj in Hx1]|].
    destruct (String.eqb_spec color_mode "rgba") as [->|_];
      [right; left; split; [reflexivity | now apply Ok_inj in Hx1]|].
    destruct (String.eqb_spec color_mode "grayscale") as [->|_];
      [right; right; split; [reflexivity | now apply Ok_inj in Hx1] | discriminate]. }
  (* the local num_classes must have been assigned *)
  assert (Hread : exists n, num_classes = Some n
                            /\ forall r, (n' <- read_local "num_classes" num_classes ;;
                                          r n') = Ok d -> r n = Ok d).
  { destruct num_classes as [n|].
    - exists n. split; [reflexivity | intros r Hr; exact Hr].
    - exfalso.
      destruct (match subset with Some s => (s =? "both")%string | None => false end).
      + bind_inv H. bind_inv H. destruct x3, x4. bind_inv H. bind_inv H.
        bind_inv H. discriminate.
      + bind_inv H. destruct x3. bind_inv H. bind_inv H. discriminate. }
  destruct Hread as (n & -> & _).
  destruct labels as [| |a|]; try (cbn in Hx4; discriminate).
  destruct label_mode as [m|]; [|cbn in Hx4; discriminate].
  cbv beta iota in Hx4. bind_inv Hx4. destruct x3 as [l0 n0].
  cbn [fst snd] in Hx4. apply Ok_inj in Hx4. injection Hx4 as -> <- ->.
  assert (Hm : accepted_mode m) by exact Hx0.
  assert (Hnonempty : (m =? "")%string = false).
  { destruct (accepted_mode_cases Hm) as [-> | [-> | [-> | ->]]]; reflexivity. }
  exists a, m, labels', n, x1, x2.
  repeat (split; [first [reflexivity | assumption]|]).
  cbv zeta. unfold paths_and_labels_to_dataset in H. rewrite Hnonempty in H.
  destruct (match subset with Some s => (s =? "both")%string | None => false end)
    eqn:Hboth.
  - bind_inv H. bind_inv H. destruct x3 as [paths_train labels_train].
    destruct x4 as [paths_val labels_val].
    bind_inv H. bind_inv H. bind_inv H. apply Ok_inj in Hx9. subst x5.
    apply raise_if_ok in Hx7, Hx8.
    assert (Hs : subset = Some "both").
    { destruct subset as [s|]; [|discriminate].
      apply String.eqb_eq in Hboth. now subst. }
    destruct batch_size as [b|]; cbv beta iota zeta in H; apply Ok_inj in H;
      subst d; cbn [file_paths pipeline];
      (split; [exact Hs|]); exists labels_train, labels_val;
      (repeat split; try assumption; try reflexivity;
       intros E; rewrite E in *; discriminate).
  - bind_inv H. destruct x3 as [paths labels_split].
    bind_inv H. bind_inv H. apply Ok_inj in Hx7. subst x4.
    apply raise_if_ok in Hx6.
    assert (Hs : subset <> Some "both").
    { intros E. rewrite E in Hboth. discriminate. }
    destruct batch_size as [b|]; cbv beta iota zeta in H; apply Ok_inj in H;
      subst d; cbn [file_paths pipeline];
      (split; [exact Hs|]); exists labels_split;
      (repeat split; try assumption; try reflexivity;
       intros E; rewrite E in *; discriminate).
Qed.

End BuiltDatasets.

(** X5.  A call without labels ([labels] or [label_mode] is None) never
    returns a dataset.  When its arguments are otherwise in order and the
    split leaves at least one path, it ends in the UnboundLocalError of
    reading [num_classes], which only the label modes assign. *)
Theorem unlabelled_calls_never_return
    (U : Utils) (image_paths : list string) (labels : py_labels)
    (label_mode : option string) (color_mode : string) (batch_size : option Z)
    (image_size : Z * Z) (shuffle_flag : bool) (seed : option Z)
    (validation_split : option Q) (subset : option string)
    (interpolation : string) (crop_to_aspect_ratio : bool) :
  labels = PyNone \/ label_mode = None ->
  (forall d,
      image_dataset_from_paths_and_labels U image_paths labels label_mode
        color_mode batch_size image_size shuffle_flag seed validation_split subset
        interpolation crop_to_aspect_ratio <> Ok d)
  /\ (arguments_pass U color_mode interpolation validation_split subset
                     shuffle_flag seed ->
      (labels = PyNone \/ exists a, labels = PySequence a) ->
      (label_mode = None \/ exists m, label_mode = Some m /\ accepted_mode m) ->
      subset <> Some "both" ->
      forall paths labels_split,
        get_training_or_validation_split U image_paths NoLabels validation_split
          subset = Ok (paths, labels_split) ->
        paths <> [] ->
        image_dataset_from_paths_and_labels U image_paths labels label_mode
          color_mode batch_size image_size shuffle_flag seed validation_split
          subset interpolation crop_to_aspect_ratio
        = Raise (UnboundLocalError "num_classes")).
Proof.
  intros Hnone. split.
  - intros d H. apply built_datasets_inversion in H.
    destruct H as (a & m & _ & _ & _ & _ & Hl & Hm & _).
    destruct Hnone; congruence.
  - intros (Hcolor & (i & Hi) & Hcheck) Hlabels Hmode Hsubset paths ls Hsplit Hne.
    assert (Hboth : match subset with
                    | Some s => (s =? "both")%string
                    | None => false
                    end = false).
    { destruct subset as [s|]; [|reflexivity].
      destruct (String.eqb_spec s "both") as [->|]; [contradiction | reflexivity]. }
    assert (Hcheck1 : raise_if match labels with
                               | PyNone | PySequence _ => false
                               | _ => true
                               end (ValueError msg_labels_not_a_sequence) = Ok tt).
    { destruct Hlabels as [-> | [a ->]]; reflexivity. }
    assert (Hcheck2 : raise_if
                        (negb match label_mode with
                              | Some m => mode_in m ["int"; "categorical";
                                                     "multi_label"; "binary"]
                              | None => true
                              end) (ValueError msg_label_mode) = Ok tt).
    { destruct Hmode as [-> | (m & -> & Hm)]; [reflexivity|].
      unfold accepted_mode in Hm. now rewrite Hm. }
    assert (Hlabelled : match labels, label_mode with
                        | PySequence a, Some m => Some (m, a)
                        | _, _ => None
                        end = None).
    { destruct Hnone as [-> | ->]; [reflexivity|]. destruct labels; reflexivity. }
    unfold image_dataset_from_paths_and_labels.
    rewrite Hcheck1, Hcheck2, Hlabelled. cbn [bind].
    assert (Hnc : exists nc,
               (if (color_mode =? "rgb")%string then Ok 3
                else if (color_mode =? "rgba")%string then Ok 4
                else if (color_mode =? "grayscale")%string then Ok 1
                else Raise (ValueError msg_color_mode)) = Ok nc).
    { destruct Hcolor as [-> | [-> | ->]]; eexists; reflexivity. }
    destruct Hnc as [nc ->]. cbn [bind]. rewrite Hi. cbn [bind].
    rewrite Hcheck. cbn [bind]. rewrite Hboth, Hsplit. cbn [bind].
    destruct paths; [contradiction | reflexivity].
Qed.

Lemma unlabelled_calls_never_return_witness :
  image_dataset_from_paths_and_labels ex_utils ex_paths
    (PySequence (vector [0; 1; 0])) None "rgb" (Some 32) (64, 64) true (Some 42)
    None None "bilinear" false
  = Raise (UnboundLocalError "num_classes").
Proof.
  destruct (@unlabelled_calls_never_return ex_utils ex_paths
              (PySequence (vector [0; 1; 0])) None "rgb" (Some 32) (64, 64) true
              (Some 42) None None "bilinear" false (or_intror eq_refl)) as [_ H].
  apply (H (ex_arguments_pass "bilinear" None None true (Some 42)
              (or_introl eq_refl))
           (or_intror (ex_intro _ _ eq_refl)) (or_introl eq_refl)
           ltac:(discriminate) ex_paths NoLabels eq_refl ltac:(discriminate)).
Defined.

(** X6.  Every dataset a successful call returns is built with the settings
    of the call: its file list is not empty and is the list its pipeline
    reads; its one loading stage has the target size, the crop flag, the
    interpolation that [get_interpolation] returned and 3, 4 or 1 channels
    for 'rgb', 'rgba' or 'grayscale'; its one label stage has the label mode
    and the class count derived from the labels; and it is batched exactly
    when a batch size is given. *)
Theorem returned_datasets_carry_the_call_settings
    (U : Utils) (image_paths : list string) (labels : py_labels)
    (label_mode : option string) (color_mode : string) (batch_size : option Z)
    (image_size : Z * Z) (shuffle_flag : bool) (seed : option Z)
    (validation_split : option Q) (subset : option string)
    (interpolation : string) (crop_to_aspect_ratio : bool) (d : datasets) :
  image_dataset_from_paths_and_labels U image_paths labels label_mode color_mode
    batch_size image_size shuffle_flag seed validation_split subset
    interpolation crop_to_aspect_ratio = Ok d ->
  exists (a : Np.ndarray Z) (m : string) (labels' : label_list) (n : Z)
         (interpolation' : string),
    labels = PySequence a /\ label_mode = Some m
    /\ reconcile_labels m a = Ok (labels', Some n)
    /\ get_interpolation U interpolation = Ok interpolation'
    /\ forall h, In h (handles d) ->
         file_paths h <> []
         /\ source_paths (pipeline h) = file_paths h
         /\ load_settings (pipeline h)
            = [(image_size,
                if (color_mode =? "rgb")%string then 3
                else if (color_mode =? "rgba")%string then 4 else 1,
                interpolation', crop_to_aspect_ratio)]
         /\ label_settings (pipeline h) = [(m, n)]
         /\ batch_stages (pipeline h)
            = match batch_size with Some b => [b] | None => [] end.
Proof.
  intros H. apply built_datasets_inversion in H.
  destruct H as (a & m & labels' & n & nc & i & Hl & Hm & _ & Hrec & Hcolor & Hi
                 & _ & H).
  exists a, m, labels', n, i. repeat (split; [assumption|]).
  assert (Hnc : (if (color_mode =? "rgb")%string then 3
                 else if (color_mode =? "rgba")%string then 4 else 1) = nc).
  { destruct Hcolor as [[-> ->] | [[-> ->] | [-> ->]]]; reflexivity. }
  rewrite Hnc. cbv zeta in H. intros h Hin.
  destruct d as [ds | train val]; cbn [handles In] in Hin.
  - destruct Hin as [<- | []].
    destruct H as (_ & ls & _ & Hne & ->).
    split; [exact Hne|].
    destruct batch_size, shuffle_flag; repeat split; reflexivity.
  - destruct H as (_ & lt & lv & _ & _ & Hnt & Hnv & Ht & Hv).
    destruct Hin as [<- | [<- | []]].
    + split; [exact Hnt|]. rewrite Ht.
      destruct batch_size, shuffle_flag; repeat split; reflexivity.
    + split; [exact Hnv|]. rewrite Hv.
      destruct batch_size; repeat split; reflexivity.
Qed.

Lemma returned_datasets_carry_the_call_settings_witness :
  exists d,
    image_dataset_from_paths_and_labels ex_utils ex_paths
      (PySequence (vector [0; 2; 1])) (Some "int") "rgb" (Some 2) (64, 48) true
      (Some 42) None None "bilinear" false = Ok d
    /\ exists h interpolation',
         handles d = [h]
         /\ file_paths h = ex_paths
         /\ load_settings (pipeline h) = [((64, 48), 3, interpolation', false)]
         /\ label_settings (pipeline h) = [("int", 3)]
         /\ batch_stages (pipeline h) = [2].
Proof.
  eexists. split; [vm_compute; reflexivity|].
  destruct (@returned_datasets_carry_the_call_settings ex_utils ex_paths
              (PySequence (vector [0; 2; 1])) (Some "int") "rgb" (Some 2) (64, 48)
              true (Some 42) None None "bilinear" false _
              ltac:(vm_compute; reflexivity))
    as (a & m & l & n & i & Ha & Hm & Hrec & _ & H).
  injection Ha as <-. injection Hm as <-.
  vm_compute in Hrec. injection Hrec as _ <-.
  eexists. exists i. split; [reflexivity|].
  match goal with
  | |- file_paths ?h = _ /\ _ =>
      destruct (H h (or_introl eq_refl)) as (_ & _ & Hload & Hlabel & Hbatch)
  end.
  split; [reflexivity|]. split; [exact Hload|]. split; [exact Hlabel | exact Hbatch].
Defined.

(** X7.  The [subset] argument alone decides what a successful call returns:
    a pair of datasets for 'both', one dataset otherwise.  The single
    dataset holds the paths of the requested slice, and it has one shuffle
    stage, placed before batching, exactly when the shuffle flag is set: its
    buffer is 8 times the batch size, or 1024 without batching, and its seed
    is the seed of the call, or the drawn one when none was given. *)
Theorem subset_decides_what_is_returned
    (U : Utils) (image_paths : list string) (labels : py_labels)
    (label_mode : option string) (color_mode : string) (batch_size : option Z)
    (image_size : Z * Z) (shuffle_flag : bool) (seed : option Z)
    (validation_split : option Q) (subset : option string)
    (interpolation : string) (crop_to_aspect_ratio : bool) (d : datasets) :
  image_dataset_from_paths_and_labels U image_paths labels label_mode color_mode
    batch_size image_size shuffle_flag seed validation_split subset
    interpolation crop_to_aspect_ratio = Ok d ->
  match d with
  | TrainVal _ _ => subset = Some "both"
  | Single ds =>
      subset <> Some "both"
      /\ (exists labels' labels_split,
             get_training_or_validation_split U image_paths labels'
               validation_split subset = Ok (file_paths ds, labels_split))
      /\ shuffle_stages (pipeline ds)
         = (if shuffle_flag
            then [(match batch_size with Some b => b * 8 | None => 1024 end,
                   match seed with Some s => s | None => randint U end)]
            else [])
      /\ match batch_size with
         | Some b => exists inner, pipeline ds = batch inner b
         | None => forall inner b, pipeline ds <> batch inner b
         end
  end.
Proof.
  intros H. apply built_datasets_inversion in H.
  destruct H as (a & m & labels' & n & nc & i & _ & _ & _ & _ & _ & _ & _ & H).
  cbv zeta in H. destruct d as [ds | train val].
  - destruct H as (Hs & ls & Hsplit & _ & Hp).
    split; [exact Hs|]. split; [eauto|]. rewrite Hp.
    destruct batch_size as [b|], shuffle_flag; cbn [shuffle_stages app];
      (split; [reflexivity|]); try (eexists; reflexivity);
      intros inner b'; discriminate.
  - apply H.
Qed.

Lemma subset_decides_what_is_returned_witness :
  exists ds,
    image_dataset_from_paths_and_labels ex_utils ex_ten_paths
      (PySequence (vector [0; 1; 0; 1; 0; 1; 0; 1; 0; 1])) (Some "int") "rgb" None
      (4, 4) true None (Some (3 # 10)%Q) (Some "validation") "bilinear" false
    = Ok (Single ds)
    /\ file_paths ds = ["wide.png"; "large.png"; "small.png"]
    /\ shuffle_stages (pipeline ds) = [(1024, 42)].
Proof.
  eexists. split; [vm_compute; reflexivity|]. split; [reflexivity|].
  match goal with
  | |- shuffle_stages (pipeline ?ds) = _ =>
      destruct (@subset_decides_what_is_returned ex_utils ex_ten_paths
                  (PySequence (vector [0; 1; 0; 1; 0; 1; 0; 1; 0; 1])) (Some "int")
                  "rgb" None (4, 4) true None (Some (3 # 10)%Q) (Some "validation")
                  "bilinear" false (Single ds) ltac:(vm_compute; reflexivity))
        as (_ & _ & Hstages & _)
  end.
  exact Hstages.
Defined.

(** ** The directory entry point *)

Section DirectoryCalls.

Variable U : Utils.
Variables (directory : string) (labels : py_labels) (label_mode : option string)
          (class_names : option (list string)) (color_mode : string)
          (batch_size : option Z) (image_size : Z * Z) (shuffle_flag : bool)
          (seed : option Z) (validation_split : option Q) (subset : option string)
          (interpolation : string) (follow_links : bool)
          (crop_to_aspect_ratio : bool).

(** A successful call went through [index_directory] and the delegate, with
    the labels and the label mode it was given and with one seed. *)
Lemma directory_inversion (d : datasets) :
  image_dataset_from_directory U directory labels label_mode class_names
    color_mode batch_size image_size shuffle_flag seed validation_split subset
    interpolation follow_links crop_to_aspect_ratio = Ok d ->
  let s := match seed with None => randint U | Some s => s end in
  exists (m : string) (paths : list string) (indexed : py_labels),
    labels <> PyNone /\ labels <> PyOther /\ label_mode = Some m
    /\ index_directory U directory labels (Some m) ALLOWLIST_FORMATS class_names
         shuffle_flag s follow_links = Ok (paths, indexed)
    /\ image_dataset_from_paths_and_labels U paths indexed (Some m) color_mode
         batch_size image_size shuffle_flag (Some s) validation_split subset
         interpolation crop_to_aspect_ratio = Ok d.
Proof.
  unfold image_dataset_from_directory. intros H. bind_inv H. bind_inv H.
  assert (Hother : labels <> PyOther) by (intros E; rewrite E in Hx; discriminate).
  destruct label_mode as [m|].
  - destruct labels as [| |a|].
    + bind_inv H. destruct x1 as [paths indexed].
      apply built_datasets_inversion in H.
      destruct H as (_ & m' & _ & _ & _ & _ & _ & Hm & _). discriminate.
    + bind_inv H. destruct x1 as [paths indexed].
      exists m, paths, indexed. repeat split; try assumption; discriminate.
    + bind_inv H. destruct x1 as [paths indexed].
      exists m, paths, indexed. repeat split; try assumption; discriminate.
    + contradiction.
  - assert (H' : (indexed <- index_directory U directory PyNone None
                               ALLOWLIST_FORMATS class_names shuffle_flag
                               match seed with
                               | Some s => s
                               | None => randint U
                               end follow_links ;;
                  (let '(image_paths, labels0) := indexed in
                   image_dataset_from_paths_and_labels U image_paths labels0 None
                     color_mode batch_size image_size shuffle_flag
                     (Some match seed with
                           | Some s => s
                           | None => randint U
                           end) validation_split subset interpolation
                     crop_to_aspect_ratio)) = Ok d).
    { destruct labels; exact H. }
    bind_inv H'. destruct x1 as [paths indexed].
    apply built_datasets_inversion in H'.
    destruct H' as (_ & m' & _ & _ & _ & _ & _ & Hm & _). discriminate.
Qed.

End DirectoryCalls.

(** X8.  [image_dataset_from_directory] returns no dataset when [labels] is
    None, when [label_mode] is None, or when [label_mode] is 'multi_class',
    although its own check of the label mode lets all three through: the first
    two end in the delegate reading a class count that was never assigned,
    the third in the delegate's check of the label mode. *)
Theorem directory_never_builds_multi_class_or_unlabelled
    (U : Utils) (directory : string) (labels : py_labels)
    (label_mode : option string) (class_names : option (list string))
    (color_mode : string) (batch_size : option Z) (image_size : Z * Z)
    (shuffle_flag : bool) (seed : option Z) (validation_split : option Q)
    (subset : option string) (interpolation : string) (follow_links : bool)
    (crop_to_aspect_ratio : bool) :
  labels = PyNone \/ label_mode = None \/ label_mode = Some "multi_class" ->
  forall d,
    image_dataset_from_directory U directory labels label_mode class_names
      color_mode batch_size image_size shuffle_flag seed validation_split subset
      interpolation follow_links crop_to_aspect_ratio <> Ok d.
Proof.
  intros Hcase d H. apply directory_inversion in H. cbv zeta in H.
  destruct H as (m & paths & indexed & Hnone & _ & Hm & _ & H).
  destruct Hcase as [E | [E | E]]; [contradiction | congruence |].
  rewrite Hm in E. injection E as ->.
  apply built_datasets_inversion in H.
  destruct H as (_ & m' & _ & _ & _ & _ & _ & Hm' & Hacc & _).
  injection Hm' as <-. discriminate.
Qed.

Lemma directory_never_builds_multi_class_or_unlabelled_witness :
  image_dataset_from_directory ex_utils "data" PyInferred (Some "multi_class") None
    "rgb" (Some 32) (64, 64) true None None None "bilinear" false false
  = Raise (ValueError msg_label_mode)
  /\ image_dataset_from_directory ex_utils "data" PyInferred None None
       "rgb" (Some 32) (64, 64) true None None None "bilinear" false false
     = Raise (UnboundLocalError "num_classes").
Proof.
  pose proof (@directory_never_builds_multi_class_or_unlabelled ex_utils "data"
                PyInferred (Some "multi_class") None "rgb" (Some 32) (64, 64) true
                None None None "bilinear" false false
                (or_intror (or_intror eq_refl))) as H1.
  pose proof (@directory_never_builds_multi_class_or_unlabelled ex_utils "data"
                PyInferred None None "rgb" (Some 32) (64, 64) true
                None None None "bilinear" false false
                (or_intror (or_introl eq_refl))) as H2.
  split.
  - destruct (image_dataset_from_directory ex_utils "data" PyInferred
                (Some "multi_class") None "rgb" (Some 32) (64, 64) true None None
                None "bilinear" false false) as [d|e] eqn:E.
    + destruct (H1 d eq_refl).
    + vm_compute in E. exact (eq_sym E).
  - destruct (image_dataset_from_directory ex_utils "data" PyInferred None None
                "rgb" (Some 32) (64, 64) true None None None "bilinear" false false)
      as [d|e] eqn:E.
    + destruct (H2 d eq_refl).
    + vm_compute in E. exact (eq_sym E).
Defined.

(** X9.  A dataset that [image_dataset_from_directory] returns was built by
    the delegate from the paths and labels that [index_directory] returned
    for the directory, and one seed serves both: the seed given to
    [index_directory], the argument or the drawn one, is the seed of every
    shuffle stage of the returned pipelines. *)
Theorem directory_shuffles_with_the_indexing_seed
    (U : Utils) (directory : string) (labels : py_labels)
    (label_mode : option string) (class_names : option (list string))
    (color_mode : string) (batch_size : option Z) (image_size : Z * Z)
    (shuffle_flag : bool) (seed : option Z) (validation_split : option Q)
    (subset : option string) (interpolation : string) (follow_links : bool)
    (crop_to_aspect_ratio : bool) (d : datasets) :
  image_dataset_from_directory U directory labels label_mode class_names
    color_mode batch_size image_size shuffle_flag seed validation_split subset
    interpolation follow_links crop_to_aspect_ratio = Ok d ->
  let s := match seed with None => randint U | Some s => s end in
  (exists paths indexed,
      index_directory U directory labels label_mode ALLOWLIST_FORMATS class_names
        shuffle_flag s follow_links = Ok (paths, indexed)
      /\ image_dataset_from_paths_and_labels U paths indexed label_mode color_mode
           batch_size image_size shuffle_flag (Some s) validation_split subset
           interpolation crop_to_aspect_ratio = Ok d)
  /\ forall h stage,
       In h (handles d) -> In stage (shuffle_stages (pipeline h)) -> snd stage = s.
Proof.
  intros H. apply directory_inversion in H. cbv zeta in H |- *.
  destruct H as (m & paths & indexed & _ & _ & -> & Hindex & H).
  split; [eauto|]. intros h stage Hh Hstage.
  apply built_datasets_inversion in H.
  destruct H as (a & m' & labels' & n & nc & i & _ & _ & _ & _ & _ & _ & _ & H).
  cbv zeta in H. destruct d as [ds | train val]; cbn [handles In] in Hh.
  - destruct Hh as [<- | []]. destruct H as (_ & ls & _ & _ & Hp).
    rewrite Hp in Hstage.
    destruct batch_size, shuffle_flag; cbn in Hstage;
      try contradiction; destruct Hstage as [<- | []]; reflexivity.
  - destruct H as (_ & lt & lv & _ & _ & _ & _ & Ht & Hv).
    destruct Hh as [<- | [<- | []]].
    + rewrite Ht in Hstage.
      destruct batch_size, shuffle_flag; cbn in Hstage;
        try contradiction; destruct Hstage as [<- | []]; reflexivity.
    + rewrite Hv in Hstage. destruct batch_size; cbn in Hstage; contradiction.
Qed.

Lemma directory_shuffles_with_the_indexing_seed_witness :
  exists ds,
    image_dataset_from_directory ex_utils "data" PyInferred (Some "int") None
      "rgb" (Some 32) (64, 64) true None None None "bilinear" false false
    = Ok (Single ds)
    /\ file_paths ds = ["a.png"; "b.png"]
    /\ forall stage, In stage (shuffle_stages (pipeline ds)) -> snd stage = 42.
Proof.
  eexists. split; [vm_compute; reflexivity|]. split; [reflexivity|].
  intros stage Hstage.
  match goal with
  | _ : In stage (shuffle_stages (pipeline ?ds)) |- _ =>
      destruct (@directory_shuffles_with_the_indexing_seed ex_utils "data"
                  PyInferred (Some "int") None "rgb" (Some 32) (64, 64) true None
                  None None "bilinear" false false (Single ds)
                  ltac:(vm_compute; reflexivity)) as [_ H];
        exact (H ds stage (or_introl eq_refl) Hstage)
  end.
Defined.

(** ** The tabular entry points *)

Lemma last_char_append_slash (s : string) : last_char (s ++ "/")%string = Some "/"%char.
Proof.
  induction s as [|c s IH]; [reflexivity|].
  cbn [String.append last_char]. rewrite IH.
  destruct (s ++ "/")%string eqn:E; [|reflexivity].
  destruct s; discriminate.
Qed.

Lemma append_slash_is_normal (s : string) :
  (if negb (s ++ "/" =? "")%string && negb (ends_with_slash (s ++ "/"))
   then ((s ++ "/") ++ "/")%string else (s ++ "/")%string) = (s ++ "/")%string.
Proof.
  unfold ends_with_slash. rewrite last_char_append_slash.
  cbn. now rewrite andb_false_r.
Qed.

Lemma string_append_assoc (a b c : string) :
  ((a ++ b) ++ c = a ++ (b ++ c))%string.
Proof. induction a as [|x a IH]; [reflexivity|]. cbn. now rewrite IH. Qed.

(** X10.  The tabular entry points take [image_dir] with or without its
    trailing slash: a non-empty directory that does not end in a slash gives
    the same result as the directory followed by a slash, from a frame and
    from a CSV file alike; and with the empty directory, the default, the
    paths of the column are passed on as they are. *)
Theorem trailing_slash_of_image_dir_is_optional
    (P : Pandas) (U : Utils) (df : DataFrame P) (csv_path : string)
    (path_col label_col : py_key) (image_dir : string)
    (label_mode : option string) (color_mode : string) (batch_size : option Z)
    (image_size : Z * Z) (shuffle_flag : bool) (seed : option Z)
    (validation_split : option Q) (subset : option string)
    (interpolation : string) (crop_to_aspect_ratio : bool) :
  image_dir <> "" -> ends_with_slash image_dir = false ->
  image_dataset_from_dataframe P U df path_col label_col image_dir label_mode
    color_mode batch_size image_size shuffle_flag seed validation_split subset
    interpolation crop_to_aspect_ratio
  = image_dataset_from_dataframe P U df path_col label_col (image_dir ++ "/")
      label_mode color_mode batch_size image_size shuffle_flag seed
      validation_split subset interpolation crop_to_aspect_ratio
  /\ image_dataset_from_csv P U csv_path path_col label_col image_dir label_mode
       color_mode batch_size image_size shuffle_flag seed validation_split subset
       interpolation crop_to_aspect_ratio
     = image_dataset_from_csv P U csv_path path_col label_col (image_dir ++ "/")
         label_mode color_mode batch_size image_size shuffle_flag seed
         validation_split subset interpolation crop_to_aspect_ratio
  /\ forall name values labels,
       path_col = KeyStr name -> label_col <> KeyOther ->
       path_values P df name = Ok values ->
       label_values P df label_col = Ok labels ->
       image_dataset_from_dataframe P U df path_col label_col image_dir label_mode
         color_mode batch_size image_size shuffle_flag seed validation_split
         subset interpolation crop_to_aspect_ratio
       = image_dataset_from_paths_and_labels U
           (map (fun v => image_dir ++ "/" ++ v)%string values) (PySequence labels)
           label_mode color_mode batch_size image_size shuffle_flag seed
           validation_split subset interpolation crop_to_aspect_ratio
       /\ image_dataset_from_dataframe P U df path_col label_col "" label_mode
            color_mode batch_size image_size shuffle_flag seed validation_split
            subset interpolation crop_to_aspect_ratio
          = image_dataset_from_paths_and_labels U values (PySequence labels)
              label_mode color_mode batch_size image_size shuffle_flag seed
              validation_split subset interpolation crop_to_aspect_ratio.
Proof.
  intros Hne Hslash.
  assert (Hdir : (if negb (image_dir =? "")%string && negb (ends_with_slash image_dir)
                  then (image_dir ++ "/")%string else image_dir)
                 = (image_dir ++ "/")%string).
  { rewrite Hslash. destruct (String.eqb_spec image_dir ""); [contradiction|].
    reflexivity. }
  assert (Hframe : forall df',
             image_dataset_from_dataframe P U df' path_col label_col image_dir
               label_mode color_mode batch_size image_size shuffle_flag seed
               validation_split subset interpolation crop_to_aspect_ratio
             = image_dataset_from_dataframe P U df' path_col label_col
                 (image_dir ++ "/") label_mode color_mode batch_size image_size
                 shuffle_flag seed validation_split subset interpolation
                 crop_to_aspect_ratio).
  { intros df'. unfold image_dataset_from_dataframe.
    rewrite Hdir, append_slash_is_normal. reflexivity. }
  split; [apply Hframe|]. split.
  - unfold image_dataset_from_csv. destruct (read_csv P csv_path); cbn [bind];
      [apply Hframe | reflexivity].
  - intros name values labels -> Hlabel Hvalues Hlabels.
    unfold image_dataset_from_dataframe. rewrite Hdir. cbn [bind].
    assert (Hcol : match label_col with
                   | KeyStr _ | KeyList _ => false
                   | KeyOther => true
                   end = false) by (destruct label_col; congruence).
    rewrite Hcol, Hvalues, Hlabels. cbn [raise_if bind andb negb String.eqb].
    split.
    + f_equal. apply map_ext. intros v.
      now rewrite string_append_assoc.
    + f_equal. rewrite <- (map_id values) at 2. apply map_ext. reflexivity.
Qed.

Lemma trailing_slash_of_image_dir_is_optional_witness :
  exists ds,
    image_dataset_from_csv ex_pandas ex_utils "train.csv" (KeyStr "file")
      (KeyStr "y") "images" (Some "binary") "rgb" None (4, 4) false None None None
      "bilinear" false = Ok (Single ds)
    /\ file_paths ds = ["images/small.png"; "images/wide.png"; "images/large.png"]
    /\ image_dataset_from_csv ex_pandas ex_utils "train.csv" (KeyStr "file")
         (KeyStr "y") "images/" (Some "binary") "rgb" None (4, 4) false None None
         None "bilinear" false = Ok (Single ds).
Proof.
  eexists. split; [vm_compute; reflexivity|]. split; [reflexivity|].
  destruct (@trailing_slash_of_image_dir_is_optional ex_pandas ex_utils
              ex_train_frame "train.csv" (KeyStr "file") (KeyStr "y") "images"
              (Some "binary") "rgb" None (4, 4) false None None None "bilinear"
              false ltac:(discriminate) eq_refl) as (_ & Hcsv & _).
  change (String.append "images" "/") with "images/" in Hcsv.
  rewrite <- Hcsv. vm_compute. reflexivity.
Defined.

(** X11.  A dataset returned by [image_dataset_from_csv] comes from a file
    that was read, a path column given as one string, and a label column
    given as a string or a list of strings; its label mode is one of 'int',
    'categorical', 'multi_label' and 'binary' (never None, never
    'multi_class'); and every dataset it returns is what the delegate builds
    from the column's values prefixed with the directory. *)
Theorem csv_calls_reduce_to_paths_and_labels
    (P : Pandas) (U : Utils) (csv_path : string) (path_col label_col : py_key)
    (image_dir : string) (label_mode : option string) (color_mode : string)
    (batch_size : option Z) (image_size : Z * Z) (shuffle_flag : bool)
    (seed : option Z) (validation_split : option Q) (subset : option string)
    (interpolation : string) (crop_to_aspect_ratio : bool) (d : datasets) :
  image_dataset_from_csv P U csv_path path_col label_col image_dir label_mode
    color_mode batch_size image_size shuffle_flag seed validation_split subset
    interpolation crop_to_aspect_ratio = Ok d ->
  exists (df : DataFrame P) (name m prefix : string) (values : list string)
         (labels : Np.ndarray Z),
    read_csv P csv_path = Ok df
    /\ path_col = KeyStr name /\ label_col <> KeyOther
    /\ label_mode = Some m /\ accepted_mode m
    /\ path_values P df name = Ok values
    /\ label_values P df label_col = Ok labels
    /\ (prefix = image_dir \/ prefix = (image_dir ++ "/")%string)
    /\ image_dataset_from_paths_and_labels U (map (String.append prefix) values)
         (PySequence labels) label_mode color_mode batch_size image_size
         shuffle_flag seed validation_split subset interpolation
         crop_to_aspect_ratio = Ok d.
Proof.
  unfold image_dataset_from_csv, image_dataset_from_dataframe. intros H.
  bind_inv H. bind_inv H. bind_inv H. bind_inv H. bind_inv H.
  destruct path_col as [name| |]; try discriminate. apply Ok_inj in Hx0. subst x0.
  apply raise_if_ok in Hx1.
  pose proof H as Hbuilt. apply built_datasets_inversion in Hbuilt.
  destruct Hbuilt as (_ & m & _ & _ & _ & _ & _ & Hm & Hacc & _).
  exists x, name, m,
    (if negb (image_dir =? "")%string && negb (ends_with_slash image_dir)
     then (image_dir ++ "/")%string else image_dir), x2, x3.
  repeat (split; [first [assumption | reflexivity]|]).
  split; [destruct label_col; [discriminate | discriminate | discriminate]|].
  repeat (split; [first [assumption | reflexivity]|]).
  split; [|exact H].
  destruct (negb (image_dir =? "")%string && negb (ends_with_slash image_dir));
    [right | left]; reflexivity.
Qed.

Lemma csv_calls_reduce_to_paths_and_labels_witness :
  exists d df labels,
    image_dataset_from_csv ex_pandas ex_utils "train.csv" (KeyStr "file")
      (KeyList ["a"; "b"]) "" (Some "multi_label") "rgb" None (4, 4) false None
      None None "bilinear" false = Ok d
    /\ read_csv ex_pandas "train.csv" = Ok df
    /\ label_values ex_pandas df (KeyList ["a"; "b"]) = Ok labels.
Proof.
  assert (H : exists d,
             image_dataset_from_csv ex_pandas ex_utils "train.csv" (KeyStr "file")
               (KeyList ["a"; "b"]) "" (Some "multi_label") "rgb" None (4, 4)
               false None None None "bilinear" false = Ok d)
    by (eexists; vm_compute; reflexivity).
  destruct H as [d H].
  destruct (@csv_calls_reduce_to_paths_and_labels ex_pandas ex_utils "train.csv"
              (KeyStr "file") (KeyList ["a"; "b"]) "" (Some "multi_label") "rgb"
              None (4, 4) false None None None "bilinear" false d H)
    as (df & name & m & prefix & values & labels & Hread & _ & _ & _ & _ & _
        & Hlabels & _).
  exists d, df, labels. split; [exact H|]. split; [exact Hread | exact Hlabels].
Defined.

(** ** The choice of a decoder *)

Lemma prefix_spec (needle hay : string) :
  String.prefix needle hay = true <-> exists b, hay = (needle ++ b)%string.
Proof.
  revert hay. induction needle as [|x needle IH]; intros hay.
  - split; [intros _; exists hay; reflexivity | destruct hay; reflexivity].
  - destruct hay as [|y hay]; cbn [String.prefix String.append].
    + split; [discriminate | intros [b Hb]; discriminate].
    + destruct (ascii_dec x y) as [->|Hxy].
      * rewrite IH. split; intros [b Hb]; exists b; congruence.
      * split; [discriminate | intros [b Hb]; congruence].
Qed.

Lemma contains_spec (needle hay : string) :
  contains needle hay = true <-> occurs needle hay.
Proof.
  unfold occurs. induction hay as [|y hay IH]; cbn [contains].
  - destruct (String.prefix needle "") eqn:E.
    + split; [intros _ | reflexivity].
      apply prefix_spec in E. destruct E as [b Hb]. exists "", b. exact Hb.
    + split; [discriminate|]. intros (a & b & Hab).
      destruct a; [|discriminate]. cbn [String.append] in Hab.
      assert (String.prefix needle "" = true) by (apply prefix_spec; eauto).
      congruence.
  - destruct (String.prefix needle (String y hay)) eqn:E.
    + split; [intros _ | reflexivity].
      apply prefix_spec in E. destruct E as [b Hb]. exists "", b. exact Hb.
    + rewrite IH. split.
      * intros (a & b & ->). exists (String y a), b. reflexivity.
      * intros (a & b & Hab). destruct a as [|z a].
        -- cbn [String.append] in Hab.
           assert (String.prefix needle (String y hay) = true)
             by (apply prefix_spec; eauto).
           congruence.
        -- cbn [String.append] in Hab. injection Hab as _ ->. eauto.
Qed.

Lemma regex_full_match_ext_spec (path ext : string) :
  regex_full_match_ext path ext = true
  <-> has_newline path = false /\ occurs ext path.
Proof.
  unfold regex_full_match_ext. rewrite andb_true_iff, negb_true_iff, contains_spec.
  reflexivity.
Qed.

Lemma regex_full_match_ext_false (path ext : string) :
  regex_full_match_ext path ext = false
  <-> has_newline path = true \/ ~ occurs ext path.
Proof.
  rewrite <- not_true_iff_false, regex_full_match_ext_spec.
  destruct (has_newline path); split.
  - intros _. now left.
  - intros _ [H _]. discriminate.
  - intros H. right. intros Ho. apply H. now split.
  - intros [H | H] [_ Ho]; [discriminate | contradiction].
Qed.

Lemma branch_of_spec (path : string) :
  match branch_of path with
  | DicomBranch => has_newline path = false /\ occurs ".dcm" path
  | NpzBranch =>
      has_newline path = false /\ ~ occurs ".dcm" path /\ occurs ".npz" path
  | NpyBranch =>
      has_newline path = false /\ ~ occurs ".dcm" path
      /\ ~ occurs ".npz" path /\ occurs ".npy" path
  | RasterBranch =>
      has_newline path = true
      \/ (~ occurs ".dcm" path /\ ~ occurs ".npz" path /\ ~ occurs ".npy" path)
  end.
Proof.
  unfold branch_of.
  destruct (regex_full_match_ext path ".dcm") eqn:Hd;
    [now apply regex_full_match_ext_spec in Hd|].
  apply regex_full_match_ext_false in Hd.
  destruct (regex_full_match_ext path ".npz") eqn:Hz.
  { apply regex_full_match_ext_spec in Hz. destruct Hz as [Hn Hz].
    destruct Hd as [Hd | Hd]; [congruence | tauto]. }
  apply regex_full_match_ext_false in Hz.
  destruct (regex_full_match_ext path ".npy") eqn:Hy.
  { apply regex_full_match_ext_spec in Hy. destruct Hy as [Hn Hy].
    destruct Hd as [Hd | Hd]; [congruence|].
    destruct Hz as [Hz | Hz]; [congruence | tauto]. }
  apply regex_full_match_ext_false in Hy.
  destruct (has_newline path); [now left | right].
  destruct Hd as [Hd | Hd]; [discriminate|].
  destruct Hz as [Hz | Hz]; [discriminate|].
  destruct Hy as [Hy | Hy]; [discriminate | tauto].
Qed.

(** The branch of a path, from the strings that occur in it. *)
Lemma branch_of_occurs (path : string) :
  (has_newline path = false -> occurs ".dcm" path -> branch_of path = DicomBranch)
  /\ (has_newline path = false -> ~ occurs ".dcm" path -> occurs ".npz" path ->
      branch_of path = NpzBranch)
  /\ (has_newline path = false -> ~ occurs ".dcm" path -> ~ occurs ".npz" path ->
      occurs ".npy" path -> branch_of path = NpyBranch)
  /\ (has_newline path = true
      \/ (~ occurs ".dcm" path /\ ~ occurs ".npz" path /\ ~ occurs ".npy" path) ->
      branch_of path = RasterBranch).
Proof.
  pose proof (branch_of_spec path) as Hspec.
  destruct (branch_of path); repeat split; try reflexivity; intros;
    repeat match goal with
           | H : _ /\ _ |- _ => destruct H
           | H : _ \/ _ |- _ => destruct H
           end;
    try congruence; try contradiction.
Qed.

(** X12.  [load_image] chooses its decoder by the first of '.dcm', '.npz'
    and '.npy' that occurs anywhere in the path, as an extension or not, in
    this order and in this spelling; a path that holds none of them, or that
    holds a newline, goes to the raster decoder.  For a path without a
    newline: where '.dcm' occurs the file is decoded as DICOM and nothing
    else is read; where '.dcm' does not occur and '.npz' does, it is read as
    an archive at 'arr_0', also when '.npy' occurs as well, so that a plain
    array under such a path fails at the indexing; where only '.npy' of the
    three occurs it is read as a plain array. *)
Theorem decoder_is_chosen_by_substring
    (F : Files) (mode : TF.execution) (path : string) (image_size : Z * Z)
    (num_channels : Z) (interpolation : string) (crop : bool) :
  (has_newline path = false -> occurs ".dcm" path ->
   load_image F mode path image_size num_channels interpolation crop
   = (img <- decode_dicom_image F path ;;
      frames <- TF.shape0 img ;;
      raise_if (negb (frames =? 1)%nat) (InvalidArgumentError msg_multiframe_dicom) ;;;
      resize_step F mode false (dicom_channels (TF.squeeze0 img) num_channels)
                  image_size num_channels interpolation crop)
   /\ forall e, decode_dicom_image F path = Raise e ->
                load_image F mode path image_size num_channels interpolation crop
                = Raise e)
  /\ (has_newline path = false -> ~ occurs ".dcm" path -> occurs ".npz" path ->
      load_image F mode path image_size num_channels interpolation crop
      = (img <- TF.numpy_function (decode_npz_image F path num_channels) ;;
         resize_step F mode true img image_size num_channels interpolation crop)
      /\ forall a, np_load F path = Ok (NpyArray a) ->
                   load_image F mode path image_size num_channels interpolation crop
                   = Raise IndexError)
  /\ (has_newline path = false -> ~ occurs ".dcm" path -> ~ occurs ".npz" path ->
      occurs ".npy" path ->
      load_image F mode path image_size num_channels interpolation crop
      = (img <- TF.numpy_function (decode_npy_image F path num_channels) ;;
         resize_step F mode true img image_size num_channels interpolation crop)
      /\ forall entries, np_load F path = Ok (NpzFile entries) ->
                         load_image F mode path image_size num_channels
                                    interpolation crop
                         = Raise (AttributeError "astype"))
  /\ (has_newline path = true
      \/ (~ occurs ".dcm" path /\ ~ occurs ".npz" path /\ ~ occurs ".npy" path) ->
      load_image F mode path image_size num_channels interpolation crop
      = (img <- decode_image F path num_channels ;;
         resize_step F mode false img image_size num_channels interpolation crop)
      /\ forall e, decode_image F path num_channels = Raise e ->
                   load_image F mode path image_size num_channels interpolation crop
                   = Raise e).
Proof.
  destruct (branch_of_occurs path) as (Hdicom & Hnpz & Hnpy & Hraster).
  split; [|split; [|split]].
  - intros Hn Hd. rewrite load_image_branches, (Hdicom Hn Hd).
    split; [reflexivity|]. intros e He. now rewrite He.
  - intros Hn Hd Hz. rewrite load_image_branches, (Hnpz Hn Hd Hz).
    split; [reflexivity|]. intros a Ha. unfold decode_npz_image. now rewrite Ha.
  - intros Hn Hd Hz Hy. rewrite load_image_branches, (Hnpy Hn Hd Hz Hy).
    split; [reflexivity|]. intros entries Ha. unfold decode_npy_image. now rewrite Ha.
  - intros Hnone. rewrite load_image_branches, (Hraster Hnone).
    split; [reflexivity|]. intros e He. now rewrite He.
Qed.

(** The theorem on a file system where every path decodes as a plain array
    and as a raster image and none as DICOM: a raster file inside a directory
    named [scans.dcm] fails in the DICOM decoder, and a plain array under a
    path that holds '.npz' before '.npy' fails at the indexing of the archive
    reader. *)
Lemma decoder_is_chosen_by_substring_witness :
  load_image ex_files_no_dicom TF.Graph "scans.dcm/small.png" (4, 4) 3 "bilinear"
             false
  = Raise (OpError (msg_utils "not a DICOM file"))
  /\ load_image ex_files_no_dicom TF.Graph "arrays.npz/plane.npy" (4, 4) 3
                "bilinear" false
     = Raise IndexError.
Proof.
  split.
  - destruct (@decoder_is_chosen_by_substring ex_files_no_dicom TF.Graph
                "scans.dcm/small.png" (4, 4) 3 "bilinear" false) as (H & _).
    destruct H as [_ H]; [reflexivity | exists "scans", "/small.png"; reflexivity|].
    apply H. reflexivity.
  - destruct (@decoder_is_chosen_by_substring ex_files_no_dicom TF.Graph
                "arrays.npz/plane.npy" (4, 4) 3 "bilinear" false) as (_ & H & _).
    destruct H as [_ H].
    + reflexivity.
    + intros Ho. apply contains_spec in Ho. discriminate.
    + exists "arrays", "/plane.npy". reflexivity.
    + eapply H. reflexivity.
Defined.

(** ** Colour DICOM files *)

(** X13.  A colour DICOM file is never loaded with the channel counts of the
    entry points.  The DICOM branch replicates the decoded frame whatever its
    own channel count, so a single frame of [c >= 2] channels reaches
    [set_shape] with [c], [3c] or [4c] channels for [num_channels] 1, 3 or 4,
    never with [num_channels]: the load ends in the shape error, the
    InvalidArgumentError of the run in the pipeline and the ValueError of
    [set_shape] when called eagerly, and a pass over a dataset that holds the
    path does not complete. *)
Theorem colour_dicom_is_never_loaded
    (F : Files) (mode : TF.execution) (path : string) (image_size : Z * Z)
    (num_channels : Z) (interpolation : string) (t : Np.ndarray sample)
    (h w c : nat) :
  branch_of path = DicomBranch ->
  decode_dicom_image F path = Ok t ->
  Np.shape t = [1%nat; h; w; c] ->
  (0 < h)%nat -> (0 < w)%nat -> (2 <= c)%nat ->
  0 < fst image_size -> 0 < snd image_size ->
  num_channels = 1 \/ num_channels = 3 \/ num_channels = 4 ->
  Z.of_nat (dicom_channel_count num_channels c) <> num_channels
  /\ load_image F mode path image_size num_channels interpolation false
     = Raise (TF.shape_error mode)
  /\ forall (G : Engine) (paths : list string),
       In path paths ->
       exists e,
         iterate F G (map_load_image (from_tensor_slices paths) image_size
                                     num_channels interpolation false)
         = Raise e.
Proof.
  intros Hbranch Hdecode Hshape Hh Hw Hc H1 H2 Hnc.
  assert (Hne : Z.of_nat (dicom_channel_count num_channels c) <> num_channels).
  { unfold dicom_channel_count. destruct Hnc as [-> | [-> | ->]]; cbn; lia. }
  assert (Hload : forall mode',
             load_image F mode' path image_size num_channels interpolation false
             = Raise (TF.shape_error mode')).
  { intros mode'.
    apply (@dicom_frame_load F mode' path image_size num_channels interpolation
             t h w c Hbranch Hdecode Hshape Hh Hw ltac:(lia) H1 H2).
    exact Hne. }
  split; [exact Hne|]. split; [apply Hload|].
  intros G paths Hin. rewrite iterate_images.
  apply (@traverse_in_raise _ _ _ paths path (TF.shape_error TF.Graph) Hin).
  now rewrite Hload.
Qed.

Lemma colour_dicom_is_never_loaded_witness :
  load_image ex_files TF.Graph "colour.dcm" (4, 4) 1 "bilinear" false
  = Raise (InvalidArgumentError msg_incompatible_shape)
  /\ load_image ex_files TF.Eager "colour.dcm" (4, 4) 3 "bilinear" false
     = Raise (ValueError msg_incompatible_shape)
  /\ exists e,
       iterate ex_files ex_engine
         (map_load_image (from_tensor_slices ["gray.dcm"; "colour.dcm"]) (4, 4) 3
                         "bilinear" false) = Raise e.
Proof.
  split; [|split].
  - apply (@colour_dicom_is_never_loaded ex_files TF.Graph "colour.dcm" (4, 4) 1
             "bilinear" _ 2 2 3 eq_refl eq_refl eq_refl
             ltac:(lia) ltac:(lia) ltac:(lia) ltac:(reflexivity) ltac:(reflexivity)
             (or_introl eq_refl)).
  - apply (@colour_dicom_is_never_loaded ex_files TF.Eager "colour.dcm" (4, 4) 3
             "bilinear" _ 2 2 3 eq_refl eq_refl eq_refl
             ltac:(lia) ltac:(lia) ltac:(lia) ltac:(reflexivity) ltac:(reflexivity)
             (or_intror (or_introl eq_refl))).
  - destruct (@colour_dicom_is_never_loaded ex_files TF.Graph "colour.dcm" (4, 4) 3
                "bilinear" _ 2 2 3 eq_refl eq_refl eq_refl
                ltac:(lia) ltac:(lia) ltac:(lia) ltac:(reflexivity)
                ltac:(reflexivity) (or_intror (or_introl eq_refl)))
      as (_ & _ & Hpass).
    apply (Hpass ex_engine ["gray.dcm"; "colour.dcm"]). right. left. reflexivity.
Defined.

(** ** Array files *)

(** X14.  A path of the .npz branch is read as an archive at its entry
    'arr_0' and at nothing else: without that entry the load fails with the
    KeyError of the lookup, a plain array stored under the path fails at the
    indexing, and the other entries of the archive do not change the result.
    A path of the .npy branch that holds an archive fails at [astype]. *)
Theorem npz_archives_are_read_at_arr_0
    (F : Files) (mode : TF.execution) (path : string) (image_size : Z * Z)
    (num_channels : Z) (interpolation : string) (crop : bool) (f : np_file) :
  np_load F path = Ok f ->
  (branch_of path = NpzBranch ->
   match f with
   | NpzFile entries =>
       match lookup "arr_0" entries with
       | None =>
           load_image F mode path image_size num_channels interpolation crop
           = Raise (KeyError "arr_0")
       | Some a =>
           forall F' : Files,
             np_load F' path = Ok (NpzFile [("arr_0", a)]) ->
             crop_or_pad_takes_method F' = crop_or_pad_takes_method F ->
             load_image F' mode path image_size num_channels interpolation crop
             = load_image F mode path image_size num_channels interpolation crop
       end
   | NpyArray _ =>
       load_image F mode path image_size num_channels interpolation crop
       = Raise IndexError
   end)
  /\ (branch_of path = NpyBranch ->
      match f with
      | NpzFile _ =>
          load_image F mode path image_size num_channels interpolation crop
          = Raise (AttributeError "astype")
      | NpyArray a =>
          forall F' : Files,
            np_load F' path = Ok (NpyArray a) ->
            crop_or_pad_takes_method F' = crop_or_pad_takes_method F ->
            load_image F' mode path image_size num_channels interpolation crop
            = load_image F mode path image_size num_channels interpolation crop
      end).
Proof.
  intros Hload. split; intros Hbranch.
  - destruct f as [entries | a].
    + destruct (lookup "arr_0" entries) as [a|] eqn:Hentry.
      * intros F' Hload' Hflag.
        rewrite !load_image_branches, Hbranch. unfold decode_npz_image, resize_step.
        rewrite Hload, Hload', Hflag. cbn [bind lookup String.eqb Ascii.eqb Bool.eqb].
        rewrite Hentry. reflexivity.
      * rewrite load_image_branches, Hbranch. unfold decode_npz_image.
        rewrite Hload. cbn [bind]. rewrite Hentry. reflexivity.
    + rewrite load_image_branches, Hbranch. unfold decode_npz_image.
      rewrite Hload. reflexivity.
  - destruct f as [entries | a].
    + rewrite load_image_branches, Hbranch. unfold decode_npy_image.
      rewrite Hload. reflexivity.
    + intros F' Hload' Hflag.
      rewrite !load_image_branches, Hbranch. unfold decode_npy_image, resize_step.
      rewrite Hload, Hload', Hflag. reflexivity.
Qed.

Lemma npz_archives_are_read_at_arr_0_witness :
  let named :=
    mk_files (decode_dicom_image ex_files)
             (fun _ => Ok (NpzFile [("image",
                                     Np.mk_ndarray [1; 2]%nat [NpInt 0; NpInt 1])]))
             (decode_image ex_files) true in
  load_image named TF.Graph "named.npz" (4, 4) 1 "bilinear" false
  = Raise (KeyError "arr_0").
Proof.
  intros named.
  destruct (@npz_archives_are_read_at_arr_0 named TF.Graph "named.npz" (4, 4) 1
              "bilinear" false _ eq_refl) as [H _].
  exact (H eq_refl).
Defined.

(** ** A pass over a returned dataset *)

Lemma pass_cons (e : element) (s : list (result element)) (es : list element) :
  pass s = Ok es -> pass (Ok e :: s) = Ok (e :: es).
Proof. unfold pass. cbn [traverse bind]. now intros ->. Qed.

Lemma pass_permutation (s s' : list (result element)) :
  Permutation s s' ->
  forall es', pass s' = Ok es' -> exists es, pass s = Ok es /\ Permutation es es'.
Proof.
  induction 1 as [|x l l' Hp IH|x y l|l l' l'' Hp1 IH1 Hp2 IH2]; intros es' H.
  - exists []. split; [reflexivity|]. apply Ok_inj in H. subst es'. constructor.
  - apply pass_cons_ok in H. destruct H as (e & es'' & -> & Hl' & ->).
    destruct (IH _ Hl') as (es & Hl & Hperm).
    exists (e :: es). split; [now apply pass_cons | now constructor].
  - apply pass_cons_ok in H. destruct H as (e1 & es1 & -> & H & ->).
    apply pass_cons_ok in H. destruct H as (e2 & es2 & -> & H & ->).
    exists (e2 :: e1 :: es2). split; [now apply pass_cons, pass_cons | constructor].
  - destruct (IH2 _ H) as (es2 & H2 & Hperm2).
    destruct (IH1 _ H2) as (es1 & H1 & Hperm1).
    exists es1. split; [assumption|]. now transitivity es2.
Qed.

Lemma chunks_concat {A : Type} (n : nat) (l : list A) :
  (0 < n)%nat -> concat (Np.chunks n l) = l.
Proof.
  intros Hn.
  assert (H : forall k (l : list A), (length l <= k)%nat -> concat (Np.chunks n l) = l).
  { induction k as [|k IH]; intros l0 Hl.
    - destruct l0; [reflexivity | simpl in Hl; lia].
    - destruct l0 as [|x l0]; [reflexivity|].
      rewrite chunks_cons by assumption. cbn [concat].
      rewrite IH; [apply firstn_skipn|].
      rewrite length_skipn. cbn [length] in Hl |- *. lia. }
  apply (H (length l)). lia.
Qed.

(** A pass over batches is a pass over the samples inside them. *)
Lemma pass_batches (cs : list (list (result element))) (bs : list element) :
  pass (map (fun chunk => es <- traverse (fun r => r) chunk ;; Ok (EBatch es)) cs)
  = Ok bs ->
  pass (concat cs) = Ok (unbatched bs)
  /\ flat_map element_paths bs = flat_map element_paths (unbatched bs).
Proof.
  revert bs. induction cs as [|c cs IH]; intros bs H.
  - apply Ok_inj in H. subst bs. split; reflexivity.
  - cbn [map] in H. apply pass_cons_ok in H.
    destruct H as (e & bs' & He & Hcs & ->). bind_inv He. apply Ok_inj in He.
    subst e. destruct (IH _ Hcs) as [Hpass Hpaths].
    cbn [concat unbatched flat_map element_paths]. fold (unbatched bs').
    split.
    + now apply pass_app.
    + rewrite flat_map_app. now rewrite Hpaths.
Qed.

(** The pairs of the unshuffled, unbatched pipeline: one per label row, in
    the order of the paths. *)
Lemma pass_pairs (F : Files) (G : Engine) (paths : list string)
    (image_size : Z * Z) (num_channels : Z) (interpolation : string) (crop : bool)
    (labels : label_list) (label_mode : string) (num_classes : Z)
    (es : list element) :
  iterate F G
    (prefetch (zip (map_load_image (from_tensor_slices paths) image_size
                      num_channels interpolation crop)
                   (labels_to_dataset labels label_mode num_classes))) = Ok es ->
  flat_map element_paths es = firstn (length (label_rows labels)) paths
  /\ unbatched es = es.
Proof.
  unfold iterate. cbn [stream]. generalize (label_rows labels) as rows.
  revert es. induction paths as [|p paths IH]; intros es rows H.
  - cbn in H. apply Ok_inj in H. subst es. now rewrite firstn_nil.
  - destruct rows as [|r rows].
    + cbn in H. apply Ok_inj in H. subst es. split; reflexivity.
    + cbn [map combine] in H. apply pass_cons_ok in H.
      destruct H as (e & es' & He & Hrest & ->).
      cbn [fst snd bind] in He. bind_inv He. bind_inv Hx. apply Ok_inj in Hx.
      apply Ok_inj in He. subst e x.
      destruct (IH _ _ Hrest) as [IH1 IH2].
      cbn [flat_map element_paths length firstn app unbatched].
      fold (unbatched es'). split; [now rewrite IH1 | now rewrite IH2].
Qed.

Section Passes.

Variable F : Files.
Variable G : Engine.
Hypothesis Hperm : shuffles_by_permuting G.

(** The shuffle and batch stages that the entry point puts around the pairs
    neither lose nor repeat a sample. *)
Lemma pass_finish (inner : Dataset) (batch_size : option Z) (shuffle_on : bool)
    (seed : Z) (es : list element) :
  (forall b, batch_size = Some b -> 0 < b) ->
  iterate F G
    match batch_size with
    | Some b => batch (if shuffle_on then shuffle inner (b * 8) seed else inner) b
    | None => if shuffle_on then shuffle inner 1024 seed else inner
    end = Ok es ->
  exists es0,
    iterate F G inner = Ok es0
    /\ Permutation (flat_map element_paths es) (flat_map element_paths es0)
    /\ (shuffle_on = false -> flat_map element_paths es = flat_map element_paths es0).
Proof.
  intros Hb H.
  assert (Hshuffle : forall buffer es1,
             iterate F G (if shuffle_on then shuffle inner buffer seed else inner)
             = Ok es1 ->
             exists es0,
               iterate F G inner = Ok es0
               /\ Permutation es1 es0 /\ (shuffle_on = false -> es1 = es0)).
  { intros buffer es1 H1. destruct shuffle_on.
    - unfold iterate in H1. cbn [stream] in H1.
      destruct (@pass_permutation (stream F G inner)
                  (shuffled G buffer seed (stream F G inner))
                  (Permutation_sym (Hperm buffer seed (stream F G inner))) _ H1)
        as (es0 & H0 & Hp).
      exists es0. split; [exact H0|]. split; [now symmetry | discriminate].
    - exists es1. split; [exact H1|]. split; [reflexivity | reflexivity]. }
  destruct batch_size as [b|].
  - unfold iterate in H. cbn [stream] in H. apply pass_batches in H.
    destruct H as [Hpass Hpaths].
    rewrite chunks_concat in Hpass by (specialize (Hb b eq_refl); lia).
    destruct (Hshuffle _ _ Hpass) as (es0 & H0 & Hp & Heq).
    exists es0. split; [exact H0|]. rewrite Hpaths. split.
    + now apply Permutation_flat_map.
    + intros E. now rewrite (Heq E).
  - destruct (Hshuffle _ _ H) as (es0 & H0 & Hp & Heq).
    exists es0. split; [exact H0|]. split.
    + now apply Permutation_flat_map.
    + intros E. now rewrite (Heq E).
Qed.

End Passes.

(** What the inversion of a successful call says about one returned dataset:
    its pipeline is the pairs of its files and label rows, shuffled or not,
    batched or not. *)
Lemma returned_pipeline_shape
    (U : Utils) (image_paths : list string) (labels : py_labels)
    (label_mode : option string) (color_mode : string) (batch_size : option Z)
    (image_size : Z * Z) (shuffle_flag : bool) (seed : option Z)
    (validation_split : option Q) (subset : option string)
    (interpolation : string) (crop_to_aspect_ratio : bool) (d : datasets)
    (h : dataset_handle) :
  image_dataset_from_paths_and_labels U image_paths labels label_mode color_mode
    batch_size image_size shuffle_flag seed validation_split subset
    interpolation crop_to_aspect_ratio = Ok d ->
  In h (handles d) ->
  exists (nc n : Z) (interpolation' m : string) (ls : label_list)
         (shuffle_on : bool) (s : Z),
    pipeline h
    = match batch_size with
      | Some b =>
          batch (if shuffle_on
                 then shuffle
                        (prefetch
                           (zip (map_load_image (from_tensor_slices (file_paths h))
                                   image_size nc interpolation'
                                   crop_to_aspect_ratio)
                                (labels_to_dataset ls m n))) (b * 8) s
                 else prefetch
                        (zip (map_load_image (from_tensor_slices (file_paths h))
                                image_size nc interpolation' crop_to_aspect_ratio)
                             (labels_to_dataset ls m n))) b
      | None =>
          if shuffle_on
          then shuffle
                 (prefetch
                    (zip (map_load_image (from_tensor_slices (file_paths h))
                            image_size nc interpolation' crop_to_aspect_ratio)
                         (labels_to_dataset ls m n))) 1024 s
          else prefetch
                 (zip (map_load_image (from_tensor_slices (file_paths h))
                         image_size nc interpolation' crop_to_aspect_ratio)
                      (labels_to_dataset ls m n))
      end
    /\ label_count (pipeline h) = length (label_rows ls)
    /\ (shuffle_stages (pipeline h) = [] -> shuffle_on = false).
Proof.
  intros H Hin. apply built_datasets_inversion in H.
  destruct H as (a & m & labels' & n & nc & i & _ & _ & _ & _ & _ & _ & _ & H).
  cbv zeta in H.
  assert (Hgen : forall (ls : label_list) (shuffle_on : bool),
             pipeline h
             = match batch_size with
               | Some b =>
                   batch (if shuffle_on
                          then shuffle
                                 (prefetch
                                    (zip (map_load_image
                                            (from_tensor_slices (file_paths h))
                                            image_size nc i crop_to_aspect_ratio)
                                         (labels_to_dataset ls m n))) (b * 8)
                                 match seed with
                                 | Some s => s
                                 | None => randint U
                                 end
                          else prefetch
                                 (zip (map_load_image
                                         (from_tensor_slices (file_paths h))
                                         image_size nc i crop_to_aspect_ratio)
                                      (labels_to_dataset ls m n))) b
               | None =>
                   if shuffle_on
                   then shuffle
                          (prefetch
                             (zip (map_load_image
                                     (from_tensor_slices (file_paths h))
                                     image_size nc i crop_to_aspect_ratio)
                                  (labels_to_dataset ls m n))) 1024
                          match seed with
                          | Some s => s
                          | None => randint U
                          end
                   else prefetch
                          (zip (map_load_image
                                  (from_tensor_slices (file_paths h))
                                  image_size nc i crop_to_aspect_ratio)
                               (labels_to_dataset ls m n))
               end ->
             label_count (pipeline h) = length (label_rows ls)
             /\ (shuffle_stages (pipeline h) = [] -> shuffle_on = false)).
  { intros ls shuffle_on ->. destruct batch_size, shuffle_on; cbn;
      (split; [reflexivity|]); first [discriminate | reflexivity]. }
  destruct d as [ds | train val]; cbn [handles In] in Hin.
  - destruct Hin as [<- | []]. destruct H as (_ & ls & _ & _ & Hp).
    exists nc, n, i, m, ls, shuffle_flag,
      match seed with Some s => s | None => randint U end.
    split; [exact Hp | exact (Hgen ls shuffle_flag Hp)].
  - destruct H as (_ & lt & lv & _ & _ & _ & _ & Ht & Hv).
    destruct Hin as [<- | [<- | []]].
    + exists nc, n, i, m, lt, shuffle_flag,
        match seed with Some s => s | None => randint U end.
      split; [exact Ht | exact (Hgen lt shuffle_flag Ht)].
    + exists nc, n, i, m, lv, false,
        match seed with Some s => s | None => randint U end.
      split; [exact Hv | exact (Hgen lv false Hv)].
Qed.

(** X15.  A successful pass over a returned dataset, under an engine whose
    shuffle stages release each element once, yields the files of
    [file_paths] that have a label row, each exactly once and no other path:
    in the order of [file_paths] when the pipeline has no shuffle stage, in
    some order otherwise.  The number of labels is not compared with the
    number of paths: files beyond the last label row are left out without an
    error. *)
Theorem a_pass_yields_each_labelled_file_once
    (U : Utils) (F : Files) (G : Engine) (image_paths : list string)
    (labels : py_labels) (label_mode : option string) (color_mode : string)
    (batch_size : option Z) (image_size : Z * Z) (shuffle_flag : bool)
    (seed : option Z) (validation_split : option Q) (subset : option string)
    (interpolation : string) (crop_to_aspect_ratio : bool) (d : datasets)
    (h : dataset_handle) (es : list element) :
  image_dataset_from_paths_and_labels U image_paths labels label_mode color_mode
    batch_size image_size shuffle_flag seed validation_split subset
    interpolation crop_to_aspect_ratio = Ok d ->
  In h (handles d) ->
  shuffles_by_permuting G ->
  (forall b, batch_size = Some b -> 0 < b) ->
  iterate F G (pipeline h) = Ok es ->
  Permutation (flat_map element_paths es)
              (firstn (label_count (pipeline h)) (file_paths h))
  /\ (shuffle_stages (pipeline h) = [] ->
      flat_map element_paths es
      = firstn (label_count (pipeline h)) (file_paths h)).
Proof.
  intros H Hin Hperm Hb Hes.
  destruct (@returned_pipeline_shape _ _ _ _ _ _ _ _ _ _ _ _ _ _ h H Hin)
    as (nc & n & i & m & ls & shuffle_on & s & Hp & Hcount & Hnone).
  rewrite Hcount. rewrite Hp in Hes.
  destruct (@pass_finish F G Hperm _ _ _ _ _ Hb Hes) as (es0 & H0 & Hpaths & Heq).
  apply pass_pairs in H0. destruct H0 as [H0 _]. rewrite H0 in Hpaths, Heq.
  split; [exact Hpaths|]. intros Hno. apply Heq, Hnone, Hno.
Qed.

Lemma a_pass_yields_each_labelled_file_once_witness :
  exists ds es,
    image_dataset_from_paths_and_labels ex_utils ["small.png"; "wide.png"; "large.png"]
      (PySequence (vector [0; 1])) (Some "int") "rgb" (Some 2) (4, 4) true
      (Some 7) None None "bilinear" false = Ok (Single ds)
    /\ iterate ex_files ex_engine (pipeline ds) = Ok es
    /\ file_paths ds = ["small.png"; "wide.png"; "large.png"]
    /\ Permutation (flat_map element_paths es) ["small.png"; "wide.png"].
Proof.
  eexists. eexists. split; [vm_compute; reflexivity|].
  split; [vm_compute; reflexivity|]. split; [reflexivity|].
  refine (proj1 (@a_pass_yields_each_labelled_file_once ex_utils ex_files ex_engine
                   ["small.png"; "wide.png"; "large.png"]
                   (PySequence (vector [0; 1])) (Some "int") "rgb" (Some 2) (4, 4)
                   true (Some 7) None None "bilinear" false _ _ _
                   ltac:(vm_compute; reflexivity) (or_introl eq_refl) _ _
                   ltac:(vm_compute; reflexivity))).
  - intros A b s l. apply Permutation_sym, Permutation_rev.
  - intros b Hb. injection Hb as <-. reflexivity.
Defined.

(** ** Batches *)

Lemma pass_app_inv (s1 s2 : list (result element)) (es : list element) :
  pass (s1 ++ s2) = Ok es ->
  exists e1 e2, pass s1 = Ok e1 /\ pass s2 = Ok e2 /\ es = e1 ++ e2.
Proof.
  revert es. induction s1 as [|r s1 IH]; intros es H.
  - exists [], es. split; [reflexivity | split; [exact H | reflexivity]].
  - cbn [app] in H. apply pass_cons_ok in H. destruct H as (e & es' & -> & H & ->).
    destruct (IH _ H) as (e1 & e2 & H1 & H2 & ->).
    exists (e :: e1), e2. split; [now apply pass_cons|]. split; [exact H2 | reflexivity].
Qed.

Lemma pass_length (s : list (result element)) (es : list element) :
  pass s = Ok es -> length es = length s.
Proof.
  revert es. induction s as [|r s IH]; intros es H.
  - apply Ok_inj in H. now subst es.
  - apply pass_cons_ok in H. destruct H as (e & es' & _ & H & ->).
    cbn [length]. now rewrite (IH _ H).
Qed.

Lemma split_at_min {A : Type} (n : nat) (l l1 l2 : list A) :
  l = l1 ++ l2 -> length l1 = Nat.min n (length l) ->
  l1 = firstn n l /\ l2 = skipn n l.
Proof.
  intros -> Hlen. rewrite length_app in Hlen.
  rewrite firstn_app, skipn_app.
  destruct (Nat.le_gt_cases n (length l1)) as [Hle | Hgt].
  - replace (n - length l1)%nat with 0%nat by lia.
    rewrite firstn_O, app_nil_r, firstn_all2 by lia.
    rewrite (skipn_all2 (n := n) l1) by lia. split; reflexivity.
  - assert (Hnil : l2 = []) by (destruct l2; [reflexivity | simpl in Hlen; lia]).
    subst l2. rewrite firstn_nil, skipn_nil, !app_nil_r, firstn_all2 by lia.
    rewrite (skipn_all2 (n := n) l1) by lia. split; reflexivity.
Qed.

(** Batching the results of a pass is passing over the batched stream. *)
Lemma pass_chunks (n : nat) (s : list (result element)) (samples : list element) :
  (0 < n)%nat -> pass s = Ok samples ->
  pass (map (fun chunk => es <- traverse (fun r => r) chunk ;; Ok (EBatch es))
            (Np.chunks n s))
  = Ok (map EBatch (Np.chunks n samples)).
Proof.
  intros Hn.
  assert (H : forall k (s : list (result element)) samples,
             (length s <= k)%nat -> pass s = Ok samples ->
             pass (map (fun chunk =>
                          es <- traverse (fun r => r) chunk ;; Ok (EBatch es))
                       (Np.chunks n s))
             = Ok (map EBatch (Np.chunks n samples))).
  { induction k as [|k IH]; intros s0 samples0 Hk Hs.
    - destruct s0; [|simpl in Hk; lia]. apply Ok_inj in Hs. now subst samples0.
    - destruct s0 as [|r s0].
      { apply Ok_inj in Hs. now subst samples0. }
      pose proof (pass_length _ Hs) as Hlen.
      destruct samples0 as [|e samples0]; [discriminate|].
      rewrite !chunks_cons by assumption. cbn [map].
      rewrite <- (firstn_skipn n (r :: s0)) in Hs.
      apply pass_app_inv in Hs. destruct Hs as (e1 & e2 & H1 & H2 & Heq).
      assert (Hl1 : length e1 = Nat.min n (length (e :: samples0))).
      { rewrite (pass_length _ H1), Hlen. apply length_firstn. }
      destruct (split_at_min n e1 e2 Heq Hl1) as [He1 He2].
      specialize (IH (skipn n (r :: s0)) e2
                     ltac:(rewrite length_skipn; cbn [length] in Hk |- *; lia) H2).
      unfold pass in *. cbn [traverse bind]. rewrite H1. cbn [bind].
      rewrite IH. cbn [bind]. now rewrite He1, He2. }
  intros Hs. apply (H (length s) s samples); [lia | exact Hs].
Qed.

(** The pieces of a list cut at every [n] elements: none is empty, none has
    more than [n] elements, and every piece but the last has [n]. *)
Lemma chunks_lengths {A : Type} (n : nat) (l : list A) :
  (0 < n)%nat ->
  forall i c, nth_error (Np.chunks n l) i = Some c ->
              (0 < length c <= n)%nat
              /\ (S i < length (Np.chunks n l) -> length c = n)%nat.
Proof.
  intros Hn.
  assert (H : forall k (l : list A),
             (length l <= k)%nat ->
             forall i c, nth_error (Np.chunks n l) i = Some c ->
                         (0 < length c <= n)%nat
                         /\ (S i < length (Np.chunks n l) -> length c = n)%nat).
  { induction k as [|k IH]; intros l0 Hk i c Hc.
    - destruct l0; [|simpl in Hk; lia]. destruct i; discriminate.
    - destruct l0 as [|x l0]; [destruct i; discriminate|].
      rewrite chunks_cons in Hc |- * by assumption.
      destruct i as [|i]; cbn [nth_error length] in Hc |- *.
      + injection Hc as <-. rewrite length_firstn. cbn [length]. split; [lia|].
        intros Hmore.
        destruct (skipn n (x :: l0)) as [|y rest] eqn:Hskip; [simpl in Hmore; lia|].
        assert (length (skipn n (x :: l0)) = S (length rest)) by now rewrite Hskip.
        rewrite length_skipn in H. cbn [length] in H. lia.
      + destruct (IH (skipn n (x :: l0))
                    ltac:(rewrite length_skipn; cbn [length] in Hk |- *; lia)
                    i c Hc) as [H1 H2].
        split; [exact H1|]. intros Hmore. apply H2. lia. }
  intros i c. apply (H (length l)). lia.
Qed.

(** X16.  A returned dataset with a batch size [b] yields batches and
    nothing else, cut from the sequence of its samples at every [b] samples:
    no batch is empty or larger than [b], every batch but the last holds
    exactly [b] samples, and the last one holds the remainder, which is not
    dropped. *)
Theorem batches_hold_consecutive_samples
    (U : Utils) (F : Files) (G : Engine) (image_paths : list string)
    (labels : py_labels) (label_mode : option string) (color_mode : string)
    (b : Z) (image_size : Z * Z) (shuffle_flag : bool)
    (seed : option Z) (validation_split : option Q) (subset : option string)
    (interpolation : string) (crop_to_aspect_ratio : bool) (d : datasets)
    (h : dataset_handle) (es : list element) :
  image_dataset_from_paths_and_labels U image_paths labels label_mode color_mode
    (Some b) image_size shuffle_flag seed validation_split subset
    interpolation crop_to_aspect_ratio = Ok d ->
  In h (handles d) ->
  0 < b ->
  iterate F G (pipeline h) = Ok es ->
  es = map EBatch (Np.chunks (Z.to_nat b) (unbatched es))
  /\ forall i e, nth_error es i = Some e ->
       exists xs, e = EBatch xs
                  /\ 0 < Z.of_nat (length xs) <= b
                  /\ ((S i < length es)%nat -> Z.of_nat (length xs) = b).
Proof.
  intros H Hin Hb Hes.
  destruct (@returned_pipeline_shape _ _ _ _ _ _ _ _ _ _ _ _ _ _ h H Hin)
    as (nc & n & i0 & m & ls & shuffle_on & s & Hp & _ & _).
  rewrite Hp in Hes. unfold iterate in Hes. cbn [stream] in Hes.
  fold (pass (map (fun chunk => es <- traverse (fun r => r) chunk ;; Ok (EBatch es))
                  (Np.chunks (Z.to_nat b)
                     (stream F G
                        (if shuffle_on
                         then shuffle
                                (prefetch
                                   (zip (map_load_image
                                           (from_tensor_slices (file_paths h))
                                           image_size nc i0 crop_to_aspect_ratio)
                                        (labels_to_dataset ls m n))) (b * 8) s
                         else prefetch
                                (zip (map_load_image
                                        (from_tensor_slices (file_paths h))
                                        image_size nc i0 crop_to_aspect_ratio)
                                     (labels_to_dataset ls m n))))))) in Hes.
  assert (Hn : (0 < Z.to_nat b)%nat) by lia.
  destruct (@pass_batches _ _ Hes) as [Hsamples _].
  rewrite chunks_concat in Hsamples by assumption.
  pose proof (@pass_chunks _ _ _ Hn Hsamples) as Hchunks.
  rewrite Hes in Hchunks. apply Ok_inj in Hchunks.
  split; [exact Hchunks|]. intros i e He.
  rewrite Hchunks in He. rewrite nth_error_map in He.
  destruct (nth_error (Np.chunks (Z.to_nat b) (unbatched es)) i) as [xs|] eqn:Hxs;
    [|discriminate].
  cbn [option_map] in He. injection He as <-.
  destruct (@chunks_lengths _ _ (unbatched es) Hn i _ Hxs) as [Hlen Hfull].
  exists xs. split; [reflexivity|]. split; [lia|].
  intros Hmore. rewrite Hchunks, length_map in Hmore.
  specialize (Hfull Hmore). lia.
Qed.

Lemma batches_hold_consecutive_samples_witness :
  exists ds es,
    image_dataset_from_paths_and_labels ex_utils ["small.png"; "wide.png"; "large.png"]
      (PySequence (vector [0; 1; 2])) (Some "int") "rgb" (Some 2) (4, 4) false
      (Some 7) None None "bilinear" false = Ok (Single ds)
    /\ iterate ex_files ex_engine (pipeline ds) = Ok es
    /\ map (fun e => length (element_paths e)) es = [2%nat; 1%nat]
    /\ es = map EBatch (Np.chunks 2 (unbatched es)).
Proof.
  eexists. eexists. split; [vm_compute; reflexivity|].
  split; [vm_compute; reflexivity|]. split; [reflexivity|].
  refine (proj1 (@batches_hold_consecutive_samples ex_utils ex_files ex_engine
                   ["small.png"; "wide.png"; "large.png"]
                   (PySequence (vector [0; 1; 2])) (Some "int") "rgb" 2 (4, 4)
                   false (Some 7) None None "bilinear" false _ _ _
                   ltac:(vm_compute; reflexivity) (or_introl eq_refl)
                   ltac:(reflexivity) ltac:(vm_compute; reflexivity))).
Defined.

(** ** Datasets without labels *)

Lemma traverse_all_ok {A B : Type} (f : A -> result B) (l : list A) :
  (forall x, In x l -> exists b, f x = Ok b) ->
  exists bs, traverse f l = Ok bs /\ length bs = length l.
Proof.
  induction l as [|x l IH]; intros Hall.
  - exists []. split; reflexivity.
  - destruct (Hall x (or_introl eq_refl)) as [b Hb].
    destruct IH as (bs & Hbs & Hlen); [intros y Hy; apply Hall; now right|].
    exists (b :: bs). cbn [traverse length]. rewrite Hb, Hbs. cbn [bind].
    split; [reflexivity | now rewrite Hlen].
Qed.

Lemma pass_images (F : Files) (paths : list string) (image_size : Z * Z)
    (num_channels : Z) (interpolation : string) (crop : bool) (es : list element) :
  traverse (fun p =>
              img <- load_image F TF.Graph p image_size num_channels
                                interpolation crop ;;
              Ok (EImage p img)) paths = Ok es ->
  flat_map element_paths es = paths /\ Forall is_image es.
Proof.
  revert es. induction paths as [|p paths IH]; intros es H.
  - apply Ok_inj in H. subst es. split; [reflexivity | constructor].
  - cbn [traverse] in H. bind_inv H. bind_inv H. apply Ok_inj in H. subst es.
    bind_inv Hx. apply Ok_inj in Hx. subst x.
    destruct (IH _ Hx0) as [IH1 IH2]. cbn [flat_map element_paths app].
    split; [now rewrite IH1 | constructor; [exact I | exact IH2]].
Qed.

(** X17.  [paths_and_labels_to_dataset] with a label mode that is None or
    the empty string builds a dataset of images alone, whatever labels and
    class count it is given.  When every path loads, a pass yields one image
    per path, in the order of the paths; otherwise it ends with the error of
    the first path that does not load. *)
Theorem unlabelled_dataset_holds_one_image_per_path
    (F : Files) (G : Engine) (image_paths : list string) (image_size : Z * Z)
    (num_channels : Z) (labels : label_list) (label_mode : option string)
    (num_classes : Z) (interpolation : string) (crop : bool) :
  label_mode = None \/ label_mode = Some "" ->
  let ds := paths_and_labels_to_dataset image_paths image_size num_channels labels
              label_mode num_classes interpolation crop in
  (forall labels' num_classes',
      paths_and_labels_to_dataset image_paths image_size num_channels labels'
        label_mode num_classes' interpolation crop = ds)
  /\ ((forall p, In p image_paths ->
                 exists im, load_image F TF.Graph p image_size num_channels
                              interpolation crop = Ok im) ->
      exists es,
        iterate F G ds = Ok es
        /\ length es = length image_paths
        /\ flat_map element_paths es = image_paths
        /\ Forall is_image es)
  /\ (forall good bad rest e,
         image_paths = good ++ bad :: rest ->
         (forall p, In p good ->
                    exists im, load_image F TF.Graph p image_size num_channels
                                 interpolation crop = Ok im) ->
         load_image F TF.Graph bad image_size num_channels interpolation crop
         = Raise e ->
         iterate F G ds = Raise e).
Proof.
  intros Hmode ds.
  assert (Hds : forall labels' num_classes',
             paths_and_labels_to_dataset image_paths image_size num_channels
               labels' label_mode num_classes' interpolation crop
             = map_load_image (from_tensor_slices image_paths) image_size
                 num_channels interpolation crop).
  { intros labels' n'. destruct Hmode as [-> | ->]; reflexivity. }
  split; [|split].
  - intros labels' n'. unfold ds. now rewrite !Hds.
  - intros Hall. unfold ds. rewrite Hds, iterate_images.
    destruct (@traverse_all_ok _ _
                (fun p =>
                   img <- load_image F TF.Graph p image_size num_channels
                                     interpolation crop ;;
                   Ok (EImage p img)) image_paths) as (es & Hes & Hlen).
    { intros p Hp. destruct (Hall p Hp) as [im Him]. rewrite Him. cbn [bind]. eauto. }
    exists es. split; [exact Hes|]. split; [exact Hlen|].
    now apply pass_images in Hes.
  - intros good bad rest e -> Hgood Hbad. unfold ds.
    rewrite Hds, iterate_images. apply traverse_app_raise.
    + intros p Hp. destruct (Hgood p Hp) as [im Him]. rewrite Him. cbn [bind]. eauto.
    + now rewrite Hbad.
Qed.

Lemma unlabelled_dataset_holds_one_image_per_path_witness :
  (exists es,
      iterate ex_files ex_engine
        (paths_and_labels_to_dataset ["small.png"; "wide.png"] (4, 4) 3
           (IntLabels (vector [5])) None 7 "bilinear" false) = Ok es
      /\ flat_map element_paths es = ["small.png"; "wide.png"])
  /\ iterate ex_files ex_engine
       (paths_and_labels_to_dataset ["small.png"; "multi.dcm"; "wide.png"] (4, 4)
          3 NoLabels None 0 "bilinear" false)
     = Raise (InvalidArgumentError msg_multiframe_dicom)
  /\ iterate ex_files ex_engine
       (paths_and_labels_to_dataset ["colour.dcm"] (4, 4) 3 NoLabels None 0
          "bilinear" false)
     = Raise (InvalidArgumentError msg_incompatible_shape).
Proof.
  split; [|split].
  - destruct (@unlabelled_dataset_holds_one_image_per_path ex_files ex_engine
                ["small.png"; "wide.png"] (4, 4) 3 (IntLabels (vector [5])) None 7
                "bilinear" false (or_introl eq_refl)) as (_ & Hall & _).
    destruct Hall as (es & Hes & _ & Hpaths & _).
    + intros p [<- | [<- | []]]; eexists; vm_compute; reflexivity.
    + exists es. split; [exact Hes | exact Hpaths].
  - destruct (@unlabelled_dataset_holds_one_image_per_path ex_files ex_engine
                ["small.png"; "multi.dcm"; "wide.png"] (4, 4) 3 NoLabels None 0
                "bilinear" false (or_introl eq_refl)) as (_ & _ & Hfail).
    apply (Hfail ["small.png"] "multi.dcm" ["wide.png"]); [reflexivity | |].
    + intros p [<- | []]. eexists. vm_compute. reflexivity.
    + vm_compute. reflexivity.
  - destruct (@unlabelled_dataset_holds_one_image_per_path ex_files ex_engine
                ["colour.dcm"] (4, 4) 3 NoLabels None 0 "bilinear" false
                (or_introl eq_refl)) as (_ & _ & Hfail).
    apply (Hfail [] "colour.dcm" []); [reflexivity | |].
    + intros p [].
    + vm_compute. reflexivity.
Defined.

(** ** The channels of an array image *)

Lemma nth_flat_map_block {A : Type} (f : A -> list A) (k : nat) (d : A) :
  (forall v, length (f v) = k) ->
  (forall v c, (c < k)%nat -> nth c (f v) d = v) ->
  forall (l : list A) (i c : nat),
    (i < length l)%nat -> (c < k)%nat ->
    nth (i * k + c) (flat_map f l) d = nth i l d.
Proof.
  intros Hlen Hcopy. induction l as [|x l IH]; intros i c Hi Hc.
  - simpl in Hi. lia.
  - cbn [flat_map]. destruct i as [|i].
    + cbn [Nat.mul Nat.add nth]. rewrite app_nth1 by (rewrite Hlen; exact Hc).
      now apply Hcopy.
    + rewrite app_nth2 by (rewrite Hlen; lia). rewrite Hlen.
      replace (S i * k + c - k)%nat with (i * k + c)%nat by lia.
      cbn [nth]. apply IH; [simpl in Hi; lia | exact Hc].
Qed.

Lemma length_flat_map_block {A : Type} (f : A -> list A) (k : nat) (l : list A) :
  (forall v, length (f v) = k) -> length (flat_map f l) = (length l * k)%nat.
Proof.
  intros Hlen. induction l as [|x l IH]; [reflexivity|].
  cbn [flat_map length]. rewrite length_app, Hlen, IH. lia.
Qed.

(** X18.  On a well-formed plane of [h] by [w] samples, [numpy_channels]
    returns a well-formed array of shape [(h, w, k)] in which every channel
    is a copy of the plane: [k] is 3 or 4 when that is the requested channel
    count, and 1 for every other requested count. *)
Theorem numpy_channels_copies_the_plane
    (A : Type) (x : Np.ndarray A) (h w : nat) (num_channels : Z) :
  Np.shape x = [h; w] -> Np.well_shaped x ->
  let k := replicated_channels num_channels in
  exists y,
    numpy_channels x num_channels = Some y
    /\ Np.shape y = [h; w; k]
    /\ Np.well_shaped y
    /\ forall (i c : nat) (d : A),
         (i < h * w)%nat -> (c < k)%nat ->
         nth (i * k + c) (Np.data y) d = nth i (Np.data x) d.
Proof.
  intros Hs Hwf k. rewrite (@numpy_channels_plane _ x h w num_channels Hs).
  unfold Np.well_shaped in Hwf. rewrite Hs in Hwf. cbn [Np.size_of fold_right] in Hwf.
  unfold k, replicated_channels.
  destruct (num_channels =? 3); [|destruct (num_channels =? 4)];
    eexists; (split; [reflexivity|]); (split; [reflexivity|]);
    unfold Np.well_shaped; cbn [Np.shape Np.data Np.size_of fold_right].
  - split.
    + rewrite (@length_flat_map_block _ (fun v => [v; v; v]) 3) by reflexivity. lia.
    + intros i c d Hi Hc.
      apply (@nth_flat_map_block _ (fun v => [v; v; v]) 3 d); try assumption;
        try reflexivity; try lia.
      intros v c0 Hc0. destruct c0 as [|[|[|c0]]]; try reflexivity; lia.
  - split.
    + rewrite (@length_flat_map_block _ (fun v => [v; v; v; v]) 4) by reflexivity. lia.
    + intros i c d Hi Hc.
      apply (@nth_flat_map_block _ (fun v => [v; v; v; v]) 4 d); try assumption;
        try reflexivity; try lia.
      intros v c0 Hc0. destruct c0 as [|[|[|[|c0]]]]; try reflexivity; lia.
  - split; [lia|]. intros i c d Hi Hc.
    replace (i * 1 + c)%nat with i by lia. reflexivity.
Qed.

Lemma numpy_channels_copies_the_plane_witness :
  exists y,
    numpy_channels (Np.mk_ndarray [1; 2]%nat [10; 20]) 4 = Some y
    /\ Np.shape y = [1; 2; 4]%nat
    /\ nth 7 (Np.data y) 0 = 20.
Proof.
  destruct (@numpy_channels_copies_the_plane Z (Np.mk_ndarray [1; 2]%nat [10; 20])
              1 2 4 eq_refl eq_refl) as (y & Hy & Hshape & _ & Hcopy).
  exists y. split; [exact Hy|]. split; [exact Hshape|].
  exact (Hcopy 1%nat 3%nat 0 ltac:(cbn; lia) ltac:(cbn; lia)).
Defined.
